(** * Payment instruction parser: a shallow embedding of
      [services/payment-processor/parse-instruction.js] and its properties.

    Conventions of the model.
    - JavaScript strings are [string]s of 7-bit characters; case conversion
      acts on the ASCII letters and whitespace is the ASCII whitespace.
    - JavaScript numbers are the binary64 numbers, [NaN] and the two
      infinities.  A finite number is held as the decimal [m * 10^e] of its
      exact value (every binary64 number has one); [JsNumber.round] takes a
      decimal to the binary64 number nearest to it, and the conversion of a
      string, the subtraction and the addition round their exact result with
      it.  A number of the request is held as it is written there and read
      as the binary64 number nearest to it.  The negative zero is identified
      with zero.
    - The array of account objects is the store: the [Map] built by
      [parseInstruction] holds references, modelled as indices in the array,
      and a balance update is an in-place update of the array.
    - [new Date()] is an explicit argument: the UTC year, month index and
      day of month the three getters of the source return.
    - An exception leaving [parseInstruction] is the outcome [Throws].
    - The request has the shape the schema validator of the source lets
      through: a list of accounts with an id, a balance and a currency, and
      an instruction string. *)

From Stdlib Require Import ZArith Lia Ascii String DecimalString.
From stdpp Require Import base option list strings gmap.

Local Open Scope string_scope.
Local Open Scope Z_scope.

(** ** Strings *)

Module JsString.

Definition is_upper (c : ascii) : bool :=
  let n := nat_of_ascii c in (65 <=? n)%nat && (n <=? 90)%nat.

Definition is_lower (c : ascii) : bool :=
  let n := nat_of_ascii c in (97 <=? n)%nat && (n <=? 122)%nat.

Definition is_digit (c : ascii) : bool :=
  let n := nat_of_ascii c in (48 <=? n)%nat && (n <=? 57)%nat.

(** The white space and line terminators [String.prototype.trim] strips:
    TAB, LF, VT, FF, CR and SPACE. *)
Definition is_space (c : ascii) : bool :=
  let n := nat_of_ascii c in
  ((9 <=? n)%nat && (n <=? 13)%nat) || (n =? 32)%nat.

Definition lower_char (c : ascii) : ascii :=
  if is_upper c then ascii_of_nat (nat_of_ascii c + 32) else c.

Definition upper_char (c : ascii) : ascii :=
  if is_lower c then ascii_of_nat (nat_of_ascii c - 32) else c.

Fixpoint map_chars (f : ascii -> ascii) (s : string) : string :=
  match s with
  | EmptyString => EmptyString
  | String c s' => String (f c) (map_chars f s')
  end.

Definition toLowerCase : string -> string := map_chars lower_char.
Definition toUpperCase : string -> string := map_chars upper_char.

Fixpoint trimStart (s : string) : string :=
  match s with
  | String c s' => if is_space c then trimStart s' else s
  | EmptyString => EmptyString
  end.

Fixpoint trimEnd (s : string) : string :=
  match s with
  | EmptyString => EmptyString
  | String c s' =>
      match trimEnd s' with
      | EmptyString => if is_space c then EmptyString else String c EmptyString
      | t => String c t
      end
  end.

Definition trim (s : string) : string := trimEnd (trimStart s).

(** [s.split(sep)] for a one-character separator: a string with [n]
    separators gives [n + 1] pieces, empty ones included. *)
Fixpoint split (sep : ascii) (s : string) : list string :=
  match s with
  | EmptyString => [EmptyString]
  | String c s' =>
      if Ascii.eqb c sep then EmptyString :: split sep s'
      else match split sep s' with
           | w :: ws => String c w :: ws
           | [] => [String c EmptyString]
           end
  end.

(** [s.includes(c)] for a one-character needle. *)
Fixpoint includes (c : ascii) (s : string) : bool :=
  match s with
  | EmptyString => false
  | String d s' => Ascii.eqb d c || includes c s'
  end.

(** [s.slice(i, j)] for [0 <= i <= j]. *)
Definition slice (i j : nat) (s : string) : string :=
  substring i (j - i) s.

(** [s[i]], [undefined] past the end. *)
Definition at_index (s : string) (i : nat) : option ascii := String.get i s.

Fixpoint all_chars (p : ascii -> bool) (s : string) : bool :=
  match s with
  | EmptyString => true
  | String c s' => p c && all_chars p s'
  end.

(** Truthiness of a value that is a string or [null]. *)
Definition truthy (v : option string) : bool :=
  match v with
  | Some (String _ _) => true
  | _ => false
  end.

End JsString.

Import JsString.

(** ** Numbers *)

Inductive num : Type :=
| NaN
| Inf (negative : bool)
| Fin (m e : Z).

Inductive jsval : Type :=
| VNull
| VNum (n : num)
| VStr (s : string).

Module JsNumber.

(** Both mantissas at the smaller of the two exponents. *)
Definition align (m1 e1 m2 e2 : Z) : Z * Z * Z :=
  let e := Z.min e1 e2 in (m1 * 10 ^ (e1 - e), m2 * 10 ^ (e2 - e), e).

(** [a < b] on numbers; false when either side is [NaN]. *)
Definition ltb (a b : num) : bool :=
  match a, b with
  | NaN, _ | _, NaN => false
  | Inf true, Inf true => false
  | Inf true, _ => true
  | Inf false, _ => false
  | Fin _ _, Inf negative => negb negative
  | Fin m1 e1, Fin m2 e2 =>
      let '(a1, a2, _) := align m1 e1 m2 e2 in a1 <? a2
  end.

(** [a === b] on numbers. *)
Definition eqb (a b : num) : bool :=
  match a, b with
  | Inf s, Inf t => Bool.eqb s t
  | Fin m1 e1, Fin m2 e2 =>
      let '(a1, a2, _) := align m1 e1 m2 e2 in a1 =? a2
  | _, _ => false
  end.

(** [a <= b]: [a < b] or [a == b], false when either side is [NaN]. *)
Definition leb (a b : num) : bool := ltb a b || eqb a b.

(** [a > b] is [b < a]. *)
Definition gtb (a b : num) : bool := ltb b a.

(** The mantissa [M] and the exponent [p] of the binary64 number [M * 2^p]
    nearest to the positive rational [n / d], a tie going to the even
    mantissa: [2^k] is the power of two at or just below [n / d], [p] is
    [k - 52] and at least -1074, and [M] is at most [2^53]. *)
Definition nearest (n d : Z) : Z * Z :=
  let k0 := Z.log2 n - Z.log2 d in
  let k :=
    if (if 0 <=? k0 then d * 2 ^ k0 <=? n else d <=? n * 2 ^ (- k0))
    then k0 else k0 - 1 in
  let p := Z.max (k - 52) (-1074) in
  let N := if p <? 0 then n * 2 ^ (- p) else n in
  let D := if p <? 0 then d else d * 2 ^ p in
  let q := N / D in
  let r := N mod D in
  let M :=
    if 2 * r <? D then q
    else if D <? 2 * r then q + 1
    else if Z.even q then q else q + 1 in
  (M, p).

(** The power of two in a positive number, and the odd part it leaves. *)
Fixpoint twos (p : positive) : Z * Z :=
  match p with
  | xO q => let (k, r) := twos q in (k + 1, r)
  | _ => (0, Zpos p)
  end.

(** [M * 2^p] with its sign, as a decimal; infinite from [2^1024] on. *)
Definition of_binary (negative : bool) (M p : Z) : num :=
  let signed (z : Z) := if negative then - z else z in
  if 0 <=? p then
    if 2 ^ 1024 <=? M * 2 ^ p then Inf negative
    else Fin (signed (M * 2 ^ p)) 0
  else if M mod 2 ^ (- p) =? 0 then Fin (signed (M / 2 ^ (- p))) 0
  else
    let '(k, r) := match M with Zpos q => twos q | _ => (0, M) end in
    Fin (signed (r * 5 ^ (- p - k))) (p + k).

(** The binary64 number nearest to a decimal (round to nearest, ties to
    even): what a number is once it is read from a literal or a string and
    what an arithmetic operation makes of its exact result. *)
Definition round (x : num) : num :=
  match x with
  | Fin m e =>
      if m =? 0 then Fin 0 0
      else
        let '(M, p) :=
          if 0 <=? e then nearest (Z.abs m * 10 ^ e) 1
          else nearest (Z.abs m) (10 ^ (- e)) in
        of_binary (m <? 0) M p
  | _ => x
  end.

Definition sub (a b : num) : num :=
  match a, b with
  | NaN, _ | _, NaN => NaN
  | Inf s, Inf t => if Bool.eqb s t then NaN else Inf s
  | Inf s, Fin _ _ => Inf s
  | Fin _ _, Inf t => Inf (negb t)
  | Fin m1 e1, Fin m2 e2 =>
      let '(a1, a2, e) := align m1 e1 m2 e2 in round (Fin (a1 - a2) e)
  end.

Definition add (a b : num) : num :=
  match a, b with
  | NaN, _ | _, NaN => NaN
  | Inf s, Inf t => if Bool.eqb s t then Inf s else NaN
  | Inf s, Fin _ _ => Inf s
  | Fin _ _, Inf t => Inf t
  | Fin m1 e1, Fin m2 e2 =>
      let '(a1, a2, e) := align m1 e1 m2 e2 in round (Fin (a1 + a2) e)
  end.

(** [a % b]: the remainder has the sign of the dividend; the remainder of
    two binary64 numbers is one, so that nothing is rounded. *)
Definition rem (a b : num) : num :=
  match a, b with
  | Fin m1 e1, Fin m2 e2 =>
      let '(a1, a2, e) := align m1 e1 m2 e2 in
      if a2 =? 0 then NaN else Fin (Z.rem a1 a2) e
  | Fin m1 e1, Inf _ => Fin m1 e1
  | _, _ => NaN
  end.

Definition digit_of (c : ascii) : option Z :=
  let n := Z.of_nat (nat_of_ascii c) in
  if is_digit c then Some (n - 48)
  else if (97 <=? n) && (n <=? 102) then Some (n - 87)
  else if (65 <=? n) && (n <=? 70) then Some (n - 55)
  else None.

(** The value of a non-empty string of digits in the given radix. *)
Fixpoint radix_value_from (radix acc : Z) (s : string) : option Z :=
  match s with
  | EmptyString => Some acc
  | String c s' =>
      match digit_of c with
      | Some d =>
          if d <? radix then radix_value_from radix (acc * radix + d) s'
          else None
      | None => None
      end
  end.

Definition radix_value (radix : Z) (s : string) : option Z :=
  match s with
  | EmptyString => None
  | _ => radix_value_from radix 0 s
  end.

(** The value of a string of decimal digits, left to right ([0] for the
    empty string). *)
Fixpoint digits_value_from (acc : Z) (s : string) : Z :=
  match s with
  | EmptyString => acc
  | String c s' =>
      digits_value_from (acc * 10 + (Z.of_nat (nat_of_ascii c) - 48)) s'
  end.

Definition digits_value (s : string) : Z := digits_value_from 0 s.

(** The longest prefix of decimal digits, and what follows it. *)
Fixpoint span_digits (s : string) : string * string :=
  match s with
  | String c s' =>
      if is_digit c
      then let (ds, rest) := span_digits s' in (String c ds, rest)
      else (EmptyString, s)
  | EmptyString => (EmptyString, EmptyString)
  end.

(** NonDecimalIntegerLiteral: [0x], [0o] or [0b] (either case) and digits. *)
Definition non_decimal (s : string) : option Z :=
  match s with
  | String "0" (String p ds) =>
      if Ascii.eqb p "x" || Ascii.eqb p "X" then radix_value 16 ds
      else if Ascii.eqb p "o" || Ascii.eqb p "O" then radix_value 8 ds
      else if Ascii.eqb p "b" || Ascii.eqb p "B" then radix_value 2 ds
      else None
  | _ => None
  end.

(** ExponentPart, or nothing: the exponent it denotes. *)
Definition exponent_part (s : string) : option Z :=
  match s with
  | EmptyString => Some 0
  | String c s' =>
      if Ascii.eqb c "e" || Ascii.eqb c "E" then
        let '(negative, ds) :=
          match s' with
          | String "-" r => (true, r)
          | String "+" r => (false, r)
          | _ => (false, s')
          end in
        match ds with
        | EmptyString => None
        | _ => if all_chars is_digit ds
               then Some (if negative then - digits_value ds else digits_value ds)
               else None
        end
      else None
  end.

(** StrUnsignedDecimalLiteral, [Infinity] apart: the decimal as written. *)
Definition unsigned_decimal (negative : bool) (s : string) : num :=
  let (ip, r1) := span_digits s in
  let (fp, r2) :=
    match r1 with
    | String "." r => span_digits r
    | _ => (EmptyString, r1)
    end in
  match ip, fp with
  | EmptyString, EmptyString => NaN
  | _, _ =>
      match exponent_part r2 with
      | Some ex =>
          let m := digits_value (String.append ip fp) in
          Fin (if negative then - m else m) (ex - Z.of_nat (String.length fp))
      | None => NaN
      end
  end.

Definition str_decimal (s : string) : num :=
  let '(negative, u) :=
    match s with
    | String "-" r => (true, r)
    | String "+" r => (false, r)
    | _ => (false, s)
    end in
  if String.eqb u "Infinity" then Inf negative
  else unsigned_decimal negative u.

(** StringToNumber: what [Number(s)] and the coercion in [x - s] compute,
    the value the string denotes rounded to binary64. *)
Definition StringToNumber (s : string) : num :=
  match trim s with
  | EmptyString => Fin 0 0
  | t => match non_decimal t with
         | Some n => round (Fin n 0)
         | None => round (str_decimal t)
         end
  end.

Definition digits_of_pos (p : positive) : string :=
  NilEmpty.string_of_uint (Pos.to_uint p).

(** The digits without the trailing zeros, and how many were dropped. *)
Fixpoint strip_zeros (s : string) : string * nat :=
  match s with
  | EmptyString => (EmptyString, 0%nat)
  | String c s' =>
      let (t, k) := strip_zeros s' in
      match t with
      | EmptyString =>
          if Ascii.eqb c "0" then (EmptyString, S k)
          else (String c EmptyString, k)
      | _ => (String c t, k)
      end
  end.

Fixpoint zeros (n : nat) : string :=
  match n with
  | O => EmptyString
  | S n' => String "0" (zeros n')
  end.

(** The notation of Number::toString in radix 10 for the digits and the
    exponent of the positive decimal [p * 10^e]. *)
Definition pos_toString (p : positive) (e : Z) : string :=
  let (ds, z) := strip_zeros (digits_of_pos p) in
  let k := Z.of_nat (String.length ds) in
  let n := k + e + Z.of_nat z in
  if (k <=? n) && (n <=? 21) then
    String.append ds (zeros (Z.to_nat (n - k)))
  else if (0 <? n) && (n <=? 21) then
    String.append (substring 0 (Z.to_nat n) ds)
      (String "." (substring (Z.to_nat n) (Z.to_nat (k - n)) ds))
  else if (-6 <? n) && (n <=? 0) then
    String.append "0." (String.append (zeros (Z.to_nat (- n))) ds)
  else
    let ex := n - 1 in
    let exs :=
      String.append (if ex <? 0 then "-" else "+")
        match Z.abs ex with
        | Zpos q => digits_of_pos q
        | _ => "0"
        end in
    match ds with
    | String d EmptyString => String d (String "e" exs)
    | String d rest => String d (String "." (String.append rest (String "e" exs)))
    | EmptyString => EmptyString
    end.

(** The digits [s] and the exponent [x] of the shortest decimal [s * 10^x]
    that reads back as the positive number [v], whose digits are [ds] and
    which is [0.ds * 10^n].  With [k] digits the candidates are the first
    [k] digits of [v] and their successor; of two that read back as [v] the
    one closer to [v] is taken, the even one when they are as close. *)
Fixpoint shortest_from (fuel k : nat) (v : num) (ds : string) (n : Z)
  : Z * Z :=
  match fuel with
  | O => (digits_value ds, n - Z.of_nat (String.length ds))
  | S fuel' =>
      let x := n - Z.of_nat k in
      let lo := digits_value (substring 0 k ds) in
      let hi := lo + 1 in
      let reads s := eqb (round (Fin s x)) v in
      if reads lo && reads hi then
        match v with
        | Fin m e =>
            let '(a, l, _) := align m e lo x in
            let '(_, h, _) := align m e hi x in
            if a - l <? h - a then (lo, x)
            else if h - a <? a - l then (hi, x)
            else if Z.even lo then (lo, x) else (hi, x)
        | _ => (lo, x)
        end
      else if reads lo then (lo, x)
      else if reads hi then (hi, x)
      else shortest_from fuel' (S k) v ds n
  end.

Definition shortest (p : positive) (e : Z) : Z * Z :=
  let (ds, z) := strip_zeros (digits_of_pos p) in
  let n := Z.of_nat (String.length ds) + e + Z.of_nat z in
  shortest_from (String.length ds) 1 (Fin (Zpos p) e) ds n.

(** Number::toString in radix 10 of the positive binary64 number
    [p * 10^e]: the notation of the shortest decimal that reads back as
    it. *)
Definition pos_shortest (p : positive) (e : Z) : string :=
  match shortest p e with
  | (Zpos s, x) => pos_toString s x
  | _ => pos_toString p e
  end.

Definition toString (n : num) : string :=
  match n with
  | NaN => "NaN"
  | Inf false => "Infinity"
  | Inf true => "-Infinity"
  | Fin Z0 _ => "0"
  | Fin (Zpos p) e => pos_shortest p e
  | Fin (Zneg p) e => String "-" (pos_shortest p e)
  end.

(** [Number.isNaN(v)]: no coercion, true for the number [NaN] only. *)
Definition isNaN (v : jsval) : bool :=
  match v with
  | VNum NaN => true
  | _ => false
  end.

(** The integer part of a finite number (truncation toward zero). *)
Definition to_integer (n : num) : option Z :=
  match n with
  | Fin m e => Some (if 0 <=? e then m * 10 ^ e else Z.quot m (10 ^ (- e)))
  | _ => None
  end.

End JsNumber.

(** ToNumber and ToString on the values the program handles.  A number is
    read as the binary64 number nearest to the decimal that holds it, which
    is the number itself when it is a binary64 number. *)
Definition ToNumber (v : jsval) : num :=
  match v with
  | VNull => Fin 0 0
  | VNum n => JsNumber.round n
  | VStr s => JsNumber.StringToNumber s
  end.

Definition ToString (v : jsval) : string :=
  match v with
  | VNull => "null"
  | VNum n => JsNumber.toString (JsNumber.round n)
  | VStr s => s
  end.

(** [Number(s)] for a string [s]. *)
Definition Number (s : string) : num := JsNumber.StringToNumber s.

(** A field of the parsed instruction, a string or [null], as a value. *)
Definition field_value (f : option string) : jsval :=
  match f with
  | Some s => VStr s
  | None => VNull
  end.

(** [l - r] and [l + r]: the subtraction coerces both sides to numbers, the
    addition concatenates as soon as one side is a string; the result of
    either on numbers is rounded to binary64. *)
Definition js_sub (l r : jsval) : jsval :=
  VNum (JsNumber.sub (ToNumber l) (ToNumber r)).

Definition js_add (l r : jsval) : jsval :=
  match l, r with
  | VStr _, _ | _, VStr _ => VStr (String.append (ToString l) (ToString r))
  | _, _ => VNum (JsNumber.add (ToNumber l) (ToNumber r))
  end.

(** ** Dates: [Date.UTC] after ECMA-262 *)

Module JsDate.

Definition msPerDay : Z := 86400000.

Definition DaysInYear (y : Z) : Z :=
  if negb (y mod 4 =? 0) then 365
  else if negb (y mod 100 =? 0) then 366
  else if negb (y mod 400 =? 0) then 365
  else 366.

Definition DayFromYear (y : Z) : Z :=
  365 * (y - 1970) + (y - 1969) / 4 - (y - 1901) / 100 + (y - 1601) / 400.

Definition InLeapYear (y : Z) : Z := if DaysInYear y =? 366 then 1 else 0.

(** The day within the year of the first day of month [mn] (0 to 11). *)
Definition month_start (mn leap : Z) : Z :=
  match mn with
  | 0 => 0
  | 1 => 31
  | 2 => 59 + leap
  | 3 => 90 + leap
  | 4 => 120 + leap
  | 5 => 151 + leap
  | 6 => 181 + leap
  | 7 => 212 + leap
  | 8 => 243 + leap
  | 9 => 273 + leap
  | 10 => 304 + leap
  | _ => 334 + leap
  end.

Definition MakeDay (year month date : Z) : Z :=
  let ym := year + month / 12 in
  let mn := month mod 12 in
  DayFromYear ym + month_start mn (InLeapYear ym) + date - 1.

Definition MakeFullYear (y : Z) : Z :=
  if (0 <=? y) && (y <=? 99) then 1900 + y else y.

Definition TimeClip (t : Z) : num :=
  if 8640000000000000 <? Z.abs t then NaN else Fin t 0.

(** [Date.UTC(year, month, date)]. *)
Definition UTC (year month date : num) : num :=
  match JsNumber.to_integer year, JsNumber.to_integer month,
        JsNumber.to_integer date with
  | Some y, Some m, Some dt =>
      TimeClip (MakeDay (MakeFullYear y) m dt * msPerDay)
  | _, _, _ => NaN
  end.

End JsDate.

(** What [new Date()] is read for: the three UTC getters. *)
Record Date : Type := {
  getUTCFullYear : Z;
  getUTCMonth : Z;
  getUTCDate : Z
}.

(** ** The program *)

(** The property names every object literal inherits from
    [Object.prototype]; the [in] operator sees them. *)
Definition Object_prototype : list string :=
  ["constructor"; "__defineGetter__"; "__defineSetter__"; "hasOwnProperty";
   "__lookupGetter__"; "__lookupSetter__"; "isPrototypeOf";
   "propertyIsEnumerable"; "toString"; "valueOf"; "__proto__";
   "toLocaleString"].

Definition own_property {A : Type} (obj : list (string * A)) (key : string)
  : option A :=
  snd <$> List.find (fun kv => String.eqb (fst kv) key) obj.

(** [key in obj] for an object literal [obj]. *)
Definition js_in {A : Type} (key : string) (obj : list (string * A)) : bool :=
  match own_property obj key with
  | Some _ => true
  | None => existsb (String.eqb key) Object_prototype
  end.

Definition SUPPORTED_TYPE : list (string * string) :=
  [("credit", "CREDIT"); ("debit", "DEBIT")].

Definition SUPPORTED_CURRENCIES : list (string * string) :=
  [("usd", "USD"); ("ngn", "NGN"); ("gbp", "GBP"); ("ghs", "GHS")].

(** The keys of a [fields] table. *)
Module Field.
Inductive t : Type :=
| type | amount | currency | debit_account | credit_account | execute_by.
End Field.

Definition PARSER_CONFIG : list (string * list (Field.t * nat)) :=
  [("credit",
    [(Field.type, 0); (Field.amount, 1); (Field.currency, 2);
     (Field.credit_account, 5); (Field.debit_account, 10);
     (Field.execute_by, 12)]%nat);
   ("debit",
    [(Field.type, 0); (Field.amount, 1); (Field.currency, 2);
     (Field.debit_account, 5); (Field.credit_account, 10);
     (Field.execute_by, 12)]%nat)].

(** The messages of the catalog [PaymentMessages], by key. *)
Inductive PaymentMessages : Type :=
| FAILED_GENERIC
| MALFORMED_INSTRUCTION
| INVALID_AMOUNT
| UNSUPPORTED_CURRENCY
| INVALID_ACCOUNT_ID
| ACCOUNT_NOT_FOUND
| SAME_ACCOUNT_ERROR
| CURRENCY_MISMATCH
| MISSING_KEYWORD
| INSUFFICIENT_FUNDS
| INVALID_DATE_FORMAT
| TRANSACTION_PENDING
| TRANSACTION_SUCCESSFUL.

Definition allowed : string :=
  "abcdefghijklmnopqrstuvwxyzABCDEFGHIJKLMNOPQRSTUVWXYZ0123456789-.@".

Definition isValidAccountId (id : option string) : bool :=
  if negb (truthy id) then false
  else match id with
       | Some s => all_chars (fun c => includes c allowed) s
       | None => false
       end.

Definition daysInMonth : list num :=
  [Fin 0 0; Fin 31 0; Fin 28 0; Fin 31 0; Fin 30 0; Fin 31 0; Fin 30 0;
   Fin 31 0; Fin 31 0; Fin 30 0; Fin 31 0; Fin 30 0; Fin 31 0].

(** [arr[i]] for a number [i]: [undefined], here [NaN] once compared, when
    [i] is no index of the array. *)
Definition array_at (arr : list num) (i : num) : num :=
  let element (k : Z) :=
    if k <? 0 then NaN else default NaN (arr !! Z.to_nat k) in
  match i with
  | Fin m e =>
      if 0 <=? e then element (m * 10 ^ e)
      else if m mod 10 ^ (- e) =? 0 then element (m / 10 ^ (- e))
      else NaN
  | _ => NaN
  end.

Definition isValidDateYYYYMMDD (dateStr : string) : bool :=
  if negb (truthy (Some dateStr)) then false
  else if negb (String.length dateStr =? 10)%nat then false
  else if negb (bool_decide (at_index dateStr 4 = Some "-"%char))
          || negb (bool_decide (at_index dateStr 7 = Some "-"%char))
  then false
  else
    let yearStr := slice 0 4 dateStr in
    let monthStr := slice 5 7 dateStr in
    let dayStr := slice 8 10 dateStr in
    let combined := String.append yearStr (String.append monthStr dayStr) in
    if negb (all_chars
               (fun c => negb ((nat_of_ascii c <? 48)%nat
                               || (57 <? nat_of_ascii c)%nat)) combined)
    then false
    else
      let year := Number yearStr in
      let month := Number monthStr in
      let day := Number dayStr in
      if JsNumber.ltb year (Fin 1000 0) || JsNumber.gtb year (Fin 9999 0)
      then false
      else if JsNumber.ltb month (Fin 1 0) || JsNumber.gtb month (Fin 12 0)
      then false
      else
        let isLeap :=
          (JsNumber.eqb (JsNumber.rem year (Fin 4 0)) (Fin 0 0)
           && negb (JsNumber.eqb (JsNumber.rem year (Fin 100 0)) (Fin 0 0)))
          || JsNumber.eqb (JsNumber.rem year (Fin 400 0)) (Fin 0 0) in
        if isLeap && JsNumber.eqb month (Fin 2 0) then
          if JsNumber.ltb day (Fin 1 0) || JsNumber.gtb day (Fin 29 0)
          then false else true
        else if JsNumber.ltb day (Fin 1 0)
                || JsNumber.gtb day (array_at daysInMonth month)
        then false
        else true.

Module Parsed.
Record t : Type := {
  type : option string;
  amount : option string;
  currency : option string;
  debit_account : option string;
  credit_account : option string;
  execute_by : option string
}.

Definition empty : t :=
  {| type := None; amount := None; currency := None;
     debit_account := None; credit_account := None; execute_by := None |}.

(** [info[key] = value] *)
Definition set (info : t) (key : Field.t) (value : option string) : t :=
  match key with
  | Field.type =>
      {| type := value; amount := amount info; currency := currency info;
         debit_account := debit_account info;
         credit_account := credit_account info;
         execute_by := execute_by info |}
  | Field.amount =>
      {| type := type info; amount := value; currency := currency info;
         debit_account := debit_account info;
         credit_account := credit_account info;
         execute_by := execute_by info |}
  | Field.currency =>
      {| type := type info; amount := amount info; currency := value;
         debit_account := debit_account info;
         credit_account := credit_account info;
         execute_by := execute_by info |}
  | Field.debit_account =>
      {| type := type info; amount := amount info; currency := currency info;
         debit_account := value;
         credit_account := credit_account info;
         execute_by := execute_by info |}
  | Field.credit_account =>
      {| type := type info; amount := amount info; currency := currency info;
         debit_account := debit_account info;
         credit_account := value;
         execute_by := execute_by info |}
  | Field.execute_by =>
      {| type := type info; amount := amount info; currency := currency info;
         debit_account := debit_account info;
         credit_account := credit_account info;
         execute_by := value |}
  end.
End Parsed.

Module Account.
Record t : Type := {
  id : string;
  balance : jsval;
  currency : string
}.

Definition with_balance (a : t) (b : jsval) : t :=
  {| id := id a; balance := b; currency := currency a |}.
End Account.

(** An entry of the [accounts] list of a response. *)
Module Snapshot.
Record t : Type := {
  id : string;
  balance : jsval;
  balance_before : jsval;
  currency : string
}.
End Snapshot.

Inductive Status : Type := successful | pending | failed.

Module ValidationError.
Record t : Type := { code : string; message : PaymentMessages }.
End ValidationError.

Module Response.
Record t : Type := {
  type : option string;
  amount : option num;
  currency : option string;
  debit_account : option string;
  credit_account : option string;
  execute_by : option string;
  status : Status;
  status_reason : PaymentMessages;
  status_code : string;
  accounts : list Snapshot.t
}.

(** The response [parseInstruction] starts from. *)
Definition initial : t :=
  {| type := None; amount := None; currency := None;
     debit_account := None; credit_account := None; execute_by := None;
     status := failed; status_reason := FAILED_GENERIC;
     status_code := "PR01"; accounts := [] |}.

(** The three assignments of a failing branch. *)
Definition fail (r : t) (reason : PaymentMessages) (code : string) : t :=
  {| type := type r; amount := amount r; currency := currency r;
     debit_account := debit_account r; credit_account := credit_account r;
     execute_by := execute_by r;
     status := failed; status_reason := reason; status_code := code;
     accounts := accounts r |}.
End Response.

(** What a call of [parseInstruction] ends in: an exception, or a response
    and the array of accounts as the call leaves it. *)
Inductive outcome : Type :=
| Throws
| Returns (response : Response.t) (accounts : list Account.t).

(** [instruction.split(' ').map((w) => w.trim()).filter(Boolean)] *)
Definition tokenize (instruction : string) : list string :=
  List.filter (fun w => truthy (Some w))
    (List.map trim (split " " instruction)).

Definition parseInstructionData (instruction : string) : option Parsed.t :=
  let words := tokenize instruction in
  let first := toLowerCase <$> words !! 0%nat in
  let info := Parsed.empty in
  match first with
  | Some f =>
      if truthy first && js_in f SUPPORTED_TYPE then
        match own_property PARSER_CONFIG f with
        | Some fields =>
            Some (fold_left
                    (fun info '(key, index) =>
                       let value := words !! index in
                       let value :=
                         match key with
                         | Field.currency =>
                             if truthy value then toUpperCase <$> value
                             else value
                         | _ => value
                         end in
                       Parsed.set info key value)
                    fields info)
        | None => None
        end
      else Some info
  | None => Some info
  end.

(** The [Map] from account id to account object: the object is the index it
    has in the array. *)
Definition accountsMap_of (accounts : list Account.t) : gmap string nat :=
  fold_left (fun m '(i, a) => <[Account.id a := i]> m)
    (imap pair accounts) ∅.

(** [accountsMap.get(key)] followed by the dereference. *)
Definition Map_get (accounts : list Account.t) (accountsMap : gmap string nat)
    (key : option string) : option (nat * Account.t) :=
  k ← key; i ← accountsMap !! k; a ← accounts !! i; Some (i, a).

Definition error (code : string) (message : PaymentMessages)
  : option ValidationError.t :=
  Some {| ValidationError.code := code; ValidationError.message := message |}.

Definition validateParsedFields (parsed : Parsed.t)
    (accounts : list Account.t) (accountsMap : gmap string nat)
  : option ValidationError.t :=
  match Parsed.type parsed with
  | None => error "PR01" MALFORMED_INSTRUCTION
  | Some type =>
  if negb (truthy (Parsed.amount parsed))
     || JsNumber.isNaN (field_value (Parsed.amount parsed))
  then error "AM01" INVALID_AMOUNT
  else
  if includes "." (default "" (Parsed.amount parsed))
  then error "AM01" INVALID_AMOUNT
  else
  let amount := ToNumber (field_value (Parsed.amount parsed)) in
  if JsNumber.leb amount (Fin 0 0) then error "AM01" INVALID_AMOUNT
  else
  if negb (truthy (Parsed.currency parsed))
     || negb (js_in (toLowerCase (default "" (Parsed.currency parsed)))
                SUPPORTED_CURRENCIES)
  then error "CU02" UNSUPPORTED_CURRENCY
  else
  if negb (isValidAccountId (Parsed.debit_account parsed))
     && negb (isValidAccountId (Parsed.credit_account parsed))
  then error "AC04" INVALID_ACCOUNT_ID
  else
  match Map_get accounts accountsMap (Parsed.debit_account parsed),
        Map_get accounts accountsMap (Parsed.credit_account parsed) with
  | Some (_, debit), Some (_, credit) =>
      if bool_decide (Parsed.debit_account parsed = Parsed.credit_account parsed)
      then error "AC02" SAME_ACCOUNT_ERROR
      else
      if negb (String.eqb (toUpperCase (Account.currency debit))
                 (toUpperCase (Account.currency credit)))
      then error "CU01" CURRENCY_MISMATCH
      else
      let typeNormalized := toLowerCase type in
      let isCredit := String.eqb typeNormalized "credit" in
      let isDebit := String.eqb typeNormalized "debit" in
      if negb isCredit && negb isDebit
      then error "SY03" MISSING_KEYWORD
      else
      if bool_decide (Some type = own_property SUPPORTED_TYPE "debit")
         && JsNumber.ltb (ToNumber (Account.balance debit)) amount
      then error "AC01" INSUFFICIENT_FUNDS
      else
      if truthy (Parsed.execute_by parsed)
         && negb (isValidDateYYYYMMDD (default "" (Parsed.execute_by parsed)))
      then error "DT01" INVALID_DATE_FORMAT
      else None
  | _, _ => error "AC03" ACCOUNT_NOT_FOUND
  end
  end.

(** [obj.balance -= v] and [obj.balance += v] on the object at index [i]. *)
Definition balance_sub_assign (accounts : list Account.t) (i : nat) (v : jsval)
  : list Account.t :=
  match accounts !! i with
  | Some a => <[i := Account.with_balance a (js_sub (Account.balance a) v)]> accounts
  | None => accounts
  end.

Definition balance_add_assign (accounts : list Account.t) (i : nat) (v : jsval)
  : list Account.t :=
  match accounts !! i with
  | Some a => <[i := Account.with_balance a (js_add (Account.balance a) v)]> accounts
  | None => accounts
  end.

Definition parseInstruction (now : Date) (accounts : list Account.t)
    (instruction : string) : outcome :=
  let response := Response.initial in
  let instruction := trim instruction in
  let accountsMap := accountsMap_of accounts in
  match parseInstructionData instruction with
  | None => Throws
  | Some parsed =>
  if negb (truthy (Parsed.type parsed)) then
    Returns (Response.fail response MALFORMED_INSTRUCTION "SY03") accounts
  else
  match validateParsedFields parsed accounts accountsMap with
  | Some validationError =>
      Returns (Response.fail response
                 (ValidationError.message validationError)
                 (ValidationError.code validationError)) accounts
  | None =>
  match Map_get accounts accountsMap (Parsed.debit_account parsed),
        Map_get accounts accountsMap (Parsed.credit_account parsed) with
  | Some (debit, debit_obj), Some (credit, credit_obj) =>
      let debitBefore := Account.balance debit_obj in
      let creditBefore := Account.balance credit_obj in
      let '(executeStatus, code) :=
        if truthy (Parsed.execute_by parsed) then
          let yyyyMMdd := default "" (Parsed.execute_by parsed) in
          let execUTC :=
            JsDate.UTC (Number (slice 0 4 yyyyMMdd))
              (JsNumber.sub (Number (slice 5 7 yyyyMMdd)) (Fin 1 0))
              (Number (slice 8 10 yyyyMMdd)) in
          let todayUTC :=
            JsDate.UTC (Fin (getUTCFullYear now) 0) (Fin (getUTCMonth now) 0)
              (Fin (getUTCDate now) 0) in
          if JsNumber.gtb execUTC todayUTC then (pending, "AP02")
          else (successful, "AP00")
        else (successful, "AP00") in
      let amount := field_value (Parsed.amount parsed) in
      let accounts' :=
        match executeStatus with
        | successful =>
            if bool_decide (Parsed.type parsed = own_property SUPPORTED_TYPE "debit")
            then balance_add_assign (balance_sub_assign accounts debit amount)
                   credit amount
            else balance_sub_assign (balance_add_assign accounts credit amount)
                   debit amount
        | _ => accounts
        end in
      let finalAccounts :=
        List.map
          (fun acc =>
             {| Snapshot.id := Account.id acc;
                Snapshot.balance := Account.balance acc;
                Snapshot.balance_before :=
                  if bool_decide (Some (Account.id acc) = Parsed.debit_account parsed)
                  then debitBefore else creditBefore;
                Snapshot.currency := toUpperCase (Account.currency acc) |})
          (List.filter
             (fun acc =>
                bool_decide (Some (Account.id acc) = Parsed.debit_account parsed)
                || bool_decide (Some (Account.id acc) = Parsed.credit_account parsed))
             accounts') in
      Returns
        {| Response.type := Parsed.type parsed;
           Response.amount :=
             if truthy (Parsed.amount parsed)
             then Some (ToNumber (field_value (Parsed.amount parsed)))
             else None;
           Response.currency := Parsed.currency parsed;
           Response.debit_account := Parsed.debit_account parsed;
           Response.credit_account := Parsed.credit_account parsed;
           Response.execute_by := Parsed.execute_by parsed;
           Response.status := executeStatus;
           Response.status_code := code;
           Response.status_reason :=
             match executeStatus with
             | pending => TRANSACTION_PENDING
             | _ => TRANSACTION_SUCCESSFUL
             end;
           Response.accounts := finalAccounts |}
        accounts'
  | _, _ => Throws
  end
  end
  end.

(** ** Vocabulary of the statements *)

(** The first token of an instruction, lower-cased, as [parseInstruction]
    hands it to the parser. *)
Definition first_keyword (instruction : string) : option string :=
  toLowerCase <$> tokenize (trim instruction) !! 0%nat.

(** An account with a numeric balance, as the request schema delivers it. *)
Definition acct (i : string) (b : Z) (c : string) : Account.t :=
  {| Account.id := i; Account.balance := VNum (Fin b 0);
     Account.currency := c |}.

(** The calendar in the words of the specification. *)
Definition leap_year (y : Z) : Prop :=
  ((4 | y) /\ ~ (100 | y)) \/ (400 | y).

Inductive month_length (y : Z) : Z -> Z -> Prop :=
| long_month m : m ∈ [1; 3; 5; 7; 8; 10; 12] -> month_length y m 31
| short_month m : m ∈ [4; 6; 9; 11] -> month_length y m 30
| february_leap : leap_year y -> month_length y 2 29
| february_common : ~ leap_year y -> month_length y 2 28.

(** A year, month and day form a date of the calendar. *)
Definition calendar_date (y m d : Z) : Prop :=
  exists n, month_length y m n /\ 1 <= d <= n.

(** The three numbers a string of shape YYYY-MM-DD denotes. *)
Definition year_of (s : string) : Z := JsNumber.digits_value (substring 0 4 s).
Definition month_of (s : string) : Z := JsNumber.digits_value (substring 5 2 s).
Definition day_of (s : string) : Z := JsNumber.digits_value (substring 8 2 s).

(** The dates the specification calls valid. *)
Definition valid_date_spec (s : string) : Prop :=
  String.length s = 10%nat /\
  String.get 4 s = Some "-"%char /\
  String.get 7 s = Some "-"%char /\
  (forall i c, i <> 4%nat -> i <> 7%nat -> String.get i s = Some c ->
               is_digit c = true) /\
  1000 <= year_of s <= 9999 /\
  1 <= month_of s <= 12 /\
  calendar_date (year_of s) (month_of s) (day_of s).

(** Calendar dates in chronological order. *)
Definition date_lt (a b : Z * Z * Z) : Prop :=
  let '(y1, m1, d1) := a in
  let '(y2, m2, d2) := b in
  y1 < y2 \/ (y1 = y2 /\ (m1 < m2 \/ (m1 = m2 /\ d1 < d2))).

(** The UTC calendar date of the clock and of an [execute_by] string. *)
Definition today (now : Date) : Z * Z * Z :=
  (getUTCFullYear now, getUTCMonth now + 1, getUTCDate now).

Definition date_of (s : string) : Z * Z * Z :=
  (year_of s, month_of s, day_of s).

(** The clock shows a calendar date within the range of [Date]. *)
Definition valid_clock (now : Date) : Prop :=
  100 <= getUTCFullYear now <= 275759 /\
  calendar_date (getUTCFullYear now) (getUTCMonth now + 1) (getUTCDate now).

(** The parts of the settlement branch of [parseInstruction], named for the
    statements below: the decision between immediate and deferred execution,
    the two balance updates, and the [accounts] list of the response. *)
Definition execution (now : Date) (execute_by : option string)
  : Status * string :=
  if truthy execute_by then
    let yyyyMMdd := default "" execute_by in
    let execUTC :=
      JsDate.UTC (Number (slice 0 4 yyyyMMdd))
        (JsNumber.sub (Number (slice 5 7 yyyyMMdd)) (Fin 1 0))
        (Number (slice 8 10 yyyyMMdd)) in
    let todayUTC :=
      JsDate.UTC (Fin (getUTCFullYear now) 0) (Fin (getUTCMonth now) 0)
        (Fin (getUTCDate now) 0) in
    if JsNumber.gtb execUTC todayUTC then (pending, "AP02")
    else (successful, "AP00")
  else (successful, "AP00").

Definition transfer (accounts : list Account.t) (type : option string)
    (debit credit : nat) (amount : jsval) : list Account.t :=
  if bool_decide (type = own_property SUPPORTED_TYPE "debit")
  then balance_add_assign (balance_sub_assign accounts debit amount)
         credit amount
  else balance_sub_assign (balance_add_assign accounts credit amount)
         debit amount.

Definition finalAccounts_of (parsed : Parsed.t) (debitBefore creditBefore : jsval)
    (accounts' : list Account.t) : list Snapshot.t :=
  List.map
    (fun acc =>
       {| Snapshot.id := Account.id acc;
          Snapshot.balance := Account.balance acc;
          Snapshot.balance_before :=
            if bool_decide (Some (Account.id acc) = Parsed.debit_account parsed)
            then debitBefore else creditBefore;
          Snapshot.currency := toUpperCase (Account.currency acc) |})
    (List.filter
       (fun acc =>
          bool_decide (Some (Account.id acc) = Parsed.debit_account parsed)
          || bool_decide (Some (Account.id acc) = Parsed.credit_account parsed))
       accounts').

(** The response of an evaluation that passed validation. *)
Definition settled_response (parsed : Parsed.t) (executeStatus : Status)
    (code : string) (finalAccounts : list Snapshot.t) : Response.t :=
  {| Response.type := Parsed.type parsed;
     Response.amount :=
       if truthy (Parsed.amount parsed)
       then Some (ToNumber (field_value (Parsed.amount parsed)))
       else None;
     Response.currency := Parsed.currency parsed;
     Response.debit_account := Parsed.debit_account parsed;
     Response.credit_account := Parsed.credit_account parsed;
     Response.execute_by := Parsed.execute_by parsed;
     Response.status := executeStatus;
     Response.status_code := code;
     Response.status_reason :=
       match executeStatus with
       | pending => TRANSACTION_PENDING
       | _ => TRANSACTION_SUCCESSFUL
       end;
     Response.accounts := finalAccounts |}.

(** The two balances of a transfer of the amount token [amount] have been
    updated in place.  The account the debit id refers to holds a number,
    the binary64 difference of its balance read as a number and the number
    the token denotes; for an integer balance and an amount written in
    digits, all within [2^53], that is the integer [balance - amount].  The
    account the credit id refers to holds a string, the notation of its
    balance followed by the token, which [+=] makes of a token ([0] and
    "500" give "0500"): its balance is no longer what it was.  The two
    accounts keep their id and currency and every other account is as it
    was. *)
Definition transferred (accounts accounts' : list Account.t)
    (debit_id credit_id : option string) (amount : string) : Prop :=
  exists debit d d' credit c c',
    accounts !! debit = Some d /\ debit_id = Some (Account.id d) /\
    accounts !! credit = Some c /\ credit_id = Some (Account.id c) /\
    accounts' !! debit = Some d' /\ accounts' !! credit = Some c' /\
    Account.id d' = Account.id d /\
    Account.currency d' = Account.currency d /\
    Account.id c' = Account.id c /\
    Account.currency c' = Account.currency c /\
    Account.balance d'
    = VNum (JsNumber.sub (ToNumber (Account.balance d)) (Number amount)) /\
    (forall b,
       Account.balance d = VNum (Fin b 0) ->
       all_chars is_digit amount = true ->
       Z.abs b <= 2 ^ 53 -> JsNumber.digits_value amount <= 2 ^ 53 ->
       Z.abs (b - JsNumber.digits_value amount) <= 2 ^ 53 ->
       Account.balance d'
       = VNum (Fin (b - JsNumber.digits_value amount) 0)) /\
    Account.balance c'
    = VStr (String.append (ToString (Account.balance c)) amount) /\
    Account.balance c' <> Account.balance c /\
    forall i, i <> debit -> i <> credit -> accounts' !! i = accounts !! i.

(** The entry of the [accounts] list of a response for an account, from the
    account as it was before the evaluation and as it is after. *)
Definition snapshot_of (before after : Account.t) : Snapshot.t :=
  {| Snapshot.id := Account.id before;
     Snapshot.balance := Account.balance after;
     Snapshot.balance_before := Account.balance before;
     Snapshot.currency := toUpperCase (Account.currency before) |}.

(** The test [finalAccounts] filters the accounts with. *)
Definition involved (debit_id credit_id : option string) (acc : Account.t)
  : bool :=
  bool_decide (Some (Account.id acc) = debit_id)
  || bool_decide (Some (Account.id acc) = credit_id).

(** A clock and two accounts to evaluate on. *)
Definition clock_2026_11_03 : Date :=
  {| getUTCFullYear := 2026; getUTCMonth := 10; getUTCDate := 3 |}.

Definition two_accounts : list Account.t :=
  [acct "ACC1" 1000 "USD"; acct "ACC2" 0 "USD"].

(** Three accounts, two of them under one id. *)
Definition accounts_with_duplicate : list Account.t :=
  [acct "A" 100 "USD"; acct "A" 50 "USD"; acct "B" 0 "USD"].

(** The outcome of "debit 500 USD x x ACC1 x x x x ACC2" on [two_accounts]. *)
Definition two_accounts_settled : list Account.t :=
  [ {| Account.id := "ACC1"; Account.balance := VNum (Fin 500 0);
       Account.currency := "USD" |};
    {| Account.id := "ACC2"; Account.balance := VStr "0500";
       Account.currency := "USD" |} ].

Definition debit_500_response : Response.t :=
  {| Response.type := Some "debit";
     Response.amount := Some (Fin 500 0);
     Response.currency := Some "USD";
     Response.debit_account := Some "ACC1";
     Response.credit_account := Some "ACC2";
     Response.execute_by := None;
     Response.status := successful;
     Response.status_reason := TRANSACTION_SUCCESSFUL;
     Response.status_code := "AP00";
     Response.accounts :=
       [ {| Snapshot.id := "ACC1"; Snapshot.balance := VNum (Fin 500 0);
            Snapshot.balance_before := VNum (Fin 1000 0);
            Snapshot.currency := "USD" |};
         {| Snapshot.id := "ACC2"; Snapshot.balance := VStr "0500";
            Snapshot.balance_before := VNum (Fin 0 0);
            Snapshot.currency := "USD" |} ] |}.

(** The tests [isValidDateYYYYMMDD] makes on the three numbers, on
    integers. *)
Definition date_checks (year month day : Z) : bool :=
  if (year <? 1000) || (9999 <? year) then false
  else if (month <? 1) || (12 <? month) then false
  else
    let isLeap :=
      ((Z.rem year 4 =? 0) && negb (Z.rem year 100 =? 0))
      || (Z.rem year 400 =? 0) in
    if isLeap && (month =? 2) then
      if (day <? 1) || (29 <? day) then false else true
    else if (day <? 1)
            || JsNumber.gtb (Fin day 0) (array_at daysInMonth (Fin month 0))
    then false
    else true.

(** ** The request handler *)

(** The two statuses of [helpers.http_statuses] the handler answers with. *)
Inductive http_status : Type := HTTP_200_OK | HTTP_400_BAD_REQUEST.

(** What the handler returns. *)
Module Reply.
Record t : Type := {
  status : http_status;
  message : string;
  data : Response.t
}.
End Reply.

(** The handler of [/payment-instructions].  The catalog [PaymentMessages] is
    not part of the sources: [catalog] gives the text of each message,
    [None] for a key the catalog does not define.  An exception of
    [parseInstruction] leaves the handler, here as [None]. *)
Definition handler (catalog : PaymentMessages -> option string) (now : Date)
    (accounts : list Account.t) (instruction : string)
  : option (Reply.t * list Account.t) :=
  match parseInstruction now accounts instruction with
  | Throws => None
  | Returns response accounts' =>
      let '(status, message) :=
        match Response.status response with
        | successful | pending =>
            (HTTP_200_OK, "Transaction executed successfully")
        | failed =>
            (HTTP_400_BAD_REQUEST,
             if truthy (catalog (Response.status_reason response))
             then default "" (catalog (Response.status_reason response))
             else "Failed to process instruction")
        end in
      Some ({| Reply.status := status; Reply.message := message;
               Reply.data := response |}, accounts')
  end.

(** ** Vocabulary of the further statements *)

(** The characters of an account id: ASCII letters, digits, hyphen, period
    and at-sign. *)
Definition account_id_char (c : ascii) : bool :=
  is_lower c || is_upper c || is_digit c
  || Ascii.eqb c "-" || Ascii.eqb c "." || Ascii.eqb c "@".

(** The status codes and messages of a failed evaluation. *)
Definition failure_codes : list (string * PaymentMessages) :=
  [("SY03", MALFORMED_INSTRUCTION); ("AM01", INVALID_AMOUNT);
   ("CU02", UNSUPPORTED_CURRENCY); ("AC04", INVALID_ACCOUNT_ID);
   ("AC03", ACCOUNT_NOT_FOUND); ("AC02", SAME_ACCOUNT_ERROR);
   ("CU01", CURRENCY_MISMATCH); ("AC01", INSUFFICIENT_FUNDS);
   ("DT01", INVALID_DATE_FORMAT)].

(** The names the currency check lets through, lower-cased: the four
    supported currencies and the two names without a capital that every
    object inherits. *)
Definition accepted_currency_names : list string :=
  ["usd"; "ngn"; "gbp"; "ghs"; "constructor"; "__proto__"].

(** The start of an instruction passes the checks on its text: a keyword in
    any letter case, an amount token without a decimal point that does not
    denote a number at most zero, and a currency token the currency check
    lets through. *)
Definition head_passes (instruction : string) : Prop :=
  let words := tokenize (trim instruction) in
  (first_keyword instruction = Some "debit"
   \/ first_keyword instruction = Some "credit") /\
  (exists amt, words !! 1%nat = Some amt /\ includes "." amt = false
               /\ JsNumber.leb (Number amt) (Fin 0 0) = false) /\
  (exists cur, words !! 2%nat = Some cur
               /\ In (toLowerCase cur) accepted_currency_names).

(** A catalog to evaluate the handler on. *)
Definition sample_catalog (m : PaymentMessages) : option string :=
  match m with
  | ACCOUNT_NOT_FOUND => Some "Account not found"
  | INVALID_AMOUNT => Some "Invalid amount"
  | _ => None
  end.

(** ** Tactics *)

(** Case analysis on the eight bits of a character. *)
Ltac by_ascii_cases c :=
  destruct c as [[] [] [] [] [] [] [] []]; try reflexivity; try discriminate.

(** Membership in a list of month numbers, as arithmetic. *)
Ltac months := rewrite ?elem_of_cons, ?elem_of_nil in *; lia.

(** The twelve cases of a month number known to be in [1, 12]. *)
Ltac month_cases m Hm :=
  let H := fresh in
  assert (m = 1 \/ m = 2 \/ m = 3 \/ m = 4 \/ m = 5 \/ m = 6 \/ m = 7 \/ m = 8
          \/ m = 9 \/ m = 10 \/ m = 11 \/ m = 12) as H by lia;
  clear Hm; repeat destruct H as [H|H]; rewrite H in *; clear H.

(** Evaluate the month table at known arguments. *)
Ltac eval_month_start :=
  repeat match goal with
         | |- context [JsDate.month_start ?a ?b] =>
             let v := eval vm_compute in (JsDate.month_start a b) in
             change (JsDate.month_start a b) with v
         end.

(** * Properties *)

(** ** [Number] and [toString] on samples *)

Example Number_integer : Number "500" = Fin 500 0.
Proof. reflexivity. Qed.

Example Number_word : Number "abc" = NaN.
Proof. reflexivity. Qed.

Example Number_exponent : Number "1e3" = Fin 1000 0.
Proof. reflexivity. Qed.

Example Number_fraction : Number "-1.50e-2" = JsNumber.round (Fin (-15) (-3)).
Proof. reflexivity. Qed.

Example Number_quarter : Number "100.25" = Fin 10025 (-2).
Proof. reflexivity. Qed.

Example Number_tenth :
  Number "0.1"
  = Fin 1000000000000000055511151231257827021181583404541015625 (-55).
Proof. reflexivity. Qed.

Example Number_underflow : Number "1e-400" = Fin 0 0.
Proof. reflexivity. Qed.

Example Number_overflow : Number "1e400" = Inf false.
Proof. reflexivity. Qed.

Example Number_tie_to_even :
  Number "9007199254740993" = Fin 9007199254740992 0
  /\ Number "9007199254740995" = Fin 9007199254740996 0.
Proof. split; reflexivity. Qed.

Example Number_smallest :
  Number "3e-324" = Number "5e-324" /\ Number "2e-324" = Fin 0 0.
Proof. split; reflexivity. Qed.

Example Number_largest :
  Number "17976931348623158e292" = Number "17976931348623157e292"
  /\ Number "17976931348623159e292" = Inf false.
Proof. split; vm_compute; reflexivity. Qed.

Example Number_hexadecimal : Number "0x1F" = Fin 31 0.
Proof. reflexivity. Qed.

Example Number_signed_hexadecimal : Number "-0x10" = NaN.
Proof. reflexivity. Qed.

Example Number_infinity : Number "-Infinity" = Inf true.
Proof. reflexivity. Qed.

Example Number_trailing_letter : Number "12a" = NaN.
Proof. reflexivity. Qed.

Example toString_integer : JsNumber.toString (Fin 1000 0) = "1000".
Proof. reflexivity. Qed.

Example toString_fraction : JsNumber.toString (Fin 10025 (-2)) = "100.25".
Proof. reflexivity. Qed.

Example toString_small : JsNumber.toString (Number "-1.50e-2") = "-0.015".
Proof. vm_compute. reflexivity. Qed.

Example toString_large : JsNumber.toString (Number "1e21") = "1e+21".
Proof. vm_compute. reflexivity. Qed.

Example toString_tiny : JsNumber.toString (Number "15e-8") = "1.5e-7".
Proof. vm_compute. reflexivity. Qed.

Example toString_tenth : JsNumber.toString (Number "0.1") = "0.1".
Proof. vm_compute. reflexivity. Qed.

Example toString_rounded :
  JsNumber.toString (Number "123456789012345678") = "123456789012345680"
  /\ JsNumber.toString (Number "9999999999999999e7") = "1e+23".
Proof. split; vm_compute; reflexivity. Qed.

(** The subtraction rounds: [100.1 - "100"] and [0.3 - 0.1]. *)
Example js_sub_rounds :
  ToString (js_sub (VNum (Fin 1001 (-1))) (VStr "100")) = "0.09999999999999432"
  /\ ToString (js_sub (VNum (Fin 3 (-1))) (VNum (Fin 1 (-1))))
     = "0.19999999999999998"
  /\ js_sub (VNum (Fin 9007199254740992 0)) (VStr "9007199254740993")
     = VNum (Fin 0 0).
Proof. repeat split; vm_compute; reflexivity. Qed.

Example tokenize_collapses_spaces :
  tokenize "debit  500   usd" = ["debit"; "500"; "usd"].
Proof. reflexivity. Qed.

(** ** Numbers written with digits only *)

Lemma ltb_int a b : JsNumber.ltb (Fin a 0) (Fin b 0) = (a <? b).
Proof. unfold JsNumber.ltb, JsNumber.align. cbn. by rewrite !Z.mul_1_r. Qed.

Lemma gtb_int a b : JsNumber.gtb (Fin a 0) (Fin b 0) = (b <? a).
Proof. apply ltb_int. Qed.

Lemma eqb_int a b : JsNumber.eqb (Fin a 0) (Fin b 0) = (a =? b).
Proof. unfold JsNumber.eqb, JsNumber.align. cbn. by rewrite !Z.mul_1_r. Qed.

(** An integer of magnitude at most [2^53] is a binary64 number. *)
Lemma nearest_int a :
  0 < a < 2 ^ 53 ->
  JsNumber.nearest a 1 = (a * 2 ^ (52 - Z.log2 a), Z.log2 a - 52).
Proof.
  intros [Ha Hlt]. unfold JsNumber.nearest.
  pose proof (Z.log2_nonneg a) as Hl. pose proof (Z.log2_spec a Ha) as [Hlo _].
  assert (Z.log2 a < 53) as Hb by (by apply Z.log2_lt_pow2).
  change (Z.log2 1) with 0. rewrite Z.sub_0_r.
  destruct (Z.leb_spec 0 (Z.log2 a)); [|lia].
  rewrite Z.mul_1_l. destruct (Z.leb_spec (2 ^ Z.log2 a) a); [|lia].
  rewrite Z.max_l by lia.
  destruct (Z.ltb_spec (Z.log2 a - 52) 0) as [Hp|Hp].
  - rewrite Z.div_1_r, Z.mod_1_r. cbn [Z.mul Z.ltb Z.compare].
    f_equal. f_equal. f_equal. lia.
  - assert (Z.log2 a = 52) as -> by lia. cbn [Z.sub Z.pos_sub Z.pow Z.opp].
    change (2 ^ 0) with 1. rewrite !Z.mul_1_r, Z.div_1_r, Z.mod_1_r.
    reflexivity.
Qed.

Lemma round_int n : Z.abs n <= 2 ^ 53 -> JsNumber.round (Fin n 0) = Fin n 0.
Proof.
  intros Hn. unfold JsNumber.round.
  destruct (Z.eqb_spec n 0) as [->|Hz]; [reflexivity|].
  change (0 <=? 0) with true. cbv iota. change (10 ^ 0) with 1.
  rewrite Z.mul_1_r.
  destruct (Z.eq_dec (Z.abs n) (2 ^ 53)) as [E|E].
  - rewrite E.
    destruct (Z.abs_eq_or_opp n) as [E'|E']; rewrite E' in E.
    + subst n. vm_compute. reflexivity.
    + assert (n = - 2 ^ 53) as -> by lia. vm_compute. reflexivity.
  - rewrite nearest_int by lia.
    pose proof (Z.log2_nonneg (Z.abs n)) as Hl.
    assert (Z.log2 (Z.abs n) < 53) as Hb by (apply Z.log2_lt_pow2; lia).
    unfold JsNumber.of_binary.
    assert ((if n <? 0 then - Z.abs n else Z.abs n) = n) as Hsign
      by (destruct (Z.ltb_spec n 0); lia).
    destruct (Z.leb_spec 0 (Z.log2 (Z.abs n) - 52)) as [Hp|Hp].
    + assert (Z.log2 (Z.abs n) = 52) as -> by lia.
      change (52 - 52) with 0. change (2 ^ 0) with 1. rewrite !Z.mul_1_r.
      destruct (Z.leb_spec (2 ^ 1024) (Z.abs n)) as [Hbig|_].
      * exfalso. assert (2 ^ 53 < 2 ^ 1024) by reflexivity. lia.
      * by rewrite Hsign.
    + replace (- (Z.log2 (Z.abs n) - 52)) with (52 - Z.log2 (Z.abs n)) by lia.
      rewrite Z.mod_mul by (apply Z.pow_nonzero; lia).
      change (0 =? 0) with true. cbv iota.
      rewrite Z.div_mul by (apply Z.pow_nonzero; lia). by rewrite Hsign.
Qed.

Lemma sub_int a b :
  Z.abs (a - b) <= 2 ^ 53 -> JsNumber.sub (Fin a 0) (Fin b 0) = Fin (a - b) 0.
Proof.
  intros H. unfold JsNumber.sub, JsNumber.align.
  change (Z.min 0 0) with 0. change (0 - 0) with 0. change (10 ^ 0) with 1.
  rewrite !Z.mul_1_r. by apply round_int.
Qed.

Lemma rem_int a b :
  b <> 0 -> JsNumber.rem (Fin a 0) (Fin b 0) = Fin (Z.rem a b) 0.
Proof.
  intros Hb. unfold JsNumber.rem, JsNumber.align. cbn. rewrite !Z.mul_1_r.
  destruct (Z.eqb_spec b 0); [contradiction | reflexivity].
Qed.

Lemma digit_not_space c : is_digit c = true -> is_space c = false.
Proof. by_ascii_cases c. Qed.

Lemma digit_value_range c :
  is_digit c = true -> 0 <= Z.of_nat (nat_of_ascii c) - 48 <= 9.
Proof. by_ascii_cases c; intros _; split; apply Z.leb_le; reflexivity. Qed.

Lemma trimEnd_digits s : all_chars is_digit s = true -> trimEnd s = s.
Proof.
  induction s as [|c s IH]; [reflexivity|]. cbn [all_chars trimEnd].
  intros [Hc Hs]%andb_prop. rewrite (IH Hs).
  destruct s; [by rewrite (digit_not_space c Hc) | reflexivity].
Qed.

Lemma trim_digits s : all_chars is_digit s = true -> trim s = s.
Proof.
  intros H. unfold trim.
  assert (trimStart s = s) as ->; [|by apply trimEnd_digits].
  destruct s as [|c s]; [reflexivity|]. cbn in *.
  apply andb_prop in H as [Hc _]. by rewrite (digit_not_space c Hc).
Qed.

Lemma span_digits_all s :
  all_chars is_digit s = true -> JsNumber.span_digits s = (s, EmptyString).
Proof.
  induction s as [|c s IH]; [reflexivity|]. cbn [all_chars JsNumber.span_digits].
  intros [Hc Hs]%andb_prop. by rewrite Hc, (IH Hs).
Qed.

Lemma append_empty_r s : String.append s EmptyString = s.
Proof.
  induction s as [|c s IH]; [reflexivity|].
  change (String c (String.append s EmptyString) = String c s). by rewrite IH.
Qed.

Lemma non_decimal_digits s :
  all_chars is_digit s = true -> JsNumber.non_decimal s = None.
Proof.
  destruct s as [|c [|p s]]; [reflexivity | by by_ascii_cases c |].
  cbn [all_chars].
  intros [_ [Hp _]%andb_prop]%andb_prop. unfold JsNumber.non_decimal.
  destruct (Ascii.eqb_spec c "0"); [subst|by by_ascii_cases c].
  revert Hp. by_ascii_cases p.
Qed.

Lemma digits_value_from_bound s acc :
  0 <= acc -> all_chars is_digit s = true ->
  0 <= JsNumber.digits_value_from acc s
    < (acc + 1) * 10 ^ Z.of_nat (String.length s).
Proof.
  revert acc. induction s as [|c s IH]; intros acc Hacc Hs.
  - cbn [JsNumber.digits_value_from String.length].
    change (Z.of_nat 0) with 0. rewrite Z.pow_0_r. lia.
  - apply andb_prop in Hs as [Hc Hs]. pose proof (digit_value_range c Hc) as Hd.
    cbn [JsNumber.digits_value_from String.length].
    rewrite Nat2Z.inj_succ, Z.pow_succ_r by lia.
    specialize (IH (acc * 10 + (Z.of_nat (nat_of_ascii c) - 48))
                  ltac:(lia) Hs).
    assert (0 < 10 ^ Z.of_nat (String.length s)) by (apply Z.pow_pos_nonneg; lia).
    nia.
Qed.

Lemma digits_value_nonneg s :
  all_chars is_digit s = true -> 0 <= JsNumber.digits_value s.
Proof. intros Hs. by apply (digits_value_from_bound s 0). Qed.

(** Up to fifteen digits stay below [2^53]. *)
Lemma digits_value_short s :
  all_chars is_digit s = true -> (String.length s <= 15)%nat ->
  JsNumber.digits_value s <= 2 ^ 53.
Proof.
  intros Hs Hlen.
  pose proof (digits_value_from_bound s 0 ltac:(lia) Hs) as [_ H].
  fold (JsNumber.digits_value s) in H.
  assert (10 ^ Z.of_nat (String.length s) <= 10 ^ 15)
    by (apply Z.pow_le_mono_r; lia).
  assert (10 ^ 15 < 2 ^ 53) by reflexivity. lia.
Qed.

(** A string of digits that denotes an integer up to [2^53] converts to
    that integer. *)
Lemma Number_digits s :
  s <> EmptyString -> all_chars is_digit s = true ->
  JsNumber.digits_value s <= 2 ^ 53 ->
  Number s = Fin (JsNumber.digits_value s) 0.
Proof.
  intros Hne Hs Hb. unfold Number, JsNumber.StringToNumber.
  rewrite (trim_digits s Hs).
  destruct s as [|c s]; [done|]. rewrite (non_decimal_digits _ Hs).
  assert (JsNumber.str_decimal (String c s)
          = JsNumber.unsigned_decimal false (String c s)) as ->.
  { pose proof Hs as [Hc _]%andb_prop. unfold JsNumber.str_decimal.
    revert Hc. by_ascii_cases c. }
  unfold JsNumber.unsigned_decimal. rewrite (span_digits_all _ Hs).
  cbn [JsNumber.exponent_part String.length]. rewrite append_empty_r.
  change (0 - Z.of_nat 0) with 0. apply round_int.
  pose proof (digits_value_nonneg _ Hs). lia.
Qed.

(** ** The date validator *)

Lemma digit_test c :
  negb ((nat_of_ascii c <? 48)%nat || (57 <? nat_of_ascii c)%nat) = is_digit c.
Proof.
  unfold is_digit.
  destruct (Nat.ltb_spec (nat_of_ascii c) 48), (Nat.ltb_spec 57 (nat_of_ascii c)),
    (Nat.leb_spec 48 (nat_of_ascii c)), (Nat.leb_spec (nat_of_ascii c) 57);
    cbn; (reflexivity || lia).
Qed.

Lemma all_chars_ext p q s :
  (forall c, p c = q c) -> all_chars p s = all_chars q s.
Proof. intros E. induction s as [|c s IH]; cbn; [done|]. by rewrite E, IH. Qed.

Lemma length_10 s :
  String.length s = 10%nat ->
  exists c0 c1 c2 c3 c4 c5 c6 c7 c8 c9,
    s = String c0 (String c1 (String c2 (String c3 (String c4 (String c5
          (String c6 (String c7 (String c8 (String c9 EmptyString))))))))).
Proof.
  intros H. do 10 (destruct s as [|? s]; [discriminate|]).
  destruct s; [|discriminate]. by do 10 eexists.
Qed.

Lemma isValidDate_length s :
  isValidDateYYYYMMDD s = true -> String.length s = 10%nat.
Proof.
  unfold isValidDateYYYYMMDD. destruct (truthy (Some s)); [|discriminate].
  destruct (Nat.eqb_spec (String.length s) 10); [done | discriminate].
Qed.

(** On a string of ten characters the validator is the two dash tests, the
    eight digit tests and the tests on the numbers. *)
Lemma isValidDate_ten c0 c1 c2 c3 c4 c5 c6 c7 c8 c9 :
  let s := String c0 (String c1 (String c2 (String c3 (String c4 (String c5
             (String c6 (String c7 (String c8 (String c9 EmptyString))))))))) in
  isValidDateYYYYMMDD s =
    bool_decide (c4 = "-"%char) && bool_decide (c7 = "-"%char)
    && (is_digit c0 && is_digit c1 && is_digit c2 && is_digit c3
        && is_digit c5 && is_digit c6 && is_digit c8 && is_digit c9)
    && date_checks (year_of s) (month_of s) (day_of s).
Proof.
  intros s. unfold isValidDateYYYYMMDD, year_of, month_of, day_of, slice, at_index.
  subst s. cbn [truthy String.length negb Nat.eqb String.get substring Nat.sub].
  destruct (decide (c4 = "-"%char)) as [->|N4].
  2:{ rewrite (bool_decide_eq_false_2 (Some c4 = Some "-"%char)) by congruence.
      by rewrite (bool_decide_eq_false_2 (c4 = "-"%char)). }
  destruct (decide (c7 = "-"%char)) as [->|N7].
  2:{ rewrite (bool_decide_eq_false_2 (Some c7 = Some "-"%char)) by congruence.
      rewrite (bool_decide_eq_false_2 (c7 = "-"%char)) by done.
      by rewrite orb_true_r, andb_false_r. }
  rewrite !(bool_decide_eq_true_2 _ eq_refl). cbn [negb orb andb].
  rewrite (all_chars_ext _ is_digit) by apply digit_test.
  change (String.append (String c0 (String c1 (String c2 (String c3 EmptyString))))
            (String.append (String c5 (String c6 EmptyString))
               (String c8 (String c9 EmptyString))))
    with (String c0 (String c1 (String c2 (String c3 (String c5 (String c6
            (String c8 (String c9 EmptyString)))))))).
  cbn [all_chars].
  destruct (is_digit c0) eqn:D0; [|done]. destruct (is_digit c1) eqn:D1; [|done].
  destruct (is_digit c2) eqn:D2; [|done]. destruct (is_digit c3) eqn:D3; [|done].
  destruct (is_digit c5) eqn:D5; [|done]. destruct (is_digit c6) eqn:D6; [|done].
  destruct (is_digit c8) eqn:D8; [|done]. destruct (is_digit c9) eqn:D9; [|done].
  cbn [negb andb].
  rewrite !Number_digits
    by first [ done
             | cbn [all_chars]; rewrite ?D0, ?D1, ?D2, ?D3, ?D5, ?D6, ?D8, ?D9;
               done
             | apply digits_value_short;
               [ cbn [all_chars];
                 rewrite ?D0, ?D1, ?D2, ?D3, ?D5, ?D6, ?D8, ?D9; done
               | cbn [String.length]; lia ] ].
  rewrite !ltb_int, !gtb_int, !eqb_int, !rem_int by done.
  unfold date_checks. rewrite !eqb_int.
  repeat match goal with |- context [JsNumber.ltb (Fin ?a 0) (Fin ?b 0)] =>
    rewrite (ltb_int a b) end.
  reflexivity.
Qed.

Lemma leap_test y :
  ((Z.rem y 4 =? 0) && negb (Z.rem y 100 =? 0)) || (Z.rem y 400 =? 0) = true
  <-> leap_year y.
Proof.
  unfold leap_year.
  rewrite <- (Z.rem_divide y 4), <- (Z.rem_divide y 100), <- (Z.rem_divide y 400)
    by done.
  destruct (Z.eqb_spec (Z.rem y 4) 0), (Z.eqb_spec (Z.rem y 100) 0),
    (Z.eqb_spec (Z.rem y 400) 0); cbn; intuition congruence.
Qed.

Lemma month_table m :
  1 <= m <= 12 ->
  exists n, array_at daysInMonth (Fin m 0) = Fin n 0 /\
            (m = 2 /\ n = 28 \/
             m ∈ [4; 6; 9; 11] /\ n = 30 \/
             m ∈ [1; 3; 5; 7; 8; 10; 12] /\ n = 31).
Proof.
  intros H.
  assert (m = 1 \/ m = 2 \/ m = 3 \/ m = 4 \/ m = 5 \/ m = 6 \/ m = 7 \/ m = 8
          \/ m = 9 \/ m = 10 \/ m = 11 \/ m = 12) as Hm by lia.
  clear H.
  repeat destruct Hm as [Hm|Hm]; rewrite Hm;
    eexists; (split; [reflexivity|]); months.
Qed.

Lemma month_length_inv y m n :
  month_length y m n ->
  1 <= m <= 12 /\
  (m = 2 /\ (leap_year y /\ n = 29 \/ ~ leap_year y /\ n = 28) \/
   m ∈ [4; 6; 9; 11] /\ n = 30 \/
   m ∈ [1; 3; 5; 7; 8; 10; 12] /\ n = 31).
Proof.
  destruct 1 as [m Hm|m Hm|L|L].
  - split; [months | auto].
  - split; [months | auto].
  - split; [lia | auto].
  - split; [lia | auto].
Qed.

Lemma date_checks_spec y m d :
  date_checks y m d = true <-> 1000 <= y <= 9999 /\ calendar_date y m d.
Proof.
  unfold date_checks, calendar_date. split.
  - destruct (Z.ltb_spec y 1000), (Z.ltb_spec 9999 y); cbn [orb]; try discriminate.
    destruct (Z.ltb_spec m 1), (Z.ltb_spec 12 m); cbn [orb]; try discriminate.
    destruct (month_table m) as (n & -> & Hn); [lia|]. rewrite gtb_int.
    pose proof (leap_test y) as L.
    destruct (((Z.rem y 4 =? 0) && negb (Z.rem y 100 =? 0)) || (Z.rem y 400 =? 0));
      destruct (Z.eqb_spec m 2) as [Em|Em]; cbn [andb];
      destruct (Z.ltb_spec d 1); cbn [orb]; try discriminate;
      match goal with |- context [?a <? d] => destruct (Z.ltb_spec a d) end;
      try discriminate; intros _; (split; [lia|]).
    + exists 29. split; [|lia]. rewrite Em. apply february_leap. by apply L.
    + destruct Hn as [[? ?]|[[? ?]|[? ?]]]; [lia| |].
      * exists 30. split; [by apply short_month | lia].
      * exists 31. split; [by apply long_month | lia].
    + exists 28. split; [|months]. rewrite Em. apply february_common.
      intros Hl. by apply L in Hl.
    + destruct Hn as [[? ?]|[[? ?]|[? ?]]]; [lia| |].
      * exists 30. split; [by apply short_month | lia].
      * exists 31. split; [by apply long_month | lia].
  - intros [Hy (n & Hlen & Hd)]. apply month_length_inv in Hlen as [Hm Hlen].
    destruct (Z.ltb_spec y 1000), (Z.ltb_spec 9999 y); try lia. cbn [orb].
    destruct (Z.ltb_spec m 1), (Z.ltb_spec 12 m); try lia. cbn [orb].
    destruct (month_table m) as (k & -> & Hk); [lia|]. rewrite gtb_int.
    pose proof (leap_test y) as L.
    destruct (Z.ltb_spec d 1); [lia|]. cbn [orb].
    destruct (((Z.rem y 4 =? 0) && negb (Z.rem y 100 =? 0)) || (Z.rem y 400 =? 0));
      destruct (Z.eqb_spec m 2) as [Em|Em]; cbn [andb].
    + destruct (Z.ltb_spec 29 d); [|done]. months.
    + destruct (Z.ltb_spec k d); [|done]. months.
    + destruct (Z.ltb_spec k d); [|done].
      destruct Hlen as [[_ [[Hl _]|[_ ?]]]|Hlen]; [| |months].
      * apply L in Hl. discriminate.
      * months.
    + destruct (Z.ltb_spec k d); [|done]. months.
Qed.

Lemma valid_date_iff s : isValidDateYYYYMMDD s = true <-> valid_date_spec s.
Proof.
  unfold valid_date_spec. split.
  - intros H. pose proof (isValidDate_length s H) as Hlen.
    destruct (length_10 s Hlen) as (c0&c1&c2&c3&c4&c5&c6&c7&c8&c9&->).
    rewrite isValidDate_ten in H.
    apply andb_prop in H as [[[E4%bool_decide_eq_true E7%bool_decide_eq_true]%andb_prop
                                 D]%andb_prop N].
    rewrite !andb_true_iff in D.
    destruct D as [[[[[[[D0 D1] D2] D3] D5] D6] D8] D9].
    apply date_checks_spec in N as [Hy Hc].
    split; [done|]. split; [by rewrite E4|]. split; [by rewrite E7|].
    split; [|split; [done|split; [|done]]].
    2:{ destruct Hc as (n & Hn & _). by apply month_length_inv in Hn as [? _]. }
    intros i c N4 N7.
    do 10 (destruct i as [|i]; [cbn; intros [= <-]; done|]). discriminate.
  - intros (Hlen & E4 & E7 & D & Hy & _ & Hc).
    destruct (length_10 s Hlen) as (c0&c1&c2&c3&c4&c5&c6&c7&c8&c9&->).
    rewrite isValidDate_ten. cbn in E4, E7. injection E4 as ->. injection E7 as ->.
    rewrite !(bool_decide_eq_true_2 _ eq_refl).
    rewrite (D 0%nat c0), (D 1%nat c1), (D 2%nat c2), (D 3%nat c3),
      (D 5%nat c5), (D 6%nat c6), (D 8%nat c8), (D 9%nat c9) by done.
    cbn [andb]. apply date_checks_spec. done.
Qed.

(** C5: the date validator accepts exactly the strings of shape YYYY-MM-DD
    (ten characters, dashes at positions 4 and 7, digits elsewhere) whose year
    is in [1000, 9999], whose month is in [1, 12] and whose day is within the
    length of the month, February having 29 days exactly in leap years;
    "2024-02-29" is accepted and "2023-02-29" is not. *)
Theorem isValidDateYYYYMMDD_spec :
  (forall s, isValidDateYYYYMMDD s = true <-> valid_date_spec s) /\
  isValidDateYYYYMMDD "2024-02-29" = true /\
  isValidDateYYYYMMDD "2023-02-29" = false.
Proof. split; [apply valid_date_iff | split; reflexivity]. Qed.

(** The numbers [parseInstruction] reads from a validated date. *)
Lemma valid_date_numbers e :
  isValidDateYYYYMMDD e = true ->
  Number (slice 0 4 e) = Fin (year_of e) 0 /\
  Number (slice 5 7 e) = Fin (month_of e) 0 /\
  Number (slice 8 10 e) = Fin (day_of e) 0.
Proof.
  intros H. pose proof (isValidDate_length e H) as Hlen.
  destruct (length_10 e Hlen) as (c0&c1&c2&c3&c4&c5&c6&c7&c8&c9&->).
  rewrite isValidDate_ten in H.
  apply andb_prop in H as [[_ D]%andb_prop _].
  rewrite !andb_true_iff in D.
  destruct D as [[[[[[[D0 D1] D2] D3] D5] D6] D8] D9].
  unfold year_of, month_of, day_of, slice.
  cbn [substring Nat.sub].
  rewrite !Number_digits
    by first [ done
             | cbn [all_chars]; rewrite ?D0, ?D1, ?D2, ?D3, ?D5, ?D6, ?D8, ?D9;
               done
             | apply digits_value_short;
               [ cbn [all_chars];
                 rewrite ?D0, ?D1, ?D2, ?D3, ?D5, ?D6, ?D8, ?D9; done
               | cbn [String.length]; lia ] ].
  done.
Qed.

(** ** Failed evaluations *)

Lemma parseInstruction_failed now accounts instruction r accounts' :
  parseInstruction now accounts instruction = Returns r accounts' ->
  Response.status r = failed ->
  accounts' = accounts /\
  exists reason code, r = Response.fail Response.initial reason code.
Proof.
  unfold parseInstruction. intros H Hs.
  repeat case_match; try discriminate;
    injection H as <- <-; cbn in Hs; try discriminate; eauto.
Qed.

(** C6: a failed evaluation leaves every account as it was, and evaluating
    the same instruction again on the accounts it left, at the same date,
    returns the same response. *)
Theorem failed_evaluation_is_idempotent now accounts instruction r accounts' :
  parseInstruction now accounts instruction = Returns r accounts' ->
  Response.status r = failed ->
  accounts' = accounts /\
  parseInstruction now accounts' instruction = Returns r accounts'.
Proof.
  intros H Hs. destruct (parseInstruction_failed _ _ _ _ _ H Hs) as [-> _]. done.
Qed.

Lemma failed_evaluation_is_idempotent_witness :
  two_accounts = two_accounts /\
  parseInstruction clock_2026_11_03 two_accounts "debit 500 usd x x ACC1"
  = Returns (Response.fail Response.initial ACCOUNT_NOT_FOUND "AC03")
      two_accounts.
Proof.
  apply (failed_evaluation_is_idempotent clock_2026_11_03 two_accounts
           "debit 500 usd x x ACC1"
           (Response.fail Response.initial ACCOUNT_NOT_FOUND "AC03")
           two_accounts); reflexivity.
Defined.

(** C10: a failed evaluation returns a response whose type, amount,
    currency, two account ids and execute_by are null and whose accounts list
    is empty. *)
Theorem failed_response_is_blank now accounts instruction r accounts' :
  parseInstruction now accounts instruction = Returns r accounts' ->
  Response.status r = failed ->
  Response.type r = None /\ Response.amount r = None /\
  Response.currency r = None /\ Response.debit_account r = None /\
  Response.credit_account r = None /\ Response.execute_by r = None /\
  Response.accounts r = [].
Proof.
  intros H Hs.
  destruct (parseInstruction_failed _ _ _ _ _ H Hs) as (_ & reason & code & ->).
  by repeat split.
Qed.

Lemma failed_response_is_blank_witness :
  let r := Response.fail Response.initial INSUFFICIENT_FUNDS "AC01" in
  Response.type r = None /\ Response.amount r = None /\
  Response.currency r = None /\ Response.debit_account r = None /\
  Response.credit_account r = None /\ Response.execute_by r = None /\
  Response.accounts r = [].
Proof.
  apply (failed_response_is_blank clock_2026_11_03 two_accounts
           "DEBIT 5000 USD x x ACC1 x x x x ACC2"
           (Response.fail Response.initial INSUFFICIENT_FUNDS "AC01")
           two_accounts); reflexivity.
Defined.

(** ** Calendar dates and [Date.UTC] *)

Lemma InLeapYear_spec y :
  (leap_year y /\ JsDate.InLeapYear y = 1)
  \/ (~ leap_year y /\ JsDate.InLeapYear y = 0).
Proof.
  unfold leap_year, JsDate.InLeapYear, JsDate.DaysInYear.
  rewrite <- (Z.mod_divide y 4), <- (Z.mod_divide y 100), <- (Z.mod_divide y 400)
    by done.
  destruct (Z.eqb_spec (y mod 4) 0), (Z.eqb_spec (y mod 100) 0),
    (Z.eqb_spec (y mod 400) 0); cbn;
    try (exfalso; Z.div_mod_to_equations; lia); intuition lia.
Qed.

Lemma DaysInYear_leap y : JsDate.DaysInYear y = 365 + JsDate.InLeapYear y.
Proof.
  unfold JsDate.InLeapYear, JsDate.DaysInYear.
  destruct (Z.eqb_spec (y mod 4) 0), (Z.eqb_spec (y mod 100) 0),
    (Z.eqb_spec (y mod 400) 0); cbn; lia.
Qed.

Lemma DayFromYear_succ y :
  JsDate.DayFromYear (y + 1) = JsDate.DayFromYear y + JsDate.DaysInYear y.
Proof.
  unfold JsDate.DayFromYear, JsDate.DaysInYear.
  destruct (Z.eqb_spec (y mod 4) 0), (Z.eqb_spec (y mod 100) 0),
    (Z.eqb_spec (y mod 400) 0); cbn; Z.div_mod_to_equations; lia.
Qed.

Lemma DayFromYear_mono a b :
  a <= b -> JsDate.DayFromYear a <= JsDate.DayFromYear b.
Proof.
  intros H. unfold JsDate.DayFromYear. Z.div_mod_to_equations. lia.
Qed.

Lemma DayFromYear_next a b :
  a < b -> JsDate.DayFromYear a + JsDate.DaysInYear a <= JsDate.DayFromYear b.
Proof.
  intros H. rewrite <- DayFromYear_succ. apply DayFromYear_mono. lia.
Qed.

Lemma DayFromYear_range y :
  100 <= y <= 275759 -> -700000 <= JsDate.DayFromYear y <= 99999400.
Proof.
  intros H. unfold JsDate.DayFromYear. Z.div_mod_to_equations. lia.
Qed.

(** What a calendar date says about its three numbers. *)
Lemma calendar_date_bounds y m d :
  calendar_date y m d ->
  1 <= m <= 12 /\ 1 <= d <= 31 /\
  (m ∈ [4; 6; 9; 11] -> d <= 30) /\
  (m = 2 -> d <= 28 + JsDate.InLeapYear y).
Proof.
  intros (n & Hn & Hd). apply month_length_inv in Hn as [Hm Hn].
  destruct (InLeapYear_spec y) as [[L ->]|[L ->]];
    destruct Hn as [[? [[? ?]|[? ?]]]|[[? ?]|[? ?]]]; try done;
    (split; [done|]); (split; [months|]); split; intros; months.
Qed.

(** The day within the year, as [MakeDay] adds it to the first day of the
    year. *)
Lemma MakeDay_calendar y m d :
  1 <= m <= 12 ->
  JsDate.MakeDay y (m - 1) d
  = JsDate.DayFromYear y
    + JsDate.month_start (m - 1) (JsDate.InLeapYear y) + d - 1.
Proof.
  intros H. unfold JsDate.MakeDay.
  assert ((m - 1) / 12 = 0) as -> by (Z.div_mod_to_equations; lia).
  assert ((m - 1) mod 12 = m - 1) as -> by (Z.div_mod_to_equations; lia).
  by rewrite Z.add_0_r.
Qed.

Lemma day_in_year y m d :
  calendar_date y m d ->
  0 <= JsDate.month_start (m - 1) (JsDate.InLeapYear y) + d - 1
    < JsDate.DaysInYear y.
Proof.
  intros (Hm & Hd & H30 & H28)%calendar_date_bounds.
  rewrite DaysInYear_leap.
  destruct (InLeapYear_spec y) as [[_ E]|[_ E]]; rewrite E in *;
    month_cases m Hm; eval_month_start;
    rewrite ?elem_of_cons, ?elem_of_nil in H30; lia.
Qed.

Lemma day_in_year_lt y m1 d1 m2 d2 :
  calendar_date y m1 d1 -> calendar_date y m2 d2 ->
  JsDate.month_start (m1 - 1) (JsDate.InLeapYear y) + d1
  < JsDate.month_start (m2 - 1) (JsDate.InLeapYear y) + d2
  <-> m1 < m2 \/ (m1 = m2 /\ d1 < d2).
Proof.
  intros (Hm1 & Hd1 & H30 & H28)%calendar_date_bounds
         (Hm2 & Hd2 & K30 & K28)%calendar_date_bounds.
  destruct (InLeapYear_spec y) as [[_ E]|[_ E]]; rewrite E in *; clear E;
    rewrite ?elem_of_cons, ?elem_of_nil in H30, K30;
    month_cases m1 Hm1; month_cases m2 Hm2; eval_month_start; lia.
Qed.

(** [MakeDay] orders the dates of the calendar chronologically. *)
Lemma MakeDay_lt y1 m1 d1 y2 m2 d2 :
  calendar_date y1 m1 d1 -> calendar_date y2 m2 d2 ->
  JsDate.MakeDay y1 (m1 - 1) d1 < JsDate.MakeDay y2 (m2 - 1) d2
  <-> date_lt (y1, m1, d1) (y2, m2, d2).
Proof.
  intros H1 H2. unfold date_lt.
  pose proof (calendar_date_bounds _ _ _ H1) as (Hm1 & _).
  pose proof (calendar_date_bounds _ _ _ H2) as (Hm2 & _).
  rewrite !MakeDay_calendar by done.
  pose proof (day_in_year _ _ _ H1) as B1.
  pose proof (day_in_year _ _ _ H2) as B2.
  destruct (Z.lt_trichotomy y1 y2) as [Hlt|[Heq|Hgt]].
  - pose proof (DayFromYear_next y1 y2 Hlt). lia.
  - subst y2. pose proof (day_in_year_lt y1 m1 d1 m2 d2 H1 H2). lia.
  - pose proof (DayFromYear_next y2 y1 Hgt). lia.
Qed.

Lemma to_integer_int m : JsNumber.to_integer (Fin m 0) = Some m.
Proof. unfold JsNumber.to_integer. cbn. by rewrite Z.mul_1_r. Qed.

Lemma UTC_calendar y m d :
  100 <= y <= 275759 -> calendar_date y m d ->
  JsDate.UTC (Fin y 0) (Fin (m - 1) 0) (Fin d 0)
  = Fin (JsDate.MakeDay y (m - 1) d * JsDate.msPerDay) 0.
Proof.
  intros Hy Hc. unfold JsDate.UTC. rewrite !to_integer_int.
  assert (JsDate.MakeFullYear y = y) as ->.
  { unfold JsDate.MakeFullYear.
    destruct (Z.leb_spec 0 y), (Z.leb_spec y 99); cbn; lia. }
  pose proof (calendar_date_bounds _ _ _ Hc) as (Hm & _).
  pose proof (day_in_year _ _ _ Hc) as B. rewrite DaysInYear_leap in B.
  pose proof (DayFromYear_range y Hy) as R.
  rewrite (MakeDay_calendar y m d Hm).
  unfold JsDate.TimeClip, JsDate.msPerDay.
  destruct (InLeapYear_spec y) as [[_ E]|[_ E]]; rewrite E in B |- *;
    match goal with |- context [?a <? ?b] => destruct (Z.ltb_spec a b) end;
    (reflexivity || (exfalso; lia)).
Qed.

(** The comparison of the two [Date.UTC] values is the comparison of the two
    calendar dates. *)
Lemma execution_test now e :
  valid_clock now -> isValidDateYYYYMMDD e = true ->
  JsNumber.gtb
    (JsDate.UTC (Number (slice 0 4 e))
       (JsNumber.sub (Number (slice 5 7 e)) (Fin 1 0)) (Number (slice 8 10 e)))
    (JsDate.UTC (Fin (getUTCFullYear now) 0) (Fin (getUTCMonth now) 0)
       (Fin (getUTCDate now) 0)) = true
  <-> date_lt (today now) (date_of e).
Proof.
  intros [Hy Hc] He.
  destruct (valid_date_numbers e He) as (-> & -> & ->).
  apply valid_date_iff in He as (_ & _ & _ & _ & Hye & Hme & Hce).
  assert (100 <= year_of e <= 275759) as Hye' by lia.
  assert (2 ^ 53 = 9007199254740992) as Hpow by reflexivity.
  rewrite sub_int, (UTC_calendar _ _ _ Hye' Hce) by lia.
  replace (getUTCMonth now) with (getUTCMonth now + 1 - 1) at 1 by lia.
  rewrite (UTC_calendar _ _ _ Hy Hc), gtb_int, Z.ltb_lt.
  unfold today, date_of. rewrite <- (MakeDay_lt _ _ _ _ _ _ Hc Hce).
  unfold JsDate.msPerDay. lia.
Qed.

(** ** The account map *)

Lemma fold_set_lookup (l : list (nat * Account.t)) (m : gmap string nat) k i :
  fold_left (fun m '(i, a) => <[Account.id a := i]> m) l m !! k = Some i ->
  (exists a, (i, a) ∈ l /\ Account.id a = k) \/ m !! k = Some i.
Proof.
  revert m. induction l as [|[j b] l IH]; intros m; cbn [fold_left]; [by right|].
  intros [(a & Ha & Hk)|Hm]%IH.
  - left. exists a. split; [by apply list_elem_of_further | done].
  - apply lookup_insert_Some in Hm as [[Hk <-]|[_ Hm]]; [left|by right].
    exists b. split; [apply list_elem_of_here | done].
Qed.

(** A reference the map holds points to an account with that id. *)
Lemma accountsMap_of_Some accounts k i :
  accountsMap_of accounts !! k = Some i ->
  exists a, accounts !! i = Some a /\ Account.id a = k.
Proof.
  intros [(a & Ha & Hk)|Hm]%fold_set_lookup; [|by rewrite lookup_empty in Hm].
  apply elem_of_lookup_imap in Ha as (j & x & [= -> ->] & Hj). eauto.
Qed.

Lemma Map_get_Some accounts key i a :
  Map_get accounts (accountsMap_of accounts) key = Some (i, a) ->
  accounts !! i = Some a /\ key = Some (Account.id a).
Proof.
  unfold Map_get. destruct key as [k|]; [|discriminate]. cbn.
  destruct (accountsMap_of accounts !! k) as [j|] eqn:Hj; [|discriminate]. cbn.
  destruct (accounts !! j) as [b|] eqn:Hb; [|discriminate]. cbn.
  intros [= -> ->]. apply accountsMap_of_Some in Hj as (a' & Ha' & <-).
  split; [done|]. congruence.
Qed.

(** ** What a passed validation guarantees *)

Lemma validateParsedFields_None parsed accounts m :
  validateParsedFields parsed accounts m = None ->
  exists ty amt debit d credit c,
    Parsed.type parsed = Some ty /\
    (toLowerCase ty = "credit" \/ toLowerCase ty = "debit") /\
    Parsed.amount parsed = Some amt /\
    truthy (Parsed.amount parsed) = true /\
    Map_get accounts m (Parsed.debit_account parsed) = Some (debit, d) /\
    Map_get accounts m (Parsed.credit_account parsed) = Some (credit, c) /\
    Parsed.debit_account parsed <> Parsed.credit_account parsed /\
    (truthy (Parsed.execute_by parsed) = true ->
     isValidDateYYYYMMDD (default "" (Parsed.execute_by parsed)) = true).
Proof.
  unfold validateParsedFields.
  destruct (Parsed.type parsed) as [ty|]; [|discriminate].
  destruct (truthy (Parsed.amount parsed)) eqn:Ea; [|discriminate].
  destruct (Parsed.amount parsed) as [amt|]; [|discriminate].
  cbn [negb orb JsNumber.isNaN field_value].
  destruct (includes _ _); [discriminate|].
  destruct (JsNumber.leb _ _); [discriminate|].
  destruct (negb (truthy (Parsed.currency parsed)) || _); [discriminate|].
  destruct (negb (isValidAccountId _) && _); [discriminate|].
  destruct (Map_get accounts m (Parsed.debit_account parsed)) as [[debit d]|];
    [|discriminate].
  destruct (Map_get accounts m (Parsed.credit_account parsed)) as [[credit c]|];
    [|discriminate].
  destruct (bool_decide_reflect
              (Parsed.debit_account parsed = Parsed.credit_account parsed));
    [discriminate|].
  destruct (negb (String.eqb _ _)); [discriminate|].
  destruct (String.eqb_spec (toLowerCase ty) "credit") as [Ec|Ec];
    destruct (String.eqb_spec (toLowerCase ty) "debit") as [Ed|Ed];
    cbn [negb andb]; try discriminate.
  all: destruct (bool_decide _ && _); [discriminate|].
  all: destruct (truthy (Parsed.execute_by parsed)); cbn [andb].
  all: try destruct (isValidDateYYYYMMDD _); cbn [negb]; try discriminate.
  all: intros _; exists ty, amt, debit, d, credit, c; intuition.
Qed.

(** ** The settlement branch *)

(** An evaluation that passes validation returns the response of the
    settlement branch and the accounts as that branch leaves them. *)
Lemma parseInstruction_validated now accounts instruction parsed debit d credit c :
  parseInstructionData (trim instruction) = Some parsed ->
  truthy (Parsed.type parsed) = true ->
  validateParsedFields parsed accounts (accountsMap_of accounts) = None ->
  Map_get accounts (accountsMap_of accounts) (Parsed.debit_account parsed)
    = Some (debit, d) ->
  Map_get accounts (accountsMap_of accounts) (Parsed.credit_account parsed)
    = Some (credit, c) ->
  parseInstruction now accounts instruction =
    let accounts' :=
      match (execution now (Parsed.execute_by parsed)).1 with
      | successful =>
          transfer accounts (Parsed.type parsed) debit credit
            (field_value (Parsed.amount parsed))
      | _ => accounts
      end in
    Returns
      (settled_response parsed (execution now (Parsed.execute_by parsed)).1
         (execution now (Parsed.execute_by parsed)).2
         (finalAccounts_of parsed (Account.balance d) (Account.balance c)
            accounts'))
      accounts'.
Proof.
  intros Hp Ht Hv Hd Hc. unfold parseInstruction.
  rewrite Hp, Ht, Hv, Hd, Hc. cbn [negb].
  fold (execution now (Parsed.execute_by parsed)).
  by destruct (execution now (Parsed.execute_by parsed)) as [st code].
Qed.

(** Conversely, a response that is not a failure comes from that branch. *)
Lemma parseInstruction_settled now accounts instruction r accounts' :
  parseInstruction now accounts instruction = Returns r accounts' ->
  Response.status r <> failed ->
  exists parsed,
    parseInstructionData (trim instruction) = Some parsed /\
    truthy (Parsed.type parsed) = true /\
    validateParsedFields parsed accounts (accountsMap_of accounts) = None.
Proof.
  unfold parseInstruction. intros H Hs.
  destruct (parseInstructionData (trim instruction)) as [parsed|]; [|discriminate].
  exists parsed. split; [done|].
  destruct (truthy (Parsed.type parsed)); cbn [negb] in H.
  2:{ injection H as <- <-. done. }
  split; [done|].
  destruct (validateParsedFields parsed accounts (accountsMap_of accounts));
    [|done].
  injection H as <- <-. done.
Qed.

(** Adding a string to a balance concatenates, whatever the balance is. *)
Lemma js_add_string balance s :
  js_add balance (VStr s) = VStr (String.append (ToString balance) s).
Proof. by destruct balance. Qed.

Lemma transfer_inserts accounts ty debit credit amount d c :
  debit <> credit ->
  accounts !! debit = Some d -> accounts !! credit = Some c ->
  transfer accounts ty debit credit amount
  = <[credit := Account.with_balance c (js_add (Account.balance c) amount)]>
      (<[debit := Account.with_balance d (js_sub (Account.balance d) amount)]>
         accounts).
Proof.
  intros Hne Hd Hc. unfold transfer, balance_add_assign, balance_sub_assign.
  destruct (bool_decide _).
  - by rewrite Hd, list_lookup_insert_ne, Hc.
  - rewrite Hc, list_lookup_insert_ne, Hd by done.
    by apply list_insert_insert_ne.
Qed.

Lemma append_self s t : String.append s t = s -> t = EmptyString.
Proof.
  induction s as [|c s IH]; [done|].
  change (String.append (String c s) t) with (String c (String.append s t)).
  intros [= H]. by apply IH.
Qed.

(** Subtracting a token of digits from an integer balance, within [2^53]. *)
Lemma js_sub_int b amount :
  amount <> EmptyString -> all_chars is_digit amount = true ->
  Z.abs b <= 2 ^ 53 -> JsNumber.digits_value amount <= 2 ^ 53 ->
  Z.abs (b - JsNumber.digits_value amount) <= 2 ^ 53 ->
  js_sub (VNum (Fin b 0)) (VStr amount)
  = VNum (Fin (b - JsNumber.digits_value amount) 0).
Proof.
  intros Hne Hdigits Hb Ha Hdiff. unfold js_sub. cbn [ToNumber].
  fold (Number amount).
  by rewrite (round_int b Hb), (Number_digits amount Hne Hdigits Ha), sub_int.
Qed.

Lemma transfer_transferred accounts ty debit credit amount d c :
  Account.id d <> Account.id c -> amount <> EmptyString ->
  accounts !! debit = Some d -> accounts !! credit = Some c ->
  transferred accounts (transfer accounts ty debit credit (VStr amount))
    (Some (Account.id d)) (Some (Account.id c)) amount.
Proof.
  intros Hid Hamount Hd Hc.
  assert (debit <> credit) as Hne by (intros ->; congruence).
  rewrite (transfer_inserts _ _ _ _ _ d c) by done.
  exists debit, d, (Account.with_balance d (js_sub (Account.balance d) (VStr amount))),
    credit, c, (Account.with_balance c (js_add (Account.balance c) (VStr amount))).
  split; [done|]. split; [done|]. split; [done|]. split; [done|].
  split.
  { rewrite list_lookup_insert_ne by done.
    apply list_lookup_insert_eq. by eapply lookup_lt_Some. }
  split.
  { apply list_lookup_insert_eq. rewrite length_insert.
    by eapply lookup_lt_Some. }
  split; [done|]. split; [done|]. split; [done|]. split; [done|].
  cbn [Account.with_balance Account.balance]. split; [reflexivity|].
  split.
  { intros b Hb Hdigits B1 B2 B3. rewrite Hb. by apply js_sub_int. }
  rewrite js_add_string. split; [reflexivity|]. split.
  - destruct (Account.balance c) as [|n|t]; try discriminate.
    cbn [ToString]. intros [= E]. by apply append_self in E.
  - intros i Hi1 Hi2. by rewrite !list_lookup_insert_ne.
Qed.

Lemma truthy_keyword ty :
  toLowerCase ty = "credit" \/ toLowerCase ty = "debit" ->
  truthy (Some ty) = true.
Proof. destruct ty; [intros [?|?]; discriminate | done]. Qed.

(** The two ways the settlement branch ends, by the date of the
    instruction. *)
Lemma settlement_cases now accounts instruction parsed :
  valid_clock now ->
  parseInstructionData (trim instruction) = Some parsed ->
  validateParsedFields parsed accounts (accountsMap_of accounts) = None ->
  exists r accounts',
    parseInstruction now accounts instruction = Returns r accounts' /\
    ((exists e, Parsed.execute_by parsed = Some e
                /\ date_lt (today now) (date_of e)) ->
     Response.status r = pending /\ Response.status_code r = "AP02" /\
     accounts' = accounts) /\
    ((forall e, Parsed.execute_by parsed = Some e ->
                ~ date_lt (today now) (date_of e)) ->
     Response.status r = successful /\ Response.status_code r = "AP00" /\
     exists amount,
       Parsed.amount parsed = Some amount /\
       transferred accounts accounts' (Parsed.debit_account parsed)
         (Parsed.credit_account parsed) amount).
Proof.
  intros Hnow Hp Hv.
  destruct (validateParsedFields_None _ _ _ Hv)
    as (ty & amt & debit & d & credit & c & Hty & Hkw & Hamt & Hta & Hd & Hc
        & Hne & Hdate).
  assert (truthy (Parsed.type parsed) = true) as Ht
    by (rewrite Hty; by apply truthy_keyword).
  assert (amt <> EmptyString) as Hamount
    by (rewrite Hamt in Hta; by destruct amt).
  rewrite (parseInstruction_validated _ _ _ _ _ _ _ _ Hp Ht Hv Hd Hc).
  eexists _, _. split; [reflexivity|].
  apply Map_get_Some in Hd as [Hd Hdk], Hc as [Hc Hck].
  assert (forall e, Parsed.execute_by parsed = Some e ->
            (execution now (Some e)).1 = pending /\ (execution now (Some e)).2 = "AP02"
            /\ date_lt (today now) (date_of e)
            \/ (execution now (Some e)).1 = successful
               /\ (execution now (Some e)).2 = "AP00"
               /\ ~ date_lt (today now) (date_of e)) as Hex.
  { intros e He. unfold execution. rewrite He in Hdate.
    destruct (truthy (Some e)) eqn:Te.
    - specialize (Hdate eq_refl). change (default "" (Some e)) with e in *.
      pose proof (execution_test now e Hnow Hdate) as Hiff.
      destruct (JsNumber.gtb _ _); [left|right]; (split; [done|split; [done|]]).
      + by apply Hiff.
      + intros Hlt. apply Hiff in Hlt. discriminate.
    - right. split; [done|split; [done|]]. destruct e; [|discriminate].
      destruct Hnow as [Hy _]. unfold date_lt, today, date_of.
      change (year_of "") with 0. lia. }
  split.
  - intros (e & He & Hlt). rewrite He.
    destruct (Hex e He) as [(-> & -> & _)|(_ & _ & Hn)]; done.
  - intros Hall. cbn [settled_response Response.status Response.status_code].
    assert ((execution now (Parsed.execute_by parsed)).1 = successful
            /\ (execution now (Parsed.execute_by parsed)).2 = "AP00") as [-> ->].
    { destruct (Parsed.execute_by parsed) as [e|] eqn:He; [|done].
      destruct (Hex e eq_refl) as [(_ & _ & Hlt)|(? & ? & _)]; [|done].
      by destruct (Hall e eq_refl). }
    split; [done|]. split; [done|]. exists amt. split; [done|].
    rewrite Hdk, Hck, Hamt. cbn [field_value].
    apply transfer_transferred; [congruence|done..].
Qed.

(** C7: an instruction that passes validation is deferred, with status
    pending and code AP02 and the accounts untouched, when its execute_by is
    present and a calendar date after the current UTC date; it is executed,
    with status successful and code AP00 and the two balances updated in
    place, when execute_by is absent or a date not after the current one.
    The update leaves the number [balance - amount] on the debit side and
    the balance followed by the amount token, a string, on the credit side,
    so that the credit balance always changes. *)
Theorem settlement_follows_execute_by now accounts instruction parsed :
  valid_clock now ->
  parseInstructionData (trim instruction) = Some parsed ->
  validateParsedFields parsed accounts (accountsMap_of accounts) = None ->
  exists r accounts',
    parseInstruction now accounts instruction = Returns r accounts' /\
    ((exists e, Parsed.execute_by parsed = Some e
                /\ date_lt (today now) (date_of e)) ->
     Response.status r = pending /\ Response.status_code r = "AP02" /\
     accounts' = accounts) /\
    ((forall e, Parsed.execute_by parsed = Some e ->
                ~ date_lt (today now) (date_of e)) ->
     Response.status r = successful /\ Response.status_code r = "AP00" /\
     exists amount,
       Parsed.amount parsed = Some amount /\
       transferred accounts accounts' (Parsed.debit_account parsed)
         (Parsed.credit_account parsed) amount).
Proof. apply settlement_cases. Qed.

Lemma clock_2026_11_03_valid : valid_clock clock_2026_11_03.
Proof.
  split; [cbn; lia|]. exists 30. split; [|cbn; lia].
  apply short_month. cbn. months.
Defined.

Lemma settlement_follows_execute_by_witness :
  let parsed :=
    {| Parsed.type := Some "credit"; Parsed.amount := Some "200";
       Parsed.currency := Some "USD";
       Parsed.debit_account := Some "ACC1";
       Parsed.credit_account := Some "ACC2";
       Parsed.execute_by := Some "2026-11-03" |} in
  exists r accounts',
    parseInstruction clock_2026_11_03 two_accounts
      "credit 200 usd x x ACC2 x x x x ACC1 x 2026-11-03"
    = Returns r accounts' /\
    ((exists e, Parsed.execute_by parsed = Some e
                /\ date_lt (today clock_2026_11_03) (date_of e)) ->
     Response.status r = pending /\ Response.status_code r = "AP02" /\
     accounts' = two_accounts) /\
    ((forall e, Parsed.execute_by parsed = Some e ->
                ~ date_lt (today clock_2026_11_03) (date_of e)) ->
     Response.status r = successful /\ Response.status_code r = "AP00" /\
     exists amount,
       Parsed.amount parsed = Some amount /\
       transferred two_accounts accounts' (Parsed.debit_account parsed)
         (Parsed.credit_account parsed) amount).
Proof.
  apply (settlement_follows_execute_by clock_2026_11_03 two_accounts
           "credit 200 usd x x ACC2 x x x x ACC1 x 2026-11-03").
  - exact clock_2026_11_03_valid.
  - reflexivity.
  - reflexivity.
Defined.

(** ** The type keyword *)

(** C3 (amended): an instruction whose first token, lower-cased, is no
    property of [SUPPORTED_TYPE] (there is no token, or the token is neither
    a supported keyword nor a name inherited from [Object.prototype]) is
    answered with status failed, code SY03 and the malformed-instruction
    message, and the accounts are left as they were. *)
Theorem unsupported_type_is_malformed now accounts instruction :
  (forall f, first_keyword instruction = Some f ->
             js_in f SUPPORTED_TYPE = false) ->
  parseInstruction now accounts instruction
  = Returns (Response.fail Response.initial MALFORMED_INSTRUCTION "SY03")
      accounts.
Proof.
  unfold first_keyword, parseInstruction, parseInstructionData. intros H.
  destruct (tokenize (trim instruction) !! 0%nat) as [w|]; [|done].
  cbn [fmap option_fmap option_map] in *.
  by rewrite (H _ eq_refl), andb_false_r.
Qed.

(** The first token "transfer" is no supported type, and the code answered
    is SY03, not PR01. *)
Lemma unsupported_type_code_is_not_PR01 :
  first_keyword "transfer 100 USD" = Some "transfer" /\
  js_in "transfer" SUPPORTED_TYPE = false /\
  exists r,
    parseInstruction clock_2026_11_03 two_accounts "transfer 100 USD"
    = Returns r two_accounts /\
    Response.status r = failed /\
    Response.status_reason r = MALFORMED_INSTRUCTION /\
    Response.status_code r = "SY03" /\
    Response.status_code r <> "PR01".
Proof.
  split; [reflexivity|]. split; [reflexivity|].
  eexists. split; [vm_compute; reflexivity|]. by repeat split.
Qed.

Lemma unsupported_type_is_malformed_witness :
  parseInstruction clock_2026_11_03 two_accounts "transfer 100 USD"
  = Returns (Response.fail Response.initial MALFORMED_INSTRUCTION "SY03")
      two_accounts.
Proof.
  apply (unsupported_type_is_malformed clock_2026_11_03 two_accounts
           "transfer 100 USD").
  intros f Hf. vm_compute in Hf. injection Hf as <-. reflexivity.
Defined.

(** The names [SUPPORTED_TYPE] answers [in] with true for. *)
Lemma js_in_SUPPORTED_TYPE f :
  js_in f SUPPORTED_TYPE = true
  <-> f = "credit" \/ f = "debit" \/ In f Object_prototype.
Proof.
  unfold js_in, own_property, SUPPORTED_TYPE. cbn [List.find fst snd].
  destruct (String.eqb_spec "credit" f) as [<-|Nc]; [cbn; tauto|].
  destruct (String.eqb_spec "debit" f) as [<-|Nd]; [cbn; tauto|].
  cbn [fmap option_fmap option_map]. rewrite existsb_exists. split.
  - intros (x & Hx & ->%String.eqb_eq). auto.
  - intros [?|[?|Hin]]; try congruence. exists f. by rewrite String.eqb_refl.
Qed.

(** A first token that names a property inherited from [Object.prototype]
    makes the parser throw. *)
Lemma inherited_keyword_throws now :
  parseInstruction now two_accounts "constructor 100 USD" = Throws.
Proof. reflexivity. Qed.

(** ** The amount checks *)

(** With a type, an amount that is missing, holds a decimal point or denotes
    a number at most zero is rejected with AM01. *)
Lemma amount_checks parsed accounts m ty :
  Parsed.type parsed = Some ty ->
  (truthy (Parsed.amount parsed) = false
   \/ (exists amt, Parsed.amount parsed = Some amt /\
                   (includes "." amt = true
                    \/ JsNumber.leb (Number amt) (Fin 0 0) = true))) ->
  validateParsedFields parsed accounts m = error "AM01" INVALID_AMOUNT.
Proof.
  intros Hty H. unfold validateParsedFields. rewrite Hty.
  destruct H as [->|(amt & Hamt & H)]; [done|]. rewrite Hamt.
  cbn [JsNumber.isNaN field_value ToNumber]. rewrite orb_false_r.
  destruct (truthy (Some amt)); [|done]. cbn [negb].
  change (default "" (Some amt)) with amt.
  destruct H as [->|H]; [done|]. destruct (includes "." amt); [done|].
  fold (Number amt). by rewrite H.
Qed.

(** ** Evaluations at concrete inputs *)

(** C1: on accounts ACC1 (1000 USD) and ACC2 (0 USD) the instruction
    "debit 500 USD x x ACC1 x x x x ACC2" is executed at once: the debit
    account goes from 1000 to 500, and the credit account, whose balance
    before is the number 0, ends with the string "0500", the concatenation
    of its balance and the amount token, where its balance plus the amount
    is 500. *)
Theorem debit_credits_by_concatenation :
  forall now,
  exists r,
    parseInstruction now two_accounts "debit 500 USD x x ACC1 x x x x ACC2"
    = Returns r
        [ {| Account.id := "ACC1"; Account.balance := VNum (Fin 500 0);
             Account.currency := "USD" |};
          {| Account.id := "ACC2"; Account.balance := VStr "0500";
             Account.currency := "USD" |} ] /\
    Response.status r = successful /\
    Response.accounts r
    = [ {| Snapshot.id := "ACC1"; Snapshot.balance := VNum (Fin 500 0);
           Snapshot.balance_before := VNum (Fin 1000 0);
           Snapshot.currency := "USD" |};
        {| Snapshot.id := "ACC2"; Snapshot.balance := VStr "0500";
           Snapshot.balance_before := VNum (Fin 0 0);
           Snapshot.currency := "USD" |} ] /\
    js_add (VNum (Fin 0 0)) (VNum (Number "500")) = VNum (Fin 500 0).
Proof.
  intros now. eexists. split; [vm_compute; reflexivity|]. by repeat split.
Qed.

(** C2: the amount token "abc" is not numeric, and the instruction
    "debit abc USD x x ACC1 x x x x ACC2" is not rejected with AM01: it is
    executed with status successful and code AP00, the amount of the response
    is NaN, and so is the balance of the debit account. *)
Theorem non_numeric_amount_is_accepted :
  forall now,
  Number "abc" = NaN /\
  exists r,
    parseInstruction now two_accounts "debit abc USD x x ACC1 x x x x ACC2"
    = Returns r
        [ {| Account.id := "ACC1"; Account.balance := VNum NaN;
             Account.currency := "USD" |};
          {| Account.id := "ACC2"; Account.balance := VStr "0abc";
             Account.currency := "USD" |} ] /\
    Response.status r = successful /\
    Response.status_code r = "AP00" /\
    Response.amount r = Some NaN.
Proof. intros now. split; [reflexivity|]. eexists. by repeat split. Qed.

(** C4: with 1000 on the debit account, "debit 5000 USD x x ACC1 x x x x
    ACC2" asks for more than the balance and is executed all the same, the
    debit account ending at -4000; the same instruction with the type token
    written "DEBIT" is rejected with AC01. *)
Theorem lower_case_debit_overdraws :
  forall now,
  JsNumber.ltb (Fin 1000 0) (Number "5000") = true /\
  (exists r accounts',
     parseInstruction now two_accounts "debit 5000 USD x x ACC1 x x x x ACC2"
     = Returns r accounts' /\
     Response.status r = successful /\
     Response.status_code r = "AP00" /\
     accounts' !! 0%nat
     = Some {| Account.id := "ACC1"; Account.balance := VNum (Fin (-4000) 0);
               Account.currency := "USD" |}) /\
  parseInstruction now two_accounts "DEBIT 5000 USD x x ACC1 x x x x ACC2"
  = Returns (Response.fail Response.initial INSUFFICIENT_FUNDS "AC01")
      two_accounts.
Proof.
  intros now. split; [vm_compute; reflexivity|].
  split; [|vm_compute; reflexivity].
  eexists _, _. split; [vm_compute; reflexivity|]. by repeat split.
Qed.

(** ** The scenario of the specification *)

(** In the instruction of the scenario the tokens 5 and 10 are both "x" and
    the evaluation fails. *)
Lemma scenario_is_not_pending :
  tokenize "debit 500 usd x x x ACC1 x x x x ACC2 x 2099-01-01" !! 5%nat
    = Some "x" /\
  exists r,
    parseInstruction clock_2026_11_03 two_accounts
      "debit 500 usd x x x ACC1 x x x x ACC2 x 2099-01-01"
    = Returns r two_accounts /\
    Response.status r = failed /\
    Response.status r <> pending /\
    Response.status_code r = "AC03".
Proof.
  split; [reflexivity|]. eexists. split; [vm_compute; reflexivity|].
  by repeat split.
Qed.

(** C8 (amended): on ACC1 (1000 USD) and ACC2 (0 USD) the instruction of the
    scenario, whose tokens 5 and 10 are "x", is answered with status failed
    and code AC03 and changes no balance; with the account ids at the
    positions 5 and 10 and the date at position 12 the instruction is
    answered with status pending and code AP02 and changes no balance, at any
    current UTC date before 2099-01-01. *)
Theorem scenario_by_position :
  (forall now,
     parseInstruction now two_accounts
       "debit 500 usd x x x ACC1 x x x x ACC2 x 2099-01-01"
     = Returns (Response.fail Response.initial ACCOUNT_NOT_FOUND "AC03")
         two_accounts) /\
  (forall now,
     valid_clock now -> date_lt (today now) (2099, 1, 1) ->
     exists r,
       parseInstruction now two_accounts
         "debit 500 usd x x ACC1 x x x x ACC2 x 2099-01-01"
       = Returns r two_accounts /\
       Response.status r = pending /\ Response.status_code r = "AP02").
Proof.
  split; [reflexivity|]. intros now Hnow Hlt.
  destruct (settlement_cases now two_accounts
              "debit 500 usd x x ACC1 x x x x ACC2 x 2099-01-01"
              {| Parsed.type := Some "debit"; Parsed.amount := Some "500";
                 Parsed.currency := Some "USD";
                 Parsed.debit_account := Some "ACC1";
                 Parsed.credit_account := Some "ACC2";
                 Parsed.execute_by := Some "2099-01-01" |})
    as (r & accounts' & -> & Hpending & _); [done | reflexivity.. |].
  destruct Hpending as (? & ? & ->); [by exists "2099-01-01"|].
  by exists r.
Qed.

Lemma scenario_by_position_witness :
  exists r,
    parseInstruction clock_2026_11_03 two_accounts
      "debit 500 usd x x ACC1 x x x x ACC2 x 2099-01-01"
    = Returns r two_accounts /\
    Response.status r = pending /\ Response.status_code r = "AP02".
Proof.
  apply (proj2 scenario_by_position clock_2026_11_03).
  - exact clock_2026_11_03_valid.
  - cbn. lia.
Defined.

(** ** The fields of the parsed instruction *)

Lemma toUpperCase_field (value : option string) :
  (if truthy value then toUpperCase <$> value else value)
  = toUpperCase <$> value.
Proof. by destruct value as [[|]|]. Qed.

(** A parsed instruction with a type carries the tokens at the positions of
    its keyword. *)
Lemma parseInstructionData_fields instruction parsed :
  parseInstructionData instruction = Some parsed ->
  truthy (Parsed.type parsed) = true ->
  let words := tokenize instruction in
  Parsed.type parsed = words !! 0%nat /\
  Parsed.amount parsed = words !! 1%nat /\
  Parsed.currency parsed = toUpperCase <$> words !! 2%nat /\
  Parsed.execute_by parsed = words !! 12%nat /\
  (toLowerCase <$> words !! 0%nat = Some "debit"
   /\ Parsed.debit_account parsed = words !! 5%nat
   /\ Parsed.credit_account parsed = words !! 10%nat
   \/ toLowerCase <$> words !! 0%nat = Some "credit"
      /\ Parsed.credit_account parsed = words !! 5%nat
      /\ Parsed.debit_account parsed = words !! 10%nat).
Proof.
  unfold parseInstructionData. intros H Ht.
  set (words := tokenize instruction) in *.
  destruct (words !! 0%nat) as [w|] eqn:Hw; cbn [fmap option_fmap option_map] in *.
  2:{ injection H as <-. discriminate. }
  destruct (truthy (Some (toLowerCase w)) && js_in (toLowerCase w) SUPPORTED_TYPE).
  2:{ injection H as <-. discriminate. }
  unfold own_property, PARSER_CONFIG in H. cbn [List.find fst snd] in H.
  destruct (String.eqb_spec "credit" (toLowerCase w)) as [Ec|Nc].
  { cbn in H. injection H as <-. cbn. rewrite toUpperCase_field, Hw, <- Ec.
    repeat split. right. done. }
  destruct (String.eqb_spec "debit" (toLowerCase w)) as [Ed|Nd].
  { cbn in H. injection H as <-. cbn. rewrite toUpperCase_field, Hw, <- Ed.
    repeat split. left. done. }
  discriminate.
Qed.

(** ** The accounts of a response *)

Lemma involved_true ka kb x :
  involved (Some ka) (Some kb) x = true
  <-> Account.id x = ka \/ Account.id x = kb.
Proof.
  unfold involved. rewrite orb_true_iff, !bool_decide_eq_true.
  split; (intros [?|?]; [left|right]; congruence).
Qed.

Lemma filter_involved_none l ka kb :
  ka ∉ Account.id <$> l -> kb ∉ Account.id <$> l ->
  List.filter (involved (Some ka) (Some kb)) l = [].
Proof.
  induction l as [|x l IH]; [done|]. rewrite fmap_cons, !not_elem_of_cons.
  intros [Ha Ha'] [Hb Hb']. cbn [List.filter].
  destruct (involved (Some ka) (Some kb) x) eqn:E; [|by apply IH].
  apply involved_true in E as [?|?]; congruence.
Qed.

Lemma id_in_ids (l : list Account.t) j b :
  l !! j = Some b -> Account.id b ∈ Account.id <$> l.
Proof. intros H. apply list_elem_of_fmap_2. by eapply list_elem_of_lookup_2. Qed.

Lemma filter_involved_one l ka kb j b :
  NoDup (Account.id <$> l) -> l !! j = Some b ->
  (Account.id b = ka /\ kb ∉ Account.id <$> l)
  \/ (Account.id b = kb /\ ka ∉ Account.id <$> l) ->
  List.filter (involved (Some ka) (Some kb)) l = [b].
Proof.
  revert j. induction l as [|x l IH]; intros j; [done|].
  rewrite fmap_cons, NoDup_cons. intros [Hx Hnd] Hj Hk. cbn [List.filter].
  destruct j as [|j]; cbn in Hj.
  - injection Hj as ->.
    assert (involved (Some ka) (Some kb) b = true) as ->
      by (apply involved_true; tauto).
    f_equal. rewrite !not_elem_of_cons in Hk.
    apply filter_involved_none; destruct Hk as [[<- [_ ?]]|[<- [_ ?]]]; done.
  - pose proof (id_in_ids _ _ _ Hj) as Hin. rewrite !not_elem_of_cons in Hk.
    destruct (involved (Some ka) (Some kb) x) eqn:E.
    + apply involved_true in E. exfalso.
      destruct Hk as [[Hb [? ?]]|[Hb [? ?]]], E as [E|E]; congruence.
    + apply (IH j); [done..|]. tauto.
Qed.

Lemma filter_involved_two l ka kb i j a b :
  NoDup (Account.id <$> l) -> (i < j)%nat ->
  l !! i = Some a -> l !! j = Some b ->
  (Account.id a = ka /\ Account.id b = kb)
  \/ (Account.id a = kb /\ Account.id b = ka) ->
  List.filter (involved (Some ka) (Some kb)) l = [a; b].
Proof.
  revert i j. induction l as [|x l IH]; intros i j; [done|].
  rewrite fmap_cons, NoDup_cons. intros [Hx Hnd] Hlt Hi Hj Hk. cbn [List.filter].
  destruct j as [|j]; [lia|]. cbn in Hj.
  pose proof (id_in_ids _ _ _ Hj) as Hinb.
  destruct i as [|i]; cbn in Hi.
  - injection Hi as ->.
    assert (involved (Some ka) (Some kb) a = true) as ->
      by (apply involved_true; tauto).
    f_equal. apply (filter_involved_one _ _ _ j); [done..|].
    destruct Hk as [[<- <-]|[<- <-]]; [right|left]; done.
  - pose proof (id_in_ids _ _ _ Hi) as Hina.
    destruct (involved (Some ka) (Some kb) x) eqn:E.
    + apply involved_true in E. exfalso.
      destruct Hk as [[? ?]|[? ?]], E as [E|E]; congruence.
    + apply (IH i j); [done | lia | done..].
Qed.

Lemma ids_insert_balance (l : list Account.t) i a v :
  l !! i = Some a ->
  Account.id <$> <[i := Account.with_balance a v]> l = Account.id <$> l.
Proof.
  intros H. rewrite list_fmap_insert. apply list_insert_id.
  by rewrite list_lookup_fmap, H.
Qed.

(** The accounts after the settlement branch: the two referenced accounts
    keep their id and currency, the ids of the array are unchanged, and
    nothing changes unless the instruction is executed at once. *)
Lemma settled_accounts_lookup accounts st ty debit credit amount d c :
  debit <> credit ->
  accounts !! debit = Some d -> accounts !! credit = Some c ->
  let accounts' :=
    match st with
    | successful => transfer accounts ty debit credit amount
    | _ => accounts
    end in
  exists d' c',
    accounts' !! debit = Some d' /\ accounts' !! credit = Some c' /\
    Account.id d' = Account.id d /\ Account.id c' = Account.id c /\
    Account.currency d' = Account.currency d /\
    Account.currency c' = Account.currency c /\
    Account.id <$> accounts' = Account.id <$> accounts /\
    (st = pending -> d' = d /\ c' = c).
Proof.
  intros Hne Hd Hc accounts'.
  assert (st = successful \/ accounts' = accounts) as [->|Hsame]
    by (destruct st; auto).
  - subst accounts'. cbn. rewrite (transfer_inserts _ _ _ _ _ d c) by done.
    eexists _, _. split.
    { rewrite list_lookup_insert_ne by done.
      apply list_lookup_insert_eq. by eapply lookup_lt_Some. }
    split.
    { apply list_lookup_insert_eq. rewrite length_insert.
      by eapply lookup_lt_Some. }
    repeat split; try done.
    rewrite ids_insert_balance by (by rewrite list_lookup_insert_ne).
    by rewrite ids_insert_balance.
  - rewrite Hsame. by exists d, c.
Qed.

(** C9: on ACC1 (1000 USD) and ACC2 (0 USD) the instruction
    "credit 200 usd x x ACC2 x x x x ACC1" is executed, at any current date,
    and the response carries the currency normalised, "USD" for the token
    "usd", and the amount as the number 200, but the type as the token is
    written, "credit", where the keyword of [SUPPORTED_TYPE] is "CREDIT". *)
Theorem response_type_is_as_written now :
  exists r accounts',
    parseInstruction now two_accounts "credit 200 usd x x ACC2 x x x x ACC1"
    = Returns r accounts' /\
    Response.status r = successful /\
    Response.currency r = Some "USD" /\
    Response.amount r = Some (Fin 200 0) /\
    Response.type r = Some "credit" /\
    own_property SUPPORTED_TYPE "credit" = Some "CREDIT" /\
    Response.type r <> own_property SUPPORTED_TYPE "credit".
Proof. eexists _, _. split; [vm_compute; reflexivity|]. by repeat split. Qed.

(** X22: when the ids of the supplied accounts are pairwise distinct, the
    response of a successful or pending evaluation carries the upper-cased
    currency token, the amount token as a number, the two account ids and
    execute_by as the tokens at their positions, and an accounts list of
    exactly the two accounts involved, in the order of the input, each with
    its id, its upper-cased currency, its balance before the evaluation and
    its balance after it, the two being equal when the status is pending. *)
Theorem settled_response_contents now accounts instruction r accounts' :
  NoDup (Account.id <$> accounts) ->
  parseInstruction now accounts instruction = Returns r accounts' ->
  Response.status r <> failed ->
  let words := tokenize (trim instruction) in
  exists amount i first first' j second second',
    Response.currency r = toUpperCase <$> words !! 2%nat /\
    words !! 1%nat = Some amount /\
    Response.amount r = Some (Number amount) /\
    (toLowerCase <$> words !! 0%nat = Some "debit"
     /\ Response.debit_account r = words !! 5%nat
     /\ Response.credit_account r = words !! 10%nat
     \/ toLowerCase <$> words !! 0%nat = Some "credit"
        /\ Response.credit_account r = words !! 5%nat
        /\ Response.debit_account r = words !! 10%nat) /\
    Response.execute_by r = words !! 12%nat /\
    (i < j)%nat /\
    accounts !! i = Some first /\ accounts !! j = Some second /\
    accounts' !! i = Some first' /\ accounts' !! j = Some second' /\
    (Response.debit_account r = Some (Account.id first)
     /\ Response.credit_account r = Some (Account.id second)
     \/ Response.debit_account r = Some (Account.id second)
        /\ Response.credit_account r = Some (Account.id first)) /\
    Response.accounts r
    = [snapshot_of first first'; snapshot_of second second'] /\
    (Response.status r = pending -> first' = first /\ second' = second).
Proof.
  intros Hnd H Hs words.
  destruct (parseInstruction_settled _ _ _ _ _ H Hs) as (parsed & Hp & Ht & Hv).
  destruct (validateParsedFields_None _ _ _ Hv)
    as (ty & amt & debit & d & credit & c & Hty & Hkw & Hamt & Hta & Hd & Hc
        & Hne & _).
  rewrite (parseInstruction_validated _ _ _ _ _ _ _ _ Hp Ht Hv Hd Hc) in H.
  cbv zeta in H. injection H as <- <-.
  destruct (parseInstructionData_fields _ _ Hp Ht)
    as (_ & Hf1 & Hf2 & Hf12 & Hacc). fold words in Hf1, Hf2, Hf12, Hacc.
  apply Map_get_Some in Hd as [Hd Hdk], Hc as [Hc Hck].
  assert (Account.id d <> Account.id c) as Hid by congruence.
  assert (debit <> credit) as Hdc by (intros ->; congruence).
  set (st := (execution now (Parsed.execute_by parsed)).1) in *.
  destruct (settled_accounts_lookup accounts st (Parsed.type parsed) debit credit
              (field_value (Parsed.amount parsed)) d c Hdc Hd Hc)
    as (d' & c' & Hd' & Hc' & Eid & Eic & Ecd & Ecc & Eids & Hpend).
  cbv zeta in Hd', Hc', Eids, Hpend.
  set (accounts1 := match st with
                    | successful => _
                    | _ => accounts
                    end) in *.
  cbn [settled_response Response.currency Response.amount Response.debit_account
         Response.credit_account Response.execute_by Response.accounts
         Response.status].
  rewrite Hta, Hamt. cbn [field_value ToNumber]. fold (Number amt).
  assert (forall first first' second second' i j,
            (i < j)%nat ->
            accounts1 !! i = Some first' -> accounts1 !! j = Some second' ->
            Account.id first' = Account.id first ->
            Account.id second' = Account.id second ->
            Account.currency first' = Account.currency first ->
            Account.currency second' = Account.currency second ->
            (first = d /\ second = c \/ first = c /\ second = d) ->
            finalAccounts_of parsed (Account.balance d) (Account.balance c) accounts1
            = [snapshot_of first first'; snapshot_of second second']) as Hfinal.
  { intros first first' second second' i j Hij Hi Hj E1 E2 E3 E4 Hwhich.
    unfold finalAccounts_of.
    change (List.filter _ accounts1)
      with (List.filter (involved (Parsed.debit_account parsed)
                           (Parsed.credit_account parsed)) accounts1).
    rewrite Hdk, Hck.
    rewrite (filter_involved_two accounts1 _ _ i j first' second');
      [|by rewrite Eids|done..|].
    2:{ destruct Hwhich as [[-> ->]|[-> ->]]; [left|right]; done. }
    cbn [List.map]. unfold snapshot_of. rewrite E1, E2, E3, E4.
    destruct Hwhich as [[-> ->]|[-> ->]].
    - rewrite (bool_decide_eq_true_2 (Some (Account.id d) = Some (Account.id d)))
        by done.
      by rewrite (bool_decide_eq_false_2 (Some (Account.id c) = Some (Account.id d)))
        by congruence.
    - rewrite (bool_decide_eq_true_2 (Some (Account.id d) = Some (Account.id d)))
        by done.
      by rewrite (bool_decide_eq_false_2 (Some (Account.id c) = Some (Account.id d)))
        by congruence. }
  assert (words !! 1%nat = Some amt) as Hw1 by congruence.
  destruct (Nat.lt_total debit credit) as [Hlt|[?|Hgt]]; [|done|].
  - exists amt, debit, d, d', credit, c, c'.
    rewrite (Hfinal d d' c c' debit credit) by auto.
    repeat split; try done; tauto.
  - exists amt, credit, c, c', debit, d, d'.
    rewrite (Hfinal c c' d d' credit debit) by auto.
    repeat split; try done; tauto.
Qed.

(** With two accounts under the id "A" the accounts list of the response has
    three entries, the first with the balance before of the other account of
    that id; and the type of the response is the type token as written. *)
Lemma response_of_duplicate_ids :
  exists r accounts',
    parseInstruction clock_2026_11_03 accounts_with_duplicate
      "debit 10 USD x x A x x x x B"
    = Returns r accounts' /\
    Response.status r = successful /\
    Response.type r = Some "debit" /\
    Response.type r <> Some "DEBIT" /\
    length (Response.accounts r) = 3%nat /\
    Snapshot.balance_before <$> Response.accounts r !! 0%nat
    = Some (VNum (Fin 50 0)) /\
    Account.balance <$> accounts_with_duplicate !! 0%nat
    = Some (VNum (Fin 100 0)).
Proof. eexists _, _. split; [vm_compute; reflexivity|]. by repeat split. Qed.

Lemma settled_response_contents_witness :
  let r := debit_500_response in
  let words := tokenize (trim "debit 500 USD x x ACC1 x x x x ACC2") in
  exists amount i first first' j second second',
    Response.currency r = toUpperCase <$> words !! 2%nat /\
    words !! 1%nat = Some amount /\
    Response.amount r = Some (Number amount) /\
    (toLowerCase <$> words !! 0%nat = Some "debit"
     /\ Response.debit_account r = words !! 5%nat
     /\ Response.credit_account r = words !! 10%nat
     \/ toLowerCase <$> words !! 0%nat = Some "credit"
        /\ Response.credit_account r = words !! 5%nat
        /\ Response.debit_account r = words !! 10%nat) /\
    Response.execute_by r = words !! 12%nat /\
    (i < j)%nat /\
    two_accounts !! i = Some first /\ two_accounts !! j = Some second /\
    two_accounts_settled !! i = Some first' /\
    two_accounts_settled !! j = Some second' /\
    (Response.debit_account r = Some (Account.id first)
     /\ Response.credit_account r = Some (Account.id second)
     \/ Response.debit_account r = Some (Account.id second)
        /\ Response.credit_account r = Some (Account.id first)) /\
    Response.accounts r
    = [snapshot_of first first'; snapshot_of second second'] /\
    (Response.status r = pending -> first' = first /\ second' = second).
Proof.
  apply (settled_response_contents clock_2026_11_03 two_accounts
           "debit 500 USD x x ACC1 x x x x ACC2" debit_500_response
           two_accounts_settled).
  - by apply (bool_decide_unpack _).
  - reflexivity.
  - discriminate.
Defined.

(** * Further properties of the code *)

(** ** Account ids *)

Lemma includes_allowed c : includes c allowed = account_id_char c.
Proof. by_ascii_cases c. Qed.

(** X1: an account id is valid exactly when it is a string, not empty, made
    of ASCII letters, digits, hyphens, periods and at-signs. *)
Theorem isValidAccountId_spec (id : option string) :
  isValidAccountId id = true
  <-> exists s, id = Some s /\ s <> EmptyString
                /\ all_chars account_id_char s = true.
Proof.
  unfold isValidAccountId. split.
  - destruct id as [[|c s]|]; try discriminate. cbn [truthy negb].
    rewrite (all_chars_ext _ account_id_char) by apply includes_allowed.
    intros H. by exists (String c s).
  - intros (s & -> & Hne & Hs). destruct s as [|c s]; [done|]. cbn [truthy negb].
    by rewrite (all_chars_ext _ account_id_char) by apply includes_allowed.
Qed.

(** ** The tokenizer *)

Lemma split_cons sep s : exists w ws, split sep s = w :: ws.
Proof.
  destruct s as [|c s]; cbn; [by eexists _, _|].
  destruct (Ascii.eqb c sep); [by eexists _, _|].
  destruct (split sep s); by eexists _, _.
Qed.

Lemma split_app_sep sep a b :
  split sep (String.append a (String sep b))
  = (split sep a ++ split sep b)%list.
Proof.
  induction a as [|c a IH].
  - change (split sep (String sep b) = ([EmptyString] ++ split sep b)%list).
    cbn [split]. by rewrite Ascii.eqb_refl.
  - change (String.append (String c a) (String sep b))
      with (String c (String.append a (String sep b))).
    cbn [split]. rewrite IH. destruct (Ascii.eqb c sep); [done|].
    by destruct (split_cons sep a) as (w & ws & ->).
Qed.

Lemma split_no_sep sep s p : In p (split sep s) -> includes sep p = false.
Proof.
  revert p. induction s as [|c s IH]; intros p; cbn [split].
  - by intros [<-|[]].
  - destruct (Ascii.eqb_spec c sep) as [->|Hc].
    + intros [<-|Hp]; [done | by apply IH].
    + destruct (split_cons sep s) as (w & ws & E). rewrite E in IH |- *.
      intros [<-|Hp].
      * cbn [includes]. rewrite (IH w) by by left.
        by destruct (Ascii.eqb_spec c sep).
      * apply IH. by right.
Qed.

Lemma includes_trimStart c s :
  includes c s = false -> includes c (trimStart s) = false.
Proof.
  induction s as [|d s IH]; [done|]. cbn [includes trimStart].
  intros [Hd Hs]%orb_false_elim. destruct (is_space d); [by apply IH|].
  cbn [includes]. by rewrite Hd, Hs.
Qed.

Lemma includes_trimEnd c s :
  includes c s = false -> includes c (trimEnd s) = false.
Proof.
  induction s as [|d s IH]; [done|]. cbn [includes trimEnd].
  intros [Hd Hs]%orb_false_elim. specialize (IH Hs).
  destruct (trimEnd s) as [|e t].
  - destruct (is_space d); [done|]. cbn [includes]. by rewrite Hd.
  - change (includes c (String d (String e t)) = false).
    cbn [includes] in *. by rewrite Hd, IH.
Qed.

Lemma trimEnd_idempotent s : trimEnd (trimEnd s) = trimEnd s.
Proof.
  induction s as [|c s IH]; [done|]. cbn [trimEnd].
  destruct (trimEnd s) as [|e t] eqn:E.
  - destruct (is_space c) eqn:Hc; [done|]. cbn [trimEnd]. by rewrite Hc.
  - change (trimEnd (String c (String e t)) = String c (String e t)).
    cbn [trimEnd] in *. rewrite IH. done.
Qed.

Lemma trimEnd_head c s :
  is_space c = false -> exists t, trimEnd (String c s) = String c t.
Proof.
  intros Hc. cbn [trimEnd]. destruct (trimEnd s); [|by eexists].
  rewrite Hc. by eexists.
Qed.

Lemma trimStart_head s :
  trimStart s = EmptyString
  \/ exists c t, trimStart s = String c t /\ is_space c = false.
Proof.
  induction s as [|c s IH]; [by left|]. cbn [trimStart].
  destruct (is_space c) eqn:Hc; [done|]. right. by exists c, s.
Qed.

Lemma trim_idempotent s : trim (trim s) = trim s.
Proof.
  unfold trim. destruct (trimStart_head s) as [->|(c & t & -> & Hc)]; [done|].
  destruct (trimEnd_head c t Hc) as (u & E). rewrite E.
  cbn [trimStart]. rewrite Hc, <- E. apply trimEnd_idempotent.
Qed.

Lemma tokenize_nonempty instruction w :
  In w (tokenize instruction) -> w <> EmptyString.
Proof.
  unfold tokenize. rewrite filter_In. intros [_ Ht] E. by rewrite E in Ht.
Qed.

(** X2: every token is a non-empty string without a space in it and without
    white space at either end. *)
Theorem tokenize_tokens instruction w :
  In w (tokenize instruction) ->
  w <> EmptyString /\ includes " " w = false /\ trim w = w.
Proof.
  unfold tokenize. rewrite filter_In, in_map_iff.
  intros [(p & <- & Hp) Ht]. split; [by intros E; rewrite E in Ht|].
  split; [|apply trim_idempotent].
  unfold trim. apply includes_trimEnd, includes_trimStart.
  by eapply split_no_sep.
Qed.

(** X3: the tokens of two texts joined by a space are the tokens of the
    first followed by the tokens of the second; in particular a run of
    spaces separates like one space. *)
Theorem tokenize_space a b :
  tokenize (String.append a (String " " b))
  = (tokenize a ++ tokenize b)%list.
Proof.
  unfold tokenize. by rewrite split_app_sep, List.map_app, List.filter_app.
Qed.

Lemma tokenize_tokens_witness :
  "ACC1" <> EmptyString /\ includes " " "ACC1" = false /\ trim "ACC1" = "ACC1".
Proof.
  apply (tokenize_tokens "debit  500 usd x x   ACC1" "ACC1").
  vm_compute. do 5 right. by left.
Defined.

(** ** Letter case *)

Lemma lower_char_not_upper c : is_upper (lower_char c) = false.
Proof. by_ascii_cases c. Qed.

Lemma upper_char_not_lower c : is_lower (upper_char c) = false.
Proof. by_ascii_cases c. Qed.

Lemma lower_upper_char c : lower_char (upper_char c) = lower_char c.
Proof. by_ascii_cases c. Qed.

Lemma upper_lower_char c : upper_char (lower_char c) = upper_char c.
Proof. by_ascii_cases c. Qed.

Lemma toLowerCase_no_upper s :
  all_chars (fun c => negb (is_upper c)) (toLowerCase s) = true.
Proof.
  induction s as [|c s IH]; [done|]. cbn [toLowerCase map_chars all_chars].
  by rewrite lower_char_not_upper.
Qed.

Lemma toLowerCase_toUpperCase s : toLowerCase (toUpperCase s) = toLowerCase s.
Proof.
  induction s as [|c s IH]; [done|]. cbn [toLowerCase toUpperCase map_chars].
  f_equal; [apply lower_upper_char | apply IH].
Qed.

Lemma toUpperCase_toLowerCase s : toUpperCase (toLowerCase s) = toUpperCase s.
Proof.
  induction s as [|c s IH]; [done|]. cbn [toLowerCase toUpperCase map_chars].
  f_equal; [apply upper_lower_char | apply IH].
Qed.

Lemma toUpperCase_idempotent s : toUpperCase (toUpperCase s) = toUpperCase s.
Proof.
  induction s as [|c s IH]; [done|]. cbn [toUpperCase map_chars].
  f_equal; [|apply IH]. unfold upper_char at 1.
  by rewrite upper_char_not_lower.
Qed.

(** Of the names inherited from [Object.prototype] only two are written
    without a capital, so only they can be a lower-cased token. *)
Lemma lower_in_Object_prototype w :
  In (toLowerCase w) Object_prototype ->
  toLowerCase w = "constructor" \/ toLowerCase w = "__proto__".
Proof.
  pose proof (toLowerCase_no_upper w) as H. unfold Object_prototype.
  cbn [In]. intros Hin.
  repeat (destruct Hin as [E|Hin];
          [first [ by left | by right | rewrite <- E in H; discriminate ]|]).
  done.
Qed.

Lemma js_in_Object_prototype {A} (obj : list (string * A)) f :
  own_property obj f = None ->
  js_in f obj = true <-> In f Object_prototype.
Proof.
  intros H. unfold js_in. rewrite H, existsb_exists. split.
  - by intros (x & Hx & ->%String.eqb_eq).
  - intros Hin. exists f. by rewrite String.eqb_refl.
Qed.

(** ** The field mapper *)

(** The four ways [parseInstructionData] ends, by the lower-cased first
    token. *)
Lemma parseInstructionData_cases instruction :
  let words := tokenize instruction in
  match toLowerCase <$> words !! 0%nat with
  | None => parseInstructionData instruction = Some Parsed.empty
  | Some f =>
      if String.eqb f "credit" then
        parseInstructionData instruction
        = Some {| Parsed.type := words !! 0%nat;
                  Parsed.amount := words !! 1%nat;
                  Parsed.currency := toUpperCase <$> words !! 2%nat;
                  Parsed.debit_account := words !! 10%nat;
                  Parsed.credit_account := words !! 5%nat;
                  Parsed.execute_by := words !! 12%nat |}
      else if String.eqb f "debit" then
        parseInstructionData instruction
        = Some {| Parsed.type := words !! 0%nat;
                  Parsed.amount := words !! 1%nat;
                  Parsed.currency := toUpperCase <$> words !! 2%nat;
                  Parsed.debit_account := words !! 5%nat;
                  Parsed.credit_account := words !! 10%nat;
                  Parsed.execute_by := words !! 12%nat |}
      else if String.eqb f "constructor" || String.eqb f "__proto__" then
        parseInstructionData instruction = None
      else parseInstructionData instruction = Some Parsed.empty
  end.
Proof.
  intros words. unfold parseInstructionData. fold words.
  destruct (words !! 0%nat) as [w|] eqn:Hw; cbn [fmap option_fmap option_map];
    [|done].
  assert (truthy (Some (toLowerCase w)) = true) as ->.
  { assert (In w (tokenize instruction)) as Hin.
    { apply list_elem_of_In. by eapply list_elem_of_lookup_2. }
    apply tokenize_nonempty in Hin. by destruct w. }
  cbn [andb].
  destruct (String.eqb_spec (toLowerCase w) "credit") as [->|Nc].
  { cbn. by rewrite toUpperCase_field, Hw. }
  destruct (String.eqb_spec (toLowerCase w) "debit") as [->|Nd].
  { cbn. by rewrite toUpperCase_field, Hw. }
  assert (own_property SUPPORTED_TYPE (toLowerCase w) = None) as Hs.
  { unfold own_property, SUPPORTED_TYPE. cbn [List.find fst snd].
    destruct (String.eqb_spec "credit" (toLowerCase w)); [congruence|].
    by destruct (String.eqb_spec "debit" (toLowerCase w)); [congruence|]. }
  assert (own_property PARSER_CONFIG (toLowerCase w) = None) as ->.
  { unfold own_property, PARSER_CONFIG. cbn [List.find fst snd].
    destruct (String.eqb_spec "credit" (toLowerCase w)); [congruence|].
    by destruct (String.eqb_spec "debit" (toLowerCase w)); [congruence|]. }
  pose proof (js_in_Object_prototype SUPPORTED_TYPE _ Hs) as Hin.
  destruct (String.eqb_spec (toLowerCase w) "constructor") as [E|N1].
  { rewrite E in *. cbn. done. }
  destruct (String.eqb_spec (toLowerCase w) "__proto__") as [E|N2].
  { rewrite E in *. cbn. done. }
  cbn [orb]. destruct (js_in (toLowerCase w) SUPPORTED_TYPE); [|done].
  destruct (lower_in_Object_prototype w) as [?|?]; [by apply Hin|done..].
Qed.

(** X4: when the first token is "debit" or "credit" in any letter case, the
    parsed instruction holds the tokens at the positions of the keyword:
    type 0, amount 1, currency 2 (upper-cased), execute_by 12, and the debit
    and credit accounts at 5 and 10 for a debit, at 10 and 5 for a credit; a
    position past the last token gives null. *)
Theorem parseInstructionData_positions instruction kw :
  let words := tokenize instruction in
  toLowerCase <$> words !! 0%nat = Some kw ->
  kw = "debit" \/ kw = "credit" ->
  parseInstructionData instruction
  = Some {| Parsed.type := words !! 0%nat;
            Parsed.amount := words !! 1%nat;
            Parsed.currency := toUpperCase <$> words !! 2%nat;
            Parsed.debit_account :=
              words !! (if String.eqb kw "debit" then 5 else 10)%nat;
            Parsed.credit_account :=
              words !! (if String.eqb kw "debit" then 10 else 5)%nat;
            Parsed.execute_by := words !! 12%nat |}.
Proof.
  intros words Hkw Hwhich. pose proof (parseInstructionData_cases instruction) as H.
  cbv zeta in H. fold words in H. rewrite Hkw in H.
  by destruct Hwhich as [->| ->].
Qed.

Lemma parseInstructionData_positions_witness :
  parseInstructionData "Credit 200 gbp x x ACC2 x"
  = Some {| Parsed.type := Some "Credit";
            Parsed.amount := Some "200";
            Parsed.currency := Some "GBP";
            Parsed.debit_account := None;
            Parsed.credit_account := Some "ACC2";
            Parsed.execute_by := None |}.
Proof.
  apply (parseInstructionData_positions "Credit 200 gbp x x ACC2 x" "credit").
  - reflexivity.
  - by right.
Defined.

(** ** Exceptions *)

(** X5: an evaluation throws exactly when the first token of the instruction
    is "constructor" or "__proto__" in any letter case; every other
    instruction is answered with a response. *)
Theorem parseInstruction_throws now accounts instruction :
  parseInstruction now accounts instruction = Throws
  <-> first_keyword instruction = Some "constructor"
      \/ first_keyword instruction = Some "__proto__".
Proof.
  unfold first_keyword.
  pose proof (parseInstructionData_cases (trim instruction)) as Hcases.
  cbv zeta in Hcases. unfold parseInstruction. split.
  - destruct (parseInstructionData (trim instruction)) as [parsed|] eqn:Hp.
    + destruct (negb (truthy (Parsed.type parsed))); [discriminate|].
      destruct (validateParsedFields parsed accounts (accountsMap_of accounts))
        eqn:Hv; [discriminate|].
      destruct (validateParsedFields_None _ _ _ Hv)
        as (ty & amt & debit & d & credit & c & _ & _ & _ & _ & -> & -> & _).
      fold (execution now (Parsed.execute_by parsed)).
      by destruct (execution now (Parsed.execute_by parsed)).
    + intros _.
      destruct (toLowerCase <$> tokenize (trim instruction) !! 0%nat) as [f|];
        [|discriminate Hcases].
      destruct (String.eqb f "credit"); [discriminate Hcases|].
      destruct (String.eqb f "debit"); [discriminate Hcases|].
      destruct (String.eqb_spec f "constructor") as [E|]; [left; by rewrite E|].
      destruct (String.eqb_spec f "__proto__") as [E|]; [right; by rewrite E|].
      discriminate Hcases.
  - intros [E|E]; rewrite E in Hcases; cbn in Hcases; by rewrite Hcases.
Qed.

(** ** Status, code and reason *)

Lemma validateParsedFields_codes parsed accounts m e ty :
  validateParsedFields parsed accounts m = Some e ->
  Parsed.type parsed = Some ty ->
  toLowerCase ty = "credit" \/ toLowerCase ty = "debit" ->
  In (ValidationError.code e, ValidationError.message e) failure_codes.
Proof.
  unfold validateParsedFields, error. intros H Hty Hkw. rewrite Hty in H.
  assert (negb (String.eqb (toLowerCase ty) "credit")
          && negb (String.eqb (toLowerCase ty) "debit") = false) as Hk.
  { destruct Hkw as [-> | ->]; reflexivity. }
  rewrite Hk in H.
  repeat case_match; try discriminate; injection H as <-; cbn; tauto.
Qed.

(** The decision of the settlement branch is one of two pairs. *)
Lemma execution_cases now execute_by :
  execution now execute_by = (successful, "AP00")
  \/ execution now execute_by = (pending, "AP02").
Proof. unfold execution. repeat case_match; auto. Qed.

(** The code of a response by its status. *)
Lemma response_codes_of_status now accounts instruction r accounts' :
  parseInstruction now accounts instruction = Returns r accounts' ->
  (Response.status r = successful /\ Response.status_code r = "AP00")
  \/ (Response.status r = pending /\ Response.status_code r = "AP02")
  \/ (Response.status r = failed
      /\ In (Response.status_code r) (failure_codes.*1)).
Proof.
  unfold parseInstruction. intros H.
  destruct (parseInstructionData (trim instruction)) as [parsed|] eqn:Hp;
    [|discriminate].
  destruct (truthy (Parsed.type parsed)) eqn:Ht; cbn [negb] in H.
  2:{ injection H as <- <-. right. right. cbn. tauto. }
  destruct (parseInstructionData_fields _ _ Hp Ht) as (Hty & _ & _ & _ & Hkw).
  destruct (validateParsedFields parsed accounts (accountsMap_of accounts))
    as [e|] eqn:Hv.
  - injection H as <- <-. right. right. split; [done|].
    cbn [Response.fail Response.status_code].
    destruct (Parsed.type parsed) as [ty|] eqn:Ety; [|done].
    assert (In (ValidationError.code e, ValidationError.message e) failure_codes)
      as Hin.
    { apply (validateParsedFields_codes _ _ _ _ ty Hv Ety).
      rewrite <- Hty in Hkw. cbn in Hkw.
      destruct Hkw as [([= ->] & _)|([= ->] & _)]; auto. }
    apply list_elem_of_In, (list_elem_of_fmap_2 fst) in Hin.
    by apply list_elem_of_In.
  - destruct (validateParsedFields_None _ _ _ Hv)
      as (ty & amt & debit & d & credit & c & _ & _ & _ & _ & Hd & Hc & _).
    rewrite Hd, Hc in H.
    fold (execution now (Parsed.execute_by parsed)) in H.
    destruct (execution_cases now (Parsed.execute_by parsed)) as [E|E];
      rewrite E in H; injection H as <- <-; cbn; auto.
Qed.

(** X7: a response is successful with code AP00, pending with code AP02, or
    failed with one of nine codes, each with its own message; the code PR01
    of the initial response and the missing-keyword message are never
    returned. *)
Theorem response_status_codes now accounts instruction r accounts' :
  parseInstruction now accounts instruction = Returns r accounts' ->
  (Response.status r = successful /\ Response.status_code r = "AP00"
   /\ Response.status_reason r = TRANSACTION_SUCCESSFUL)
  \/ (Response.status r = pending /\ Response.status_code r = "AP02"
      /\ Response.status_reason r = TRANSACTION_PENDING)
  \/ (Response.status r = failed
      /\ In (Response.status_code r, Response.status_reason r) failure_codes
      /\ Response.status_code r <> "PR01"
      /\ Response.status_reason r <> MISSING_KEYWORD).
Proof.
  intros H.
  assert (forall code reason, In (code, reason) failure_codes ->
            code <> "PR01" /\ reason <> MISSING_KEYWORD) as Hnot.
  { intros code reason Hin. cbn in Hin.
    repeat (destruct Hin as [[= <- <-]|Hin]; [done|]). done. }
  assert (Response.status r = failed
          -> In (Response.status_code r, Response.status_reason r) failure_codes
          -> Response.status r = failed
             /\ In (Response.status_code r, Response.status_reason r) failure_codes
             /\ Response.status_code r <> "PR01"
             /\ Response.status_reason r <> MISSING_KEYWORD) as Hfail.
  { intros ? Hin. destruct (Hnot _ _ Hin). done. }
  unfold parseInstruction in H.
  destruct (parseInstructionData (trim instruction)) as [parsed|] eqn:Hp;
    [|discriminate].
  destruct (truthy (Parsed.type parsed)) eqn:Ht; cbn [negb] in H.
  2:{ injection H as <- <-. right. right. apply Hfail; cbn; tauto. }
  destruct (parseInstructionData_fields _ _ Hp Ht) as (Hty & _ & _ & _ & Hkw).
  destruct (validateParsedFields parsed accounts (accountsMap_of accounts))
    as [e|] eqn:Hv.
  - injection H as <- <-. right. right. apply Hfail; [done|].
    cbn [Response.fail Response.status_code Response.status_reason].
    destruct (Parsed.type parsed) as [ty|] eqn:Ety; [|done].
    apply (validateParsedFields_codes _ _ _ _ ty Hv Ety).
    rewrite <- Hty in Hkw. cbn in Hkw.
    destruct Hkw as [([= ->] & _)|([= ->] & _)]; auto.
  - destruct (validateParsedFields_None _ _ _ Hv)
      as (ty & amt & debit & d & credit & c & _ & _ & _ & _ & Hd & Hc & _).
    rewrite Hd, Hc in H.
    fold (execution now (Parsed.execute_by parsed)) in H.
    destruct (execution_cases now (Parsed.execute_by parsed)) as [E|E];
      rewrite E in H; injection H as <- <-; cbn; auto.
Qed.

(** ** The account map: the last account of an id wins *)

Lemma accountsMap_of_snoc l a :
  accountsMap_of (l ++ [a])%list
  = <[Account.id a := length l]> (accountsMap_of l).
Proof.
  unfold accountsMap_of. rewrite imap_app, fold_left_app. cbn.
  by rewrite Nat.add_0_r.
Qed.

(** What a lookup in the map finds. *)
Lemma accountsMap_of_lookup accounts k :
  (forall i,
     accountsMap_of accounts !! k = Some i
     <-> (exists a, accounts !! i = Some a /\ Account.id a = k)
         /\ (forall j b, (i < j)%nat -> accounts !! j = Some b ->
                         Account.id b <> k))
  /\ (accountsMap_of accounts !! k = None
      <-> forall i a, accounts !! i = Some a -> Account.id a <> k).
Proof.
  induction accounts as [|a l [IHs IHn]] using rev_ind.
  - split; [intros i|]; unfold accountsMap_of; cbn; rewrite lookup_empty.
    + split; [done|]. by intros [(a & Ha & _) _].
    + split; [|done]. intros _ i a Ha. done.
  - rewrite accountsMap_of_snoc. split; [intros i|].
    + rewrite lookup_insert_Some, IHs. split.
      * intros [[Hk <-]|[Hk [(b & Hb & Hbk) Hlater]]].
        -- split.
           ++ exists a. split; [|done]. apply lookup_snoc_Some. by right.
           ++ intros j b Hj [[? _]|[? _]]%lookup_snoc_Some; lia.
        -- split.
           ++ exists b. split; [|done]. apply lookup_snoc_Some. left.
              split; [by eapply lookup_lt_Some | done].
           ++ intros j c Hj [[_ Hc]|[_ <-]]%lookup_snoc_Some; [|done].
              by apply (Hlater j c).
      * intros [(b & Hb & Hbk) Hlater].
        apply lookup_snoc_Some in Hb as [[Hi Hb]|[Hi Hab]].
        -- right. split.
           ++ intros Hk. apply (Hlater (length l) a); [done| |done].
              apply lookup_snoc_Some. by right.
           ++ split; [by exists b|]. intros j c Hj Hc.
              apply (Hlater j c); [done|]. apply lookup_snoc_Some. left.
              split; [by eapply lookup_lt_Some | done].
        -- left. by rewrite Hi, Hab.
    + rewrite lookup_insert_None, IHn. split.
      * intros [Hall Hk] i b [[_ Hb]|[_ <-]]%lookup_snoc_Some; [|done].
        by apply (Hall i b).
      * intros Hall. split.
        -- intros i b Hb. apply (Hall i b). apply lookup_snoc_Some. left.
           split; [by eapply lookup_lt_Some | done].
        -- apply (Hall (length l) a). apply lookup_snoc_Some. by right.
Qed.

(** X6: the map built from the accounts refers, for an id, to the last
    account of the array with that id, and to nothing for an id no account
    has. *)
Theorem accountsMap_of_last accounts k :
  (forall i,
     accountsMap_of accounts !! k = Some i
     <-> (exists a, accounts !! i = Some a /\ Account.id a = k)
         /\ (forall j b, (i < j)%nat -> accounts !! j = Some b ->
                         Account.id b <> k))
  /\ (accountsMap_of accounts !! k = None
      <-> forall i a, accounts !! i = Some a -> Account.id a <> k).
Proof. apply accountsMap_of_lookup. Qed.

(** ** What validation checks *)

(** A key the map does not answer is no string or the id of no account. *)
Lemma Map_get_None accounts key :
  Map_get accounts (accountsMap_of accounts) key = None ->
  forall i a, accounts !! i = Some a -> key <> Some (Account.id a).
Proof.
  unfold Map_get. destruct key as [k|]; [|done]. cbn.
  destruct (accountsMap_of accounts !! k) as [j|] eqn:Hj; cbn.
  - apply accountsMap_of_Some in Hj as (b & -> & _). done.
  - intros _ i a Ha [= ->].
    by apply (proj1 (proj2 (accountsMap_of_lookup accounts _)) Hj i a).
Qed.

(** Everything a passed validation has checked. *)
Lemma validateParsedFields_passed parsed accounts m :
  validateParsedFields parsed accounts m = None ->
  exists ty amt cur debit d credit c,
    Parsed.type parsed = Some ty /\
    Parsed.amount parsed = Some amt /\
    includes "." amt = false /\
    JsNumber.leb (Number amt) (Fin 0 0) = false /\
    Parsed.currency parsed = Some cur /\
    js_in (toLowerCase cur) SUPPORTED_CURRENCIES = true /\
    Map_get accounts m (Parsed.debit_account parsed) = Some (debit, d) /\
    Map_get accounts m (Parsed.credit_account parsed) = Some (credit, c) /\
    toUpperCase (Account.currency d) = toUpperCase (Account.currency c) /\
    (ty = "DEBIT" ->
     JsNumber.ltb (ToNumber (Account.balance d)) (Number amt) = false).
Proof.
  unfold validateParsedFields.
  destruct (Parsed.type parsed) as [ty|]; [|discriminate].
  destruct (truthy (Parsed.amount parsed)) eqn:Ea; [|discriminate].
  destruct (Parsed.amount parsed) as [amt|]; [|discriminate].
  cbn [negb orb JsNumber.isNaN field_value ToNumber].
  change (default "" (Some amt)) with amt. fold (Number amt).
  destruct (includes "." amt) eqn:Ei; [discriminate|].
  destruct (JsNumber.leb (Number amt) (Fin 0 0)) eqn:El; [discriminate|].
  destruct (truthy (Parsed.currency parsed)) eqn:Ec; [|discriminate].
  destruct (Parsed.currency parsed) as [cur|]; [|discriminate].
  change (default "" (Some cur)) with cur. cbn [negb orb].
  destruct (js_in (toLowerCase cur) SUPPORTED_CURRENCIES) eqn:Ej;
    [|discriminate].
  cbn [negb]. destruct (negb (isValidAccountId _) && _); [discriminate|].
  destruct (Map_get accounts m (Parsed.debit_account parsed)) as [[debit d]|];
    [|discriminate].
  destruct (Map_get accounts m (Parsed.credit_account parsed)) as [[credit c]|];
    [|discriminate].
  destruct (bool_decide _); [discriminate|].
  destruct (String.eqb_spec (toUpperCase (Account.currency d))
              (toUpperCase (Account.currency c))) as [Eu|]; [|discriminate].
  cbn [negb].
  destruct (negb _ && negb _); [discriminate|].
  destruct (bool_decide_reflect (Some ty = own_property SUPPORTED_TYPE "debit"))
    as [Et|Et]; cbn [andb].
  - destruct (JsNumber.ltb _ _) eqn:Elt; [discriminate|]. intros _.
    exists ty, amt, cur, debit, d, credit, c. by repeat split.
  - intros _. exists ty, amt, cur, debit, d, credit, c. repeat split; try done.
    intros ->. by destruct Et.
Qed.

(** What each code of the validation chain stands for. *)
Lemma validateParsedFields_reason parsed accounts e :
  validateParsedFields parsed accounts (accountsMap_of accounts) = Some e ->
  let code := ValidationError.code e in
  (code = "AM01" ->
   Parsed.amount parsed = None
   \/ exists amt, Parsed.amount parsed = Some amt
                  /\ (includes "." amt = true
                      \/ JsNumber.leb (Number amt) (Fin 0 0) = true)) /\
  (code = "CU02" ->
   Parsed.currency parsed = None
   \/ exists cur, Parsed.currency parsed = Some cur
                  /\ js_in (toLowerCase cur) SUPPORTED_CURRENCIES = false) /\
  (code = "AC04" ->
   isValidAccountId (Parsed.debit_account parsed) = false
   /\ isValidAccountId (Parsed.credit_account parsed) = false) /\
  (code = "AC03" ->
   (forall i a, accounts !! i = Some a ->
                Parsed.debit_account parsed <> Some (Account.id a))
   \/ (forall i a, accounts !! i = Some a ->
                   Parsed.credit_account parsed <> Some (Account.id a))) /\
  (code = "AC02" ->
   Parsed.debit_account parsed = Parsed.credit_account parsed) /\
  (code = "CU01" ->
   exists debit d credit c,
     Map_get accounts (accountsMap_of accounts) (Parsed.debit_account parsed)
       = Some (debit, d)
     /\ Map_get accounts (accountsMap_of accounts) (Parsed.credit_account parsed)
        = Some (credit, c)
     /\ toUpperCase (Account.currency d) <> toUpperCase (Account.currency c)) /\
  (code = "AC01" ->
   Parsed.type parsed = Some "DEBIT"
   /\ exists amt debit d,
        Parsed.amount parsed = Some amt
        /\ Map_get accounts (accountsMap_of accounts)
             (Parsed.debit_account parsed) = Some (debit, d)
        /\ JsNumber.ltb (ToNumber (Account.balance d)) (Number amt) = true) /\
  (code = "DT01" ->
   exists e, Parsed.execute_by parsed = Some e
             /\ isValidDateYYYYMMDD e = false).
Proof.
  unfold validateParsedFields, error. intros H. cbv zeta.
  destruct (Parsed.type parsed) as [ty|].
  2:{ injection H as <-. cbn. by repeat split. }
  destruct (truthy (Parsed.amount parsed)) eqn:Ea; cbn [negb orb] in H.
  2:{ injection H as <-. cbn. repeat split; try done. intros _.
      destruct (Parsed.amount parsed) as [[|]|]; [|done|by left].
      right. exists EmptyString. split; [done|]. by right. }
  destruct (Parsed.amount parsed) as [amt|]; [|done].
  cbn [negb orb JsNumber.isNaN field_value ToNumber] in H.
  change (default "" (Some amt)) with amt in H. fold (Number amt) in H.
  destruct (includes "." amt) eqn:Ei.
  { injection H as <-. cbn. repeat split; try done. intros _. right.
    exists amt. auto. }
  destruct (JsNumber.leb (Number amt) (Fin 0 0)) eqn:El.
  { injection H as <-. cbn. repeat split; try done. intros _. right.
    exists amt. auto. }
  destruct (truthy (Parsed.currency parsed)) eqn:Ec; cbn [negb orb] in H.
  2:{ injection H as <-. cbn. repeat split; try done. intros _.
      destruct (Parsed.currency parsed) as [[|]|]; [|done|by left].
      right. by exists EmptyString. }
  destruct (Parsed.currency parsed) as [cur|]; [|done].
  change (default "" (Some cur)) with cur in H.
  destruct (js_in (toLowerCase cur) SUPPORTED_CURRENCIES) eqn:Ej;
    cbn [negb] in H.
  2:{ injection H as <-. cbn. repeat split; try done. intros _. right.
      by exists cur. }
  destruct (isValidAccountId (Parsed.debit_account parsed)) eqn:Vd;
    destruct (isValidAccountId (Parsed.credit_account parsed)) eqn:Vc;
    cbn [negb andb] in H.
  4:{ injection H as <-. cbn. by repeat split. }
  all: destruct (Map_get accounts (accountsMap_of accounts)
                   (Parsed.debit_account parsed)) as [[debit d]|] eqn:Hd.
  all: try (injection H as <-; cbn; repeat split; try done; intros _; left;
            by apply Map_get_None).
  all: destruct (Map_get accounts (accountsMap_of accounts)
                   (Parsed.credit_account parsed)) as [[credit c]|] eqn:Hc.
  all: try (injection H as <-; cbn; repeat split; try done; intros _; right;
            by apply Map_get_None).
  all: destruct (bool_decide_reflect
                   (Parsed.debit_account parsed = Parsed.credit_account parsed)).
  all: try (injection H as <-; cbn; by repeat split).
  all: destruct (String.eqb_spec (toUpperCase (Account.currency d))
                   (toUpperCase (Account.currency c))); cbn [negb] in H.
  all: try (injection H as <-; cbn; repeat split; try done; intros _;
            by exists debit, d, credit, c).
  all: destruct (negb _ && negb _).
  all: try (injection H as <-; cbn; by repeat split).
  all: destruct (bool_decide_reflect (Some ty = own_property SUPPORTED_TYPE "debit"))
         as [Et|Et]; cbn [andb] in H.
  all: try destruct (JsNumber.ltb (ToNumber (Account.balance d)) (Number amt))
         eqn:Elt.
  all: try (injection H as <-; cbn; repeat split; try done;
            by exists amt, debit, d).
  all: destruct (truthy (Parsed.execute_by parsed)) eqn:Te; cbn [andb] in H;
         try discriminate.
  all: destruct (Parsed.execute_by parsed) as [ex|]; try discriminate.
  all: change (default "" (Some ex)) with ex in H.
  all: destruct (isValidDateYYYYMMDD ex) eqn:Ev; cbn [negb] in H;
         try discriminate.
  all: injection H as <-; cbn; repeat split; try done; intros _; by exists ex.
Qed.

(** The two ways an evaluation fails: at the guard on the type, or with the
    error of the validation chain. *)
Lemma parseInstruction_rejected now accounts instruction r accounts' :
  parseInstruction now accounts instruction = Returns r accounts' ->
  Response.status r = failed ->
  exists parsed,
    parseInstructionData (trim instruction) = Some parsed /\
    (truthy (Parsed.type parsed) = false
     /\ Response.status_code r = "SY03"
     \/ truthy (Parsed.type parsed) = true
        /\ exists e,
             validateParsedFields parsed accounts (accountsMap_of accounts)
             = Some e
             /\ Response.status_code r = ValidationError.code e).
Proof.
  unfold parseInstruction. intros H Hs.
  destruct (parseInstructionData (trim instruction)) as [parsed|]; [|discriminate].
  exists parsed. split; [done|].
  destruct (truthy (Parsed.type parsed)); cbn [negb] in H.
  2:{ injection H as <- <-. by left. }
  right. split; [done|].
  destruct (validateParsedFields parsed accounts (accountsMap_of accounts))
    as [e|] eqn:Hv.
  { injection H as <- <-. by exists e. }
  destruct (validateParsedFields_None _ _ _ Hv)
    as (ty & amt & debit & d & credit & c & _ & _ & _ & _ & Hd & Hc & _).
  rewrite Hd, Hc in H. fold (execution now (Parsed.execute_by parsed)) in H.
  destruct (execution_cases now (Parsed.execute_by parsed)) as [E|E];
    rewrite E in H; injection H as <- <-; discriminate.
Qed.

Lemma js_in_SUPPORTED_CURRENCIES c :
  js_in (toLowerCase c) SUPPORTED_CURRENCIES = true
  <-> In (toLowerCase c) accepted_currency_names.
Proof.
  unfold accepted_currency_names. cbn [In].
  destruct (own_property SUPPORTED_CURRENCIES (toLowerCase c)) as [v|] eqn:Ho.
  - unfold js_in. rewrite Ho. split; [intros _|done]. revert Ho.
    unfold own_property, SUPPORTED_CURRENCIES. cbn [List.find fst snd].
    repeat (match goal with
            | |- context [String.eqb ?a ?b] =>
                destruct (String.eqb_spec a b) as [<-|]; [tauto|]
            end).
    done.
  - rewrite (js_in_Object_prototype _ _ Ho). split.
    + intros [->| ->]%lower_in_Object_prototype; tauto.
    + intros Hin. revert Ho.
      unfold own_property, SUPPORTED_CURRENCIES. cbn [List.find fst snd].
      repeat (destruct Hin as [<-|Hin]; [try discriminate; cbn; tauto|]).
      done.
Qed.

(** ** The accounts after an evaluation *)

Lemma currencies_insert_balance (l : list Account.t) i a v :
  l !! i = Some a ->
  Account.currency <$> <[i := Account.with_balance a v]> l
  = Account.currency <$> l.
Proof.
  intros H. rewrite list_fmap_insert. apply list_insert_id.
  by rewrite list_lookup_fmap, H.
Qed.

(** X8: an evaluation changes no id, no currency and not the number of the
    accounts; an account whose id is neither the debit nor the credit id of
    the response is left as it was; and unless the status is successful the
    accounts are left as they were. *)
Theorem evaluation_keeps_accounts now accounts instruction r accounts' :
  parseInstruction now accounts instruction = Returns r accounts' ->
  Account.id <$> accounts' = Account.id <$> accounts /\
  Account.currency <$> accounts' = Account.currency <$> accounts /\
  length accounts' = length accounts /\
  (forall i a, accounts !! i = Some a ->
               Response.debit_account r <> Some (Account.id a) ->
               Response.credit_account r <> Some (Account.id a) ->
               accounts' !! i = Some a) /\
  (Response.status r <> successful -> accounts' = accounts).
Proof.
  intros H.
  assert (Response.status r = failed \/ Response.status r <> failed) as [Hs|Hs]
    by (destruct (Response.status r); auto).
  { destruct (parseInstruction_failed _ _ _ _ _ H Hs) as [-> _]. by repeat split. }
  destruct (parseInstruction_settled _ _ _ _ _ H Hs) as (parsed & Hp & Ht & Hv).
  destruct (validateParsedFields_None _ _ _ Hv)
    as (ty & amt & debit & d & credit & c & _ & _ & _ & _ & Hd & Hc & Hne & _).
  rewrite (parseInstruction_validated _ _ _ _ _ _ _ _ Hp Ht Hv Hd Hc) in H.
  cbv zeta in H. injection H as <- <-.
  apply Map_get_Some in Hd as [Hd Hdk], Hc as [Hc Hck].
  assert (debit <> credit) as Hdc by (intros ->; congruence).
  cbn [settled_response Response.status Response.debit_account
         Response.credit_account].
  destruct (execution_cases now (Parsed.execute_by parsed)) as [E|E]; rewrite E.
  2:{ by repeat split. }
  cbn [fst]. rewrite (transfer_inserts _ _ _ _ _ d c) by done.
  split; [|split; [|split; [|split; [|done]]]].
  - rewrite ids_insert_balance by (by rewrite list_lookup_insert_ne).
    by rewrite ids_insert_balance.
  - rewrite currencies_insert_balance by (by rewrite list_lookup_insert_ne).
    by rewrite currencies_insert_balance.
  - by rewrite !length_insert.
  - intros i a Ha Nd Nc.
    rewrite !list_lookup_insert_ne; [done|intros ->..]; congruence.
Qed.

Lemma evaluation_keeps_accounts_witness :
  Account.id <$> two_accounts_settled = Account.id <$> two_accounts /\
  Account.currency <$> two_accounts_settled = Account.currency <$> two_accounts /\
  length two_accounts_settled = length two_accounts /\
  (forall i a, two_accounts !! i = Some a ->
               Response.debit_account debit_500_response <> Some (Account.id a) ->
               Response.credit_account debit_500_response <> Some (Account.id a) ->
               two_accounts_settled !! i = Some a) /\
  (Response.status debit_500_response <> successful ->
   two_accounts_settled = two_accounts).
Proof.
  apply (evaluation_keeps_accounts clock_2026_11_03 two_accounts
           "debit 500 USD x x ACC1 x x x x ACC2").
  reflexivity.
Defined.

(** ** What a response that is not a failure guarantees *)

(** X9: when the status is successful or pending, the amount of the
    response is the number the second token denotes, a token without a
    decimal point and not at most zero; the debit and the credit id are the
    ids of two supplied accounts, differ, and the two accounts have the same
    currency up to letter case. *)
Theorem settled_instruction_was_checked now accounts instruction r accounts' :
  parseInstruction now accounts instruction = Returns r accounts' ->
  Response.status r <> failed ->
  exists amt debit d credit c,
    tokenize (trim instruction) !! 1%nat = Some amt /\
    Response.amount r = Some (Number amt) /\
    includes "." amt = false /\
    JsNumber.leb (Number amt) (Fin 0 0) = false /\
    accounts !! debit = Some d /\ accounts !! credit = Some c /\
    Response.debit_account r = Some (Account.id d) /\
    Response.credit_account r = Some (Account.id c) /\
    Account.id d <> Account.id c /\
    toUpperCase (Account.currency d) = toUpperCase (Account.currency c).
Proof.
  intros H Hs.
  destruct (parseInstruction_settled _ _ _ _ _ H Hs) as (parsed & Hp & Ht & Hv).
  destruct (validateParsedFields_None _ _ _ Hv)
    as (? & ? & ? & ? & ? & ? & _ & _ & _ & Hta & _ & _ & Hne & _).
  destruct (validateParsedFields_passed _ _ _ Hv)
    as (ty & amt & cur & debit & d & credit & c & Hty & Hamt & Hdot & Hpos
        & _ & _ & Hd & Hc & Hcur & _).
  rewrite (parseInstruction_validated _ _ _ _ _ _ _ _ Hp Ht Hv Hd Hc) in H.
  cbv zeta in H. injection H as <- _.
  destruct (parseInstructionData_fields _ _ Hp Ht) as (_ & Hf1 & _).
  apply Map_get_Some in Hd as [Hd Hdk], Hc as [Hc Hck].
  exists amt, debit, d, credit, c.
  cbn [settled_response Response.amount Response.debit_account
         Response.credit_account].
  rewrite Hta, Hamt. cbn [field_value ToNumber]. fold (Number amt).
  repeat split; try done; congruence.
Qed.

Lemma settled_instruction_was_checked_witness :
  exists amt debit d credit c,
    tokenize (trim "debit 500 USD x x ACC1 x x x x ACC2") !! 1%nat = Some amt /\
    Response.amount debit_500_response = Some (Number amt) /\
    includes "." amt = false /\
    JsNumber.leb (Number amt) (Fin 0 0) = false /\
    two_accounts !! debit = Some d /\ two_accounts !! credit = Some c /\
    Response.debit_account debit_500_response = Some (Account.id d) /\
    Response.credit_account debit_500_response = Some (Account.id c) /\
    Account.id d <> Account.id c /\
    toUpperCase (Account.currency d) = toUpperCase (Account.currency c).
Proof.
  apply (settled_instruction_was_checked clock_2026_11_03 two_accounts
           "debit 500 USD x x ACC1 x x x x ACC2" debit_500_response
           two_accounts_settled); [reflexivity | discriminate].
Defined.

(** X10: the currency of a successful or pending response is one of USD,
    NGN, GBP and GHS, or one of CONSTRUCTOR and __PROTO__, the two names the
    currency check lets through with the supported ones. *)
Theorem settled_currency now accounts instruction r accounts' :
  parseInstruction now accounts instruction = Returns r accounts' ->
  Response.status r <> failed ->
  In (Response.currency r)
    [Some "USD"; Some "NGN"; Some "GBP"; Some "GHS"; Some "CONSTRUCTOR";
     Some "__PROTO__"].
Proof.
  intros H Hs.
  destruct (parseInstruction_settled _ _ _ _ _ H Hs) as (parsed & Hp & Ht & Hv).
  destruct (validateParsedFields_passed _ _ _ Hv)
    as (ty & amt & cur & debit & d & credit & c & _ & _ & _ & _
        & Hcur & Hin & Hd & Hc & _).
  rewrite (parseInstruction_validated _ _ _ _ _ _ _ _ Hp Ht Hv Hd Hc) in H.
  cbv zeta in H. injection H as <- _.
  destruct (parseInstructionData_fields _ _ Hp Ht) as (_ & _ & Hf2 & _).
  cbn [settled_response Response.currency]. rewrite Hcur.
  assert (cur = toUpperCase (toLowerCase cur)) as Hup.
  { rewrite Hcur in Hf2.
    destruct (tokenize (trim instruction) !! 2%nat) as [w|]; [|discriminate].
    injection Hf2 as ->.
    by rewrite toUpperCase_toLowerCase, toUpperCase_idempotent. }
  apply js_in_SUPPORTED_CURRENCIES in Hin. rewrite Hup.
  unfold accepted_currency_names in Hin. cbn [In] in Hin |- *.
  repeat (destruct Hin as [<-|Hin]; [cbn; tauto|]). done.
Qed.

Lemma settled_currency_witness :
  In (Response.currency debit_500_response)
    [Some "USD"; Some "NGN"; Some "GBP"; Some "GHS"; Some "CONSTRUCTOR";
     Some "__PROTO__"].
Proof.
  apply (settled_currency clock_2026_11_03 two_accounts
           "debit 500 USD x x ACC1 x x x x ACC2" debit_500_response
           two_accounts_settled); [reflexivity | discriminate].
Defined.

(** The currency of the instruction is not compared with the currency of the
    accounts, and an inherited name passes for a currency. *)
Example currency_token_is_free :
  forall now,
    (exists r accounts',
       parseInstruction now two_accounts "debit 500 GBP x x ACC1 x x x x ACC2"
       = Returns r accounts' /\
       Response.status r = successful /\ Response.currency r = Some "GBP") /\
    (exists r accounts',
       parseInstruction now two_accounts
         "debit 500 constructor x x ACC1 x x x x ACC2"
       = Returns r accounts' /\
       Response.status r = successful
       /\ Response.currency r = Some "CONSTRUCTOR").
Proof.
  intros now.
  split; eexists _, _; (split; [vm_compute; reflexivity|]); by repeat split.
Qed.

(** X11: an instruction of at most ten tokens has no token for one of the
    two accounts and is never executed or deferred: its status is failed. *)
Theorem short_instruction_fails now accounts instruction r accounts' :
  parseInstruction now accounts instruction = Returns r accounts' ->
  (length (tokenize (trim instruction)) <= 10)%nat ->
  Response.status r = failed.
Proof.
  intros H Hlen.
  destruct (Response.status r) eqn:Hs; [exfalso..|done].
  all: assert (Response.status r <> failed) as Hnf by (by rewrite Hs).
  all: destruct (parseInstruction_settled _ _ _ _ _ H Hnf)
         as (parsed & Hp & Ht & Hv).
  all: destruct (validateParsedFields_None _ _ _ Hv)
         as (? & ? & debit & d & credit & c & _ & _ & _ & _ & Hd & Hc & _).
  all: apply Map_get_Some in Hd as [_ Hdk], Hc as [_ Hck].
  all: destruct (parseInstructionData_fields _ _ Hp Ht)
         as (_ & _ & _ & _ & [(_ & _ & E)|(_ & _ & E)]).
  all: rewrite E in *.
  all: match goal with
       | K : _ !! 10%nat = Some _ |- _ =>
           apply lookup_lt_Some in K; lia
       end.
Qed.

Lemma short_instruction_fails_witness :
  Response.status (Response.fail Response.initial ACCOUNT_NOT_FOUND "AC03")
  = failed.
Proof.
  apply (short_instruction_fails clock_2026_11_03 two_accounts
           "debit 500 usd x x ACC1"
           (Response.fail Response.initial ACCOUNT_NOT_FOUND "AC03")
           two_accounts); [reflexivity | vm_compute; lia].
Defined.

Lemma response_status_codes_witness :
  let r := Response.fail Response.initial ACCOUNT_NOT_FOUND "AC03" in
  (Response.status r = successful /\ Response.status_code r = "AP00"
   /\ Response.status_reason r = TRANSACTION_SUCCESSFUL)
  \/ (Response.status r = pending /\ Response.status_code r = "AP02"
      /\ Response.status_reason r = TRANSACTION_PENDING)
  \/ (Response.status r = failed
      /\ In (Response.status_code r, Response.status_reason r) failure_codes
      /\ Response.status_code r <> "PR01"
      /\ Response.status_reason r <> MISSING_KEYWORD).
Proof.
  apply (response_status_codes clock_2026_11_03 two_accounts
           "debit 500 usd x x ACC1"
           (Response.fail Response.initial ACCOUNT_NOT_FOUND "AC03")
           two_accounts).
  reflexivity.
Defined.

(** ** Insufficient funds *)

Lemma keyword_DEBIT instruction parsed :
  parseInstructionData instruction = Some parsed ->
  Parsed.type parsed = Some "DEBIT" ->
  tokenize instruction !! 0%nat = Some "DEBIT" /\
  Parsed.amount parsed = tokenize instruction !! 1%nat /\
  Parsed.debit_account parsed = tokenize instruction !! 5%nat.
Proof.
  intros Hp Hty.
  assert (truthy (Parsed.type parsed) = true) as Ht by by rewrite Hty.
  destruct (parseInstructionData_fields _ _ Hp Ht)
    as (H0 & H1 & _ & _ & [(_ & H5 & _)|(Hk & _)]).
  - by rewrite <- H0, <- H1, <- H5.
  - rewrite <- H0, Hty in Hk. discriminate.
Qed.

(** X12: the code AC01 is answered only to an instruction whose first token
    is exactly "DEBIT", and then the account the token at position 5 refers
    to has a balance below the amount; in any other spelling of the keyword,
    and for a credit, the balance is not checked. *)
Theorem insufficient_funds_only_for_DEBIT now accounts instruction r accounts' :
  parseInstruction now accounts instruction = Returns r accounts' ->
  Response.status_code r = "AC01" ->
  let words := tokenize (trim instruction) in
  words !! 0%nat = Some "DEBIT" /\
  exists amt debit d,
    words !! 1%nat = Some amt /\
    accounts !! debit = Some d /\
    words !! 5%nat = Some (Account.id d) /\
    JsNumber.ltb (ToNumber (Account.balance d)) (Number amt) = true.
Proof.
  intros H Hcode words.
  assert (Response.status r = failed) as Hs.
  { destruct (response_codes_of_status _ _ _ _ _ H) as [(_ & E)|[(_ & E)|(E & _)]];
      [rewrite E in Hcode; discriminate.. | done]. }
  destruct (parseInstruction_rejected _ _ _ _ _ H Hs)
    as (parsed & Hp & [(_ & E)|(Ht & e & Hv & E)]);
    rewrite E in Hcode; [discriminate|].
  destruct (validateParsedFields_reason _ _ _ Hv)
    as (_ & _ & _ & _ & _ & _ & Hfunds & _).
  destruct (Hfunds Hcode) as (Hty & amt & debit & d & Hamt & Hd & Hlt).
  destruct (keyword_DEBIT _ _ Hp Hty) as (H0 & H1 & H5).
  apply Map_get_Some in Hd as [Hd Hdk]. subst words.
  split; [done|]. exists amt, debit, d. repeat split; try done; congruence.
Qed.

Lemma insufficient_funds_only_for_DEBIT_witness :
  let words := tokenize (trim "DEBIT 5000 USD x x ACC1 x x x x ACC2") in
  words !! 0%nat = Some "DEBIT" /\
  exists amt debit d,
    words !! 1%nat = Some amt /\
    two_accounts !! debit = Some d /\
    words !! 5%nat = Some (Account.id d) /\
    JsNumber.ltb (ToNumber (Account.balance d)) (Number amt) = true.
Proof.
  apply (insufficient_funds_only_for_DEBIT clock_2026_11_03 two_accounts
           "DEBIT 5000 USD x x ACC1 x x x x ACC2"
           (Response.fail Response.initial INSUFFICIENT_FUNDS "AC01")
           two_accounts); reflexivity.
Defined.

(** X13: an instruction whose first token is exactly "DEBIT" and whose amount
    is written in digits and at most [2^53], once executed, has taken the
    amount from the account the token at position 5 refers to, and that
    account, when its balance was an integer of magnitude at most [2^53],
    held at least the amount: the new balance is the old one minus the
    amount and is not negative.  (Within [2^53] the integers are binary64
    numbers; beyond, an amount is rounded before it is compared.) *)
Theorem DEBIT_does_not_overdraw now accounts instruction r accounts' amt :
  parseInstruction now accounts instruction = Returns r accounts' ->
  Response.status r = successful ->
  tokenize (trim instruction) !! 0%nat = Some "DEBIT" ->
  tokenize (trim instruction) !! 1%nat = Some amt ->
  all_chars is_digit amt = true ->
  JsNumber.digits_value amt <= 2 ^ 53 ->
  exists debit d,
    accounts !! debit = Some d /\
    tokenize (trim instruction) !! 5%nat = Some (Account.id d) /\
    forall b,
      Account.balance d = VNum (Fin b 0) -> Z.abs b <= 2 ^ 53 ->
      0 <= b - JsNumber.digits_value amt /\
      Account.balance <$> accounts' !! debit
      = Some (VNum (Fin (b - JsNumber.digits_value amt) 0)).
Proof.
  intros H Hs H0 H1 Hdigits Hbound.
  assert (Response.status r <> failed) as Hnf by (by rewrite Hs).
  destruct (parseInstruction_settled _ _ _ _ _ H Hnf) as (parsed & Hp & Ht & Hv).
  destruct (validateParsedFields_None _ _ _ Hv)
    as (? & ? & ? & ? & ? & ? & _ & _ & _ & _ & _ & _ & Hne & _).
  destruct (validateParsedFields_passed _ _ _ Hv)
    as (ty & amt' & cur & debit & d & credit & c & Hty & Hamt & _ & _
        & _ & _ & Hd & Hc & _ & Hfunds).
  rewrite (parseInstruction_validated _ _ _ _ _ _ _ _ Hp Ht Hv Hd Hc) in H.
  cbv zeta in H. injection H as <- <-.
  cbn [settled_response Response.status] in Hs. rewrite Hs.
  destruct (parseInstructionData_fields _ _ Hp Ht)
    as (F0 & F1 & _ & _ & [(_ & F5 & _)|(Hk & _)]).
  2:{ rewrite H0 in Hk. discriminate. }
  assert (ty = "DEBIT") as -> by congruence.
  assert (amt' = amt) as -> by congruence.
  assert (amt <> EmptyString) as Hne'.
  { apply (tokenize_nonempty (trim instruction)), list_elem_of_In.
    by eapply list_elem_of_lookup_2. }
  apply Map_get_Some in Hd as [Hd Hdk], Hc as [Hc Hck].
  assert (debit <> credit) as Hdc by (intros ->; congruence).
  exists debit, d. split; [done|]. split; [congruence|].
  intros b Hb Hsafe. specialize (Hfunds eq_refl).
  pose proof (digits_value_nonneg amt Hdigits) as Hpos.
  rewrite Hb, (Number_digits amt Hne' Hdigits Hbound) in Hfunds.
  cbn [ToNumber] in Hfunds. rewrite (round_int b Hsafe), ltb_int in Hfunds.
  apply Z.ltb_ge in Hfunds. split; [lia|].
  rewrite (transfer_inserts _ _ _ _ _ d c) by done.
  rewrite list_lookup_insert_ne by done.
  rewrite list_lookup_insert_eq by by eapply lookup_lt_Some.
  rewrite Hamt, Hb. cbn [field_value fmap option_fmap option_map
                           Account.with_balance Account.balance].
  f_equal. apply js_sub_int; [done..|lia].
Qed.

Lemma DEBIT_does_not_overdraw_witness :
  exists debit d,
    two_accounts !! debit = Some d /\
    tokenize (trim "DEBIT 500 USD x x ACC1 x x x x ACC2") !! 5%nat
    = Some (Account.id d) /\
    forall b,
      Account.balance d = VNum (Fin b 0) -> Z.abs b <= 2 ^ 53 ->
      0 <= b - JsNumber.digits_value "500" /\
      Account.balance <$> two_accounts_settled !! debit
      = Some (VNum (Fin (b - JsNumber.digits_value "500") 0)).
Proof.
  apply (DEBIT_does_not_overdraw clock_2026_11_03 two_accounts
           "DEBIT 500 USD x x ACC1 x x x x ACC2"
           {| Response.type := Some "DEBIT";
              Response.amount := Response.amount debit_500_response;
              Response.currency := Response.currency debit_500_response;
              Response.debit_account := Response.debit_account debit_500_response;
              Response.credit_account := Response.credit_account debit_500_response;
              Response.execute_by := Response.execute_by debit_500_response;
              Response.status := successful;
              Response.status_reason := TRANSACTION_SUCCESSFUL;
              Response.status_code := "AP00";
              Response.accounts := Response.accounts debit_500_response |}
           two_accounts_settled "500");
    first [reflexivity | vm_compute; discriminate].
Defined.

(** Beyond [2^53] the amount is rounded before it is compared and
    subtracted: an amount too small for binary64 is zero and rejected, the
    amount [2^53 + 1] is [2^53] in the response, and a balance of [2^53]
    covers it. *)
Example amount_underflows now :
  parseInstruction now two_accounts "debit 1e-400 USD x x ACC1 x x x x ACC2"
  = Returns (Response.fail Response.initial INVALID_AMOUNT "AM01") two_accounts.
Proof. vm_compute. reflexivity. Qed.

Example amount_is_rounded now :
  exists r accounts',
    parseInstruction now two_accounts
      "debit 9007199254740993 USD x x ACC1 x x x x ACC2"
    = Returns r accounts' /\
    Response.amount r = Some (Fin 9007199254740992 0).
Proof. eexists _, _. split; [vm_compute; reflexivity|]. reflexivity. Qed.

Example DEBIT_of_a_rounded_amount now :
  exists r accounts',
    parseInstruction now
      [acct "ACC1" 9007199254740992 "USD"; acct "ACC2" 0 "USD"]
      "DEBIT 9007199254740993 USD x x ACC1 x x x x ACC2"
    = Returns r accounts' /\
    Response.status r = successful /\
    Account.balance <$> accounts' = [VNum (Fin 0 0); VStr "09007199254740993"].
Proof. eexists _, _. split; [vm_compute; reflexivity|]. by split. Qed.

(** A balance with a fraction: [100.1 - 100] in binary64. *)
Example debit_of_a_fraction now :
  exists r accounts',
    parseInstruction now
      [ {| Account.id := "ACC1"; Account.balance := VNum (Fin 1001 (-1));
           Account.currency := "USD" |}; acct "ACC2" 0 "USD" ]
      "debit 100 USD x x ACC1 x x x x ACC2"
    = Returns r accounts' /\
    ToString <$> (Account.balance <$> accounts')
    = ["0.09999999999999432"; "0100"].
Proof.
  eexists _, _. split; [vm_compute; reflexivity|]. vm_compute. reflexivity.
Qed.

(** ** The status and the date *)

(** X14: at a clock showing a calendar date, a pending response has an
    execute_by that is a valid date after the current UTC date, and a
    successful response has no execute_by or one that is a valid date not
    after the current UTC date. *)
Theorem status_tells_the_date now accounts instruction r accounts' :
  valid_clock now ->
  parseInstruction now accounts instruction = Returns r accounts' ->
  (Response.status r = pending ->
   exists e, Response.execute_by r = Some e
             /\ isValidDateYYYYMMDD e = true
             /\ date_lt (today now) (date_of e)) /\
  (Response.status r = successful ->
   Response.execute_by r = None
   \/ exists e, Response.execute_by r = Some e
                /\ isValidDateYYYYMMDD e = true
                /\ ~ date_lt (today now) (date_of e)).
Proof.
  intros Hnow H.
  assert (Response.status r <> failed ->
          exists parsed,
            Response.execute_by r = Parsed.execute_by parsed
            /\ Response.status r = (execution now (Parsed.execute_by parsed)).1
            /\ (forall e, Parsed.execute_by parsed = Some e ->
                          truthy (Some e) = true
                          /\ isValidDateYYYYMMDD e = true)) as Hsettled.
  { intros Hnf.
    destruct (parseInstruction_settled _ _ _ _ _ H Hnf) as (parsed & Hp & Ht & Hv).
    destruct (validateParsedFields_None _ _ _ Hv)
      as (? & ? & debit & d & credit & c & _ & _ & _ & _ & Hd & Hc & _ & Hdate).
    rewrite (parseInstruction_validated _ _ _ _ _ _ _ _ Hp Ht Hv Hd Hc) in H.
    cbv zeta in H. injection H as <- _. exists parsed.
    split; [done|]. split; [done|]. intros e He.
    destruct (parseInstructionData_fields _ _ Hp Ht) as (_ & _ & _ & F12 & _).
    assert (truthy (Some e) = true) as Te.
    { assert (e <> EmptyString) as Hne; [|by destruct e].
      apply (tokenize_nonempty (trim instruction)), list_elem_of_In.
      eapply list_elem_of_lookup_2. by rewrite <- F12. }
    split; [done|]. rewrite He in Hdate. by apply Hdate. }
  split; intros Hs.
  - destruct Hsettled as (parsed & -> & Hst & Hdate); [by rewrite Hs|].
    rewrite Hs in Hst. unfold execution in Hst.
    destruct (Parsed.execute_by parsed) as [e|]; [|discriminate].
    destruct (Hdate e eq_refl) as [Te He]. rewrite Te in Hst.
    change (default "" (Some e)) with e in Hst.
    exists e. split; [done|]. split; [done|].
    apply (execution_test now e Hnow He).
    by destruct (JsNumber.gtb _ _).
  - destruct Hsettled as (parsed & -> & Hst & Hdate); [by rewrite Hs|].
    rewrite Hs in Hst. unfold execution in Hst.
    destruct (Parsed.execute_by parsed) as [e|]; [right|by left].
    destruct (Hdate e eq_refl) as [Te He]. rewrite Te in Hst.
    change (default "" (Some e)) with e in Hst.
    exists e. split; [done|]. split; [done|].
    intros Hlt%(execution_test now e Hnow He). rewrite Hlt in Hst. discriminate.
Qed.

Lemma status_tells_the_date_witness :
  let r := debit_500_response in
  (Response.status r = pending ->
   exists e, Response.execute_by r = Some e
             /\ isValidDateYYYYMMDD e = true
             /\ date_lt (today clock_2026_11_03) (date_of e)) /\
  (Response.status r = successful ->
   Response.execute_by r = None
   \/ exists e, Response.execute_by r = Some e
                /\ isValidDateYYYYMMDD e = true
                /\ ~ date_lt (today clock_2026_11_03) (date_of e)).
Proof.
  apply (status_tells_the_date clock_2026_11_03 two_accounts
           "debit 500 USD x x ACC1 x x x x ACC2" debit_500_response
           two_accounts_settled).
  - exact clock_2026_11_03_valid.
  - reflexivity.
Defined.

(** ** What a failure code stands for *)

(** A code of the validation chain comes with the error of the chain. *)
Lemma rejected_by_validation now accounts instruction r accounts' :
  parseInstruction now accounts instruction = Returns r accounts' ->
  In (Response.status_code r)
    ["AM01"; "CU02"; "AC04"; "AC03"; "AC02"; "CU01"; "AC01"; "DT01"] ->
  exists parsed e,
    parseInstructionData (trim instruction) = Some parsed /\
    truthy (Parsed.type parsed) = true /\
    validateParsedFields parsed accounts (accountsMap_of accounts) = Some e /\
    ValidationError.code e = Response.status_code r.
Proof.
  intros H Hin.
  assert (Response.status r = failed) as Hs.
  { destruct (response_codes_of_status _ _ _ _ _ H) as [(_ & E)|[(_ & E)|(E & _)]];
      [rewrite E in Hin; cbn in Hin; exfalso.. | done];
      repeat (destruct Hin as [Hin|Hin]; [discriminate|]); done. }
  destruct (parseInstruction_rejected _ _ _ _ _ H Hs)
    as (parsed & Hp & [(_ & E)|(Ht & e & Hv & E)]).
  - rewrite E in Hin. cbn in Hin. exfalso.
    repeat (destruct Hin as [Hin|Hin]; [discriminate|]). done.
  - by exists parsed, e.
Qed.

(** X15: what the account codes stand for.  AC04 is answered only when
    neither of the tokens at the positions 5 and 10 is a valid account id;
    AC03 only when one of the two tokens is missing or the id of no supplied
    account; AC02 only when the two tokens are equal; CU01 only when the two
    tokens are ids of supplied accounts whose currencies differ even up to
    letter case. *)
Theorem account_codes now accounts instruction r accounts' :
  parseInstruction now accounts instruction = Returns r accounts' ->
  let words := tokenize (trim instruction) in
  let code := Response.status_code r in
  (code = "AC04" ->
   isValidAccountId (words !! 5%nat) = false
   /\ isValidAccountId (words !! 10%nat) = false) /\
  (code = "AC03" ->
   exists p, (p = 5 \/ p = 10)%nat
             /\ forall i a, accounts !! i = Some a ->
                            words !! p <> Some (Account.id a)) /\
  (code = "AC02" -> words !! 5%nat = words !! 10%nat) /\
  (code = "CU01" ->
   exists i a j b,
     accounts !! i = Some a /\ accounts !! j = Some b /\
     words !! 5%nat = Some (Account.id a) /\
     words !! 10%nat = Some (Account.id b) /\
     toUpperCase (Account.currency a) <> toUpperCase (Account.currency b)).
Proof.
  intros H words code.
  assert (In code ["AC04"; "AC03"; "AC02"; "CU01"] ->
          exists parsed e,
            validateParsedFields parsed accounts (accountsMap_of accounts) = Some e
            /\ ValidationError.code e = code
            /\ (Parsed.debit_account parsed = words !! 5%nat
                /\ Parsed.credit_account parsed = words !! 10%nat
                \/ Parsed.credit_account parsed = words !! 5%nat
                   /\ Parsed.debit_account parsed = words !! 10%nat)) as Hpre.
  { intros Hin.
    destruct (rejected_by_validation _ _ _ _ _ H)
      as (parsed & e & Hp & Ht & Hv & E).
    { subst code. cbn in Hin |- *. tauto. }
    exists parsed, e. split; [done|]. split; [done|].
    destruct (parseInstructionData_fields _ _ Hp Ht)
      as (_ & _ & _ & _ & [(_ & ? & ?)|(_ & ? & ?)]); auto. }
  split; [|split; [|split]]; intros Hcode.
  - destruct Hpre as (parsed & e & Hv & E & Hpos); [rewrite Hcode; cbn; tauto|].
    destruct (validateParsedFields_reason _ _ _ Hv) as (_ & _ & Hr & _).
    rewrite E, Hcode in Hr. specialize (Hr eq_refl).
    destruct Hpos as [[<- <-]|[<- <-]]; tauto.
  - destruct Hpre as (parsed & e & Hv & E & Hpos); [rewrite Hcode; cbn; tauto|].
    destruct (validateParsedFields_reason _ _ _ Hv) as (_ & _ & _ & Hr & _).
    rewrite E, Hcode in Hr. specialize (Hr eq_refl).
    destruct Hpos as [[E5 E10]|[E5 E10]], Hr as [Hr|Hr];
      first [ by exists 5%nat; split; [left|rewrite <- E5]
            | by exists 10%nat; split; [right|rewrite <- E10] ].
  - destruct Hpre as (parsed & e & Hv & E & Hpos); [rewrite Hcode; cbn; tauto|].
    destruct (validateParsedFields_reason _ _ _ Hv) as (_ & _ & _ & _ & Hr & _).
    rewrite E, Hcode in Hr. specialize (Hr eq_refl).
    destruct Hpos as [[<- <-]|[<- <-]]; done.
  - destruct Hpre as (parsed & e & Hv & E & Hpos); [rewrite Hcode; cbn; tauto|].
    destruct (validateParsedFields_reason _ _ _ Hv)
      as (_ & _ & _ & _ & _ & Hr & _).
    rewrite E, Hcode in Hr.
    destruct (Hr eq_refl) as (debit & d & credit & c & Hd & Hc & Hne).
    apply Map_get_Some in Hd as [Hd Hdk], Hc as [Hc Hck].
    destruct Hpos as [[E5 E10]|[E5 E10]].
    + exists debit, d, credit, c. repeat split; try done; congruence.
    + exists credit, c, debit, d. repeat split; try done; congruence.
Qed.

Lemma account_codes_witness :
  let r := Response.fail Response.initial ACCOUNT_NOT_FOUND "AC03" in
  let words := tokenize (trim "debit 500 usd x x ACC1") in
  let code := Response.status_code r in
  (code = "AC04" ->
   isValidAccountId (words !! 5%nat) = false
   /\ isValidAccountId (words !! 10%nat) = false) /\
  (code = "AC03" ->
   exists p, (p = 5 \/ p = 10)%nat
             /\ forall i a, two_accounts !! i = Some a ->
                            words !! p <> Some (Account.id a)) /\
  (code = "AC02" -> words !! 5%nat = words !! 10%nat) /\
  (code = "CU01" ->
   exists i a j b,
     two_accounts !! i = Some a /\ two_accounts !! j = Some b /\
     words !! 5%nat = Some (Account.id a) /\
     words !! 10%nat = Some (Account.id b) /\
     toUpperCase (Account.currency a) <> toUpperCase (Account.currency b)).
Proof.
  apply (account_codes clock_2026_11_03 two_accounts "debit 500 usd x x ACC1"
           (Response.fail Response.initial ACCOUNT_NOT_FOUND "AC03")
           two_accounts).
  reflexivity.
Defined.

(** X16: what the codes on the text of the instruction stand for.  SY03 is
    answered only when the first token is neither "debit" nor "credit" in
    any letter case; AM01 only when the second token is missing, contains a
    decimal point or denotes a number at most zero; CU02 only when the third
    token is missing or, lower-cased, none of the names the currency check
    lets through; DT01 only when the token at position 12 is no valid
    date. *)
Theorem input_codes now accounts instruction r accounts' :
  parseInstruction now accounts instruction = Returns r accounts' ->
  let words := tokenize (trim instruction) in
  let code := Response.status_code r in
  (code = "SY03" ->
   first_keyword instruction <> Some "debit"
   /\ first_keyword instruction <> Some "credit") /\
  (code = "AM01" ->
   words !! 1%nat = None
   \/ exists amt, words !! 1%nat = Some amt
                  /\ (includes "." amt = true
                      \/ JsNumber.leb (Number amt) (Fin 0 0) = true)) /\
  (code = "CU02" ->
   words !! 2%nat = None
   \/ exists cur, words !! 2%nat = Some cur
                  /\ ~ In (toLowerCase cur) accepted_currency_names) /\
  (code = "DT01" ->
   exists e, words !! 12%nat = Some e /\ isValidDateYYYYMMDD e = false).
Proof.
  intros H words code.
  assert (In code ["AM01"; "CU02"; "DT01"] ->
          exists parsed e,
            validateParsedFields parsed accounts (accountsMap_of accounts) = Some e
            /\ ValidationError.code e = code
            /\ Parsed.amount parsed = words !! 1%nat
            /\ Parsed.currency parsed = toUpperCase <$> words !! 2%nat
            /\ Parsed.execute_by parsed = words !! 12%nat) as Hpre.
  { intros Hin.
    destruct (rejected_by_validation _ _ _ _ _ H)
      as (parsed & e & Hp & Ht & Hv & E).
    { subst code. cbn in Hin |- *. tauto. }
    exists parsed, e. split; [done|]. split; [done|].
    by destruct (parseInstructionData_fields _ _ Hp Ht) as (_ & ? & ? & ? & _). }
  split; [|split; [|split]]; intros Hcode.
  - assert (Response.status r = failed) as Hs.
    { destruct (response_codes_of_status _ _ _ _ _ H)
        as [(_ & E)|[(_ & E)|(E & _)]];
        [subst code; rewrite E in Hcode; discriminate..|done]. }
    destruct (parseInstruction_rejected _ _ _ _ _ H Hs)
      as (parsed & Hp & [(Ht & _)|(Ht & e & Hv & E)]).
    + unfold first_keyword.
      pose proof (parseInstructionData_cases (trim instruction)) as Hc.
      cbv zeta in Hc.
      destruct (tokenize (trim instruction) !! 0%nat) as [w|] eqn:Hw; [|done].
      cbn in Hc |- *.
      assert (truthy (Some w) = true) as Tw.
      { assert (w <> EmptyString) as Hne; [|by destruct w].
        apply (tokenize_nonempty (trim instruction)), list_elem_of_In.
        by eapply list_elem_of_lookup_2. }
      split; intros [= E]; rewrite E in Hc; cbn in Hc; rewrite Hp in Hc;
        injection Hc as ->; cbn [Parsed.type] in Ht; rewrite Tw in Ht;
        discriminate.
    + exfalso.
      destruct (parseInstructionData_fields _ _ Hp Ht) as (Hty & _ & _ & _ & Hkw).
      destruct (Parsed.type parsed) as [ty|] eqn:Ety; [|done].
      assert (In (ValidationError.code e, ValidationError.message e)
                failure_codes) as Hin.
      { apply (validateParsedFields_codes _ _ _ _ ty Hv Ety).
        rewrite <- Hty in Hkw. cbn in Hkw.
        destruct Hkw as [([= ->] & _)|([= ->] & _)]; auto. }
      subst code. rewrite E in Hcode.
      clear -Hin Hv Hcode Ety. unfold validateParsedFields, error in Hv.
      rewrite Ety in Hv.
      repeat case_match; try discriminate; injection Hv as <-;
        cbn in Hcode, Hin; try discriminate;
        repeat (destruct Hin as [[=]|Hin]); done.
  - destruct Hpre as (parsed & e & Hv & E & F1 & _); [rewrite Hcode; cbn; tauto|].
    destruct (validateParsedFields_reason _ _ _ Hv) as (Hr & _).
    rewrite E, Hcode, F1 in Hr. by apply Hr.
  - destruct Hpre as (parsed & e & Hv & E & _ & F2 & _);
      [rewrite Hcode; cbn; tauto|].
    destruct (validateParsedFields_reason _ _ _ Hv) as (_ & Hr & _).
    rewrite E, Hcode, F2 in Hr.
    destruct (words !! 2%nat) as [w|]; [right|by left].
    destruct (Hr eq_refl) as [?|(cur & [= <-] & Hin)]; [done|].
    exists w. split; [done|]. intros Hacc.
    apply js_in_SUPPORTED_CURRENCIES in Hacc.
    rewrite toLowerCase_toUpperCase in Hin. congruence.
  - destruct Hpre as (parsed & e & Hv & E & _ & _ & F12);
      [rewrite Hcode; cbn; tauto|].
    destruct (validateParsedFields_reason _ _ _ Hv)
      as (_ & _ & _ & _ & _ & _ & _ & Hr).
    rewrite E, Hcode, F12 in Hr. by apply Hr.
Qed.

Lemma input_codes_witness :
  let r := Response.fail Response.initial INVALID_AMOUNT "AM01" in
  let words := tokenize (trim "debit 10.5 USD x x ACC1 x x x x ACC2") in
  let code := Response.status_code r in
  (code = "SY03" ->
   first_keyword "debit 10.5 USD x x ACC1 x x x x ACC2" <> Some "debit"
   /\ first_keyword "debit 10.5 USD x x ACC1 x x x x ACC2" <> Some "credit") /\
  (code = "AM01" ->
   words !! 1%nat = None
   \/ exists amt, words !! 1%nat = Some amt
                  /\ (includes "." amt = true
                      \/ JsNumber.leb (Number amt) (Fin 0 0) = true)) /\
  (code = "CU02" ->
   words !! 2%nat = None
   \/ exists cur, words !! 2%nat = Some cur
                  /\ ~ In (toLowerCase cur) accepted_currency_names) /\
  (code = "DT01" ->
   exists e, words !! 12%nat = Some e /\ isValidDateYYYYMMDD e = false).
Proof.
  apply (input_codes clock_2026_11_03 two_accounts
           "debit 10.5 USD x x ACC1 x x x x ACC2"
           (Response.fail Response.initial INVALID_AMOUNT "AM01") two_accounts).
  reflexivity.
Defined.

(** ** Rejections *)

Lemma first_token_truthy instruction w :
  tokenize instruction !! 0%nat = Some w -> truthy (Some w) = true.
Proof.
  intros Hw. assert (w <> EmptyString) as Hne; [|by destruct w].
  apply (tokenize_nonempty instruction), list_elem_of_In.
  by eapply list_elem_of_lookup_2.
Qed.

(** X17: an instruction whose first token is "debit" or "credit" in any
    letter case and whose second token is missing, contains a decimal point
    or denotes a number at most zero is answered with status failed, code
    AM01 and the invalid-amount message, whatever the other tokens and the
    accounts are, and the accounts are left as they were. *)
Theorem bad_amount_is_rejected now accounts instruction :
  first_keyword instruction = Some "debit"
  \/ first_keyword instruction = Some "credit" ->
  (let words := tokenize (trim instruction) in
   words !! 1%nat = None
   \/ exists amt, words !! 1%nat = Some amt
                  /\ (includes "." amt = true
                      \/ JsNumber.leb (Number amt) (Fin 0 0) = true)) ->
  parseInstruction now accounts instruction
  = Returns (Response.fail Response.initial INVALID_AMOUNT "AM01") accounts.
Proof.
  unfold first_keyword. intros Hkw Hamt. cbv zeta in Hamt.
  pose proof (parseInstructionData_cases (trim instruction)) as Hc.
  cbv zeta in Hc.
  destruct (tokenize (trim instruction) !! 0%nat) as [w|] eqn:Hw;
    [|by destruct Hkw].
  pose proof (first_token_truthy _ _ Hw) as Tw.
  assert (exists parsed,
            parseInstructionData (trim instruction) = Some parsed
            /\ Parsed.type parsed = Some w
            /\ Parsed.amount parsed = tokenize (trim instruction) !! 1%nat)
    as (parsed & Hp & Hty & Ha).
  { cbn in Hkw, Hc.
    destruct Hkw as [[= E]|[= E]]; rewrite E in Hc; cbn in Hc; eauto. }
  unfold parseInstruction. rewrite Hp, Hty, Tw. cbn [negb].
  rewrite (amount_checks parsed accounts _ w Hty); [done|].
  rewrite Ha. destruct Hamt as [->|Hamt]; [by left | by right].
Qed.

Lemma bad_amount_is_rejected_witness :
  parseInstruction clock_2026_11_03 two_accounts
    "Debit -5 USD x x ACC1 x x x x ACC2"
  = Returns (Response.fail Response.initial INVALID_AMOUNT "AM01") two_accounts.
Proof.
  apply (bad_amount_is_rejected clock_2026_11_03 two_accounts
           "Debit -5 USD x x ACC1 x x x x ACC2").
  - by left.
  - right. exists "-5". split; [reflexivity|]. by right.
Defined.

Lemma trimStart_spaces s : all_chars is_space s = true -> trimStart s = EmptyString.
Proof.
  induction s as [|c s IH]; [done|]. cbn [all_chars trimStart].
  intros [-> Hs]%andb_prop. by apply IH.
Qed.

(** X18: an instruction that is empty or made of white space only is
    answered with status failed, code SY03 and the malformed-instruction
    message, and the accounts are left as they were. *)
Theorem blank_instruction_is_malformed now accounts instruction :
  all_chars is_space instruction = true ->
  parseInstruction now accounts instruction
  = Returns (Response.fail Response.initial MALFORMED_INSTRUCTION "SY03")
      accounts.
Proof.
  intros H. unfold parseInstruction, trim. by rewrite (trimStart_spaces _ H).
Qed.

Lemma blank_instruction_is_malformed_witness :
  parseInstruction clock_2026_11_03 two_accounts "   "
  = Returns (Response.fail Response.initial MALFORMED_INSTRUCTION "SY03")
      two_accounts.
Proof.
  apply (blank_instruction_is_malformed clock_2026_11_03 two_accounts "   ").
  reflexivity.
Defined.

(** ** The request handler *)

(** X19: the handler throws exactly when the evaluation does; otherwise it
    returns the response as data, with HTTP 200 and the message
    "Transaction executed successfully" when the status is successful or
    pending, and with HTTP 400 when the status is failed, in which case the
    accounts are as they were and the message is the text of the reason,
    or "Failed to process instruction" when the catalog has no text or an
    empty one for it. *)
Theorem handler_reply catalog now accounts instruction :
  match handler catalog now accounts instruction with
  | None => parseInstruction now accounts instruction = Throws
  | Some (reply, accounts') =>
      let response := Reply.data reply in
      parseInstruction now accounts instruction = Returns response accounts' /\
      (Response.status response <> failed ->
       Reply.status reply = HTTP_200_OK
       /\ Reply.message reply = "Transaction executed successfully"
       /\ In (Response.status_code response) ["AP00"; "AP02"]) /\
      (Response.status response = failed ->
       Reply.status reply = HTTP_400_BAD_REQUEST
       /\ accounts' = accounts
       /\ (forall text, catalog (Response.status_reason response) = Some text ->
                        text <> EmptyString -> Reply.message reply = text)
       /\ (catalog (Response.status_reason response) = None
           \/ catalog (Response.status_reason response) = Some EmptyString ->
           Reply.message reply = "Failed to process instruction"))
  end.
Proof.
  unfold handler.
  destruct (parseInstruction now accounts instruction) as [|r accounts'] eqn:H;
    [done|].
  pose proof (response_codes_of_status _ _ _ _ _ H) as Hcodes.
  destruct (Response.status r) eqn:Hs; cbn [Reply.data Reply.status Reply.message].
  - split; [done|]. rewrite Hs. split; [|done]. intros _.
    destruct Hcodes as [(_ & ->)|[(? & _)|(? & _)]]; try done. cbn. tauto.
  - split; [done|]. rewrite Hs. split; [|done]. intros _.
    destruct Hcodes as [(? & _)|[(_ & ->)|(? & _)]]; try done. cbn. tauto.
  - split; [done|]. rewrite Hs. split; [done|]. intros _.
    destruct (parseInstruction_failed _ _ _ _ _ H Hs) as [-> _].
    split; [done|]. split; [done|]. split.
    + intros text -> Hne. by destruct text.
    + by intros [-> | ->].
Qed.

Example handler_on_samples :
  handler sample_catalog clock_2026_11_03 two_accounts "debit 500 usd x x ACC1"
  = Some ({| Reply.status := HTTP_400_BAD_REQUEST;
             Reply.message := "Account not found";
             Reply.data :=
               Response.fail Response.initial ACCOUNT_NOT_FOUND "AC03" |},
          two_accounts)
  /\ handler sample_catalog clock_2026_11_03 two_accounts "pay 500 usd"
     = Some ({| Reply.status := HTTP_400_BAD_REQUEST;
                Reply.message := "Failed to process instruction";
                Reply.data :=
                  Response.fail Response.initial MALFORMED_INSTRUCTION "SY03" |},
             two_accounts)
  /\ handler sample_catalog clock_2026_11_03 two_accounts "constructor 1 usd"
     = None.
Proof. by repeat split. Qed.

(** ** Rejections on the accounts *)

Lemma Map_get_unknown accounts key :
  (forall i a, accounts !! i = Some a -> key <> Some (Account.id a)) ->
  Map_get accounts (accountsMap_of accounts) key = None.
Proof.
  intros H. unfold Map_get. destruct key as [k|]; [|done]. cbn.
  destruct (accountsMap_of accounts !! k) as [j|] eqn:Hj; [|done].
  apply accountsMap_of_Some in Hj as (b & Hb & <-). by destruct (H j b Hb).
Qed.

Lemma Map_get_known accounts i a :
  accounts !! i = Some a ->
  exists j b, Map_get accounts (accountsMap_of accounts) (Some (Account.id a))
              = Some (j, b).
Proof.
  intros Ha. unfold Map_get. cbn.
  destruct (accountsMap_of accounts !! Account.id a) as [j|] eqn:Hj.
  - destruct (accountsMap_of_Some _ _ _ Hj) as (b & Hb & _). cbn.
    rewrite Hb. cbn. by eexists _, _.
  - by destruct (proj1 (proj2 (accountsMap_of_lookup accounts _)) Hj i a Ha).
Qed.

(** The chain after the checks on type, amount and currency. *)
Lemma validateParsedFields_accounts parsed accounts ty amt cur :
  Parsed.type parsed = Some ty ->
  Parsed.amount parsed = Some amt -> amt <> EmptyString ->
  includes "." amt = false ->
  JsNumber.leb (Number amt) (Fin 0 0) = false ->
  Parsed.currency parsed = Some cur -> cur <> EmptyString ->
  js_in (toLowerCase cur) SUPPORTED_CURRENCIES = true ->
  let result := validateParsedFields parsed accounts (accountsMap_of accounts) in
  let get := Map_get accounts (accountsMap_of accounts) in
  (isValidAccountId (Parsed.debit_account parsed) = false ->
   isValidAccountId (Parsed.credit_account parsed) = false ->
   result = error "AC04" INVALID_ACCOUNT_ID) /\
  (isValidAccountId (Parsed.debit_account parsed) = true
   \/ isValidAccountId (Parsed.credit_account parsed) = true ->
   (get (Parsed.debit_account parsed) = None
    \/ get (Parsed.credit_account parsed) = None ->
    result = error "AC03" ACCOUNT_NOT_FOUND) /\
   (get (Parsed.debit_account parsed) <> None ->
    get (Parsed.credit_account parsed) <> None ->
    Parsed.debit_account parsed = Parsed.credit_account parsed ->
    result = error "AC02" SAME_ACCOUNT_ERROR)).
Proof.
  intros Hty Hamt Ha Hdot Hpos Hcur Hc Hin. cbv zeta.
  unfold validateParsedFields. rewrite Hty, Hamt, Hcur.
  cbn [JsNumber.isNaN field_value ToNumber].
  change (default "" (Some amt)) with amt. change (default "" (Some cur)) with cur.
  fold (Number amt). rewrite Hdot, Hpos, Hin.
  assert (truthy (Some amt) = true) as -> by by destruct amt.
  assert (truthy (Some cur) = true) as -> by by destruct cur.
  cbn [negb orb]. split.
  - by intros -> ->.
  - intros Hvalid.
    assert (negb (isValidAccountId (Parsed.debit_account parsed))
            && negb (isValidAccountId (Parsed.credit_account parsed)) = false)
      as -> by (destruct Hvalid as [-> | ->]; cbn; by rewrite ?andb_false_r).
    split.
    + intros [-> | ->]; [done|]. by destruct (Map_get _ _ _) as [[]|].
    + intros Hd Hk He.
      destruct (Map_get accounts _ (Parsed.debit_account parsed)) as [[]|];
        [|done].
      destruct (Map_get accounts _ (Parsed.credit_account parsed)) as [[]|];
        [|done].
      by rewrite (bool_decide_eq_true_2 _ He).
Qed.

(** X20: when the start of the instruction passes the checks on its text,
    the tokens at the positions 5 and 10 decide: if neither is a valid
    account id the answer is AC04; if one is valid and one of the two is
    missing or the id of no supplied account the answer is AC03; if both are
    the same id of a supplied account, and that id is valid, the answer is
    AC02.  In each case the status is failed and the accounts are left as
    they were. *)
Theorem account_rejections now accounts instruction :
  head_passes instruction ->
  let words := tokenize (trim instruction) in
  let answer code reason :=
    parseInstruction now accounts instruction
    = Returns (Response.fail Response.initial reason code) accounts in
  (isValidAccountId (words !! 5%nat) = false ->
   isValidAccountId (words !! 10%nat) = false ->
   answer "AC04" INVALID_ACCOUNT_ID) /\
  (isValidAccountId (words !! 5%nat) = true
   \/ isValidAccountId (words !! 10%nat) = true ->
   ((exists p, (p = 5 \/ p = 10)%nat
               /\ forall i a, accounts !! i = Some a ->
                              words !! p <> Some (Account.id a)) ->
    answer "AC03" ACCOUNT_NOT_FOUND) /\
   (forall i a, accounts !! i = Some a ->
                words !! 5%nat = Some (Account.id a) ->
                words !! 10%nat = Some (Account.id a) ->
                answer "AC02" SAME_ACCOUNT_ERROR)).
Proof.
  intros (Hkw & (amt & H1 & Hdot & Hpos) & (cur & H2 & Hin)). cbv zeta.
  unfold first_keyword in Hkw.
  pose proof (parseInstructionData_cases (trim instruction)) as Hc.
  cbv zeta in Hc.
  destruct (tokenize (trim instruction) !! 0%nat) as [w|] eqn:Hw;
    [|by destruct Hkw].
  pose proof (first_token_truthy _ _ Hw) as Tw.
  assert (amt <> EmptyString) as Hamt.
  { apply (tokenize_nonempty (trim instruction)), list_elem_of_In.
    by eapply list_elem_of_lookup_2. }
  assert (cur <> EmptyString) as Hcur.
  { apply (tokenize_nonempty (trim instruction)), list_elem_of_In.
    by eapply list_elem_of_lookup_2. }
  assert (toUpperCase cur <> EmptyString) as Hcur' by by destruct cur.
  assert (js_in (toLowerCase (toUpperCase cur)) SUPPORTED_CURRENCIES = true)
    as Hin'.
  { rewrite toLowerCase_toUpperCase. by apply js_in_SUPPORTED_CURRENCIES. }
  assert (exists parsed,
            parseInstructionData (trim instruction) = Some parsed
            /\ Parsed.type parsed = Some w
            /\ Parsed.amount parsed = Some amt
            /\ Parsed.currency parsed = Some (toUpperCase cur)
            /\ (Parsed.debit_account parsed = tokenize (trim instruction) !! 5%nat
                /\ Parsed.credit_account parsed
                   = tokenize (trim instruction) !! 10%nat
                \/ Parsed.credit_account parsed
                   = tokenize (trim instruction) !! 5%nat
                   /\ Parsed.debit_account parsed
                      = tokenize (trim instruction) !! 10%nat))
    as (parsed & Hp & Hty & Ha & Hcu & Hpos').
  { cbn in Hkw, Hc. rewrite H1, H2 in Hc.
    destruct Hkw as [[= E]|[= E]]; rewrite E in Hc; cbn in Hc;
      eexists; (split; [exact Hc|]); cbn; repeat split; auto. }
  destruct (validateParsedFields_accounts parsed accounts w amt (toUpperCase cur)
              Hty Ha Hamt Hdot Hpos Hcu Hcur' Hin') as [H04 Hrest].
  assert (forall code reason,
            validateParsedFields parsed accounts (accountsMap_of accounts)
            = error code reason ->
            parseInstruction now accounts instruction
            = Returns (Response.fail Response.initial reason code) accounts)
    as Hanswer.
  { intros code reason He. unfold parseInstruction. by rewrite Hp, Hty, Tw, He. }
  split.
  - intros V5 V10. apply Hanswer, H04.
    all: destruct Hpos' as [[E1 E2]|[E1 E2]]; rewrite ?E1, ?E2; done.
  - intros Hvalid.
    destruct Hrest as [H03 H02];
      [destruct Hpos' as [[E1 E2]|[E1 E2]]; rewrite E1, E2; tauto|].
    split.
    + intros (p & Hp5 & Hnone). apply Hanswer, H03.
      pose proof (Map_get_unknown accounts _ Hnone) as Hget.
      destruct Hpos' as [[E1 E2]|[E1 E2]], Hp5 as [-> | ->];
        rewrite E1, E2; auto.
    + intros i a Hia E5 E10.
      destruct (Map_get_known _ _ _ Hia) as (j & b & Hget).
      apply Hanswer, H02.
      all: destruct Hpos' as [[E1 E2]|[E1 E2]];
        rewrite ?E1, ?E2, ?E5, ?E10, ?Hget; done.
Qed.

Lemma account_rejections_witness :
  let words := tokenize (trim "debit 500 usd x x ACC1") in
  let answer code reason :=
    parseInstruction clock_2026_11_03 two_accounts "debit 500 usd x x ACC1"
    = Returns (Response.fail Response.initial reason code) two_accounts in
  (isValidAccountId (words !! 5%nat) = false ->
   isValidAccountId (words !! 10%nat) = false ->
   answer "AC04" INVALID_ACCOUNT_ID) /\
  (isValidAccountId (words !! 5%nat) = true
   \/ isValidAccountId (words !! 10%nat) = true ->
   ((exists p, (p = 5 \/ p = 10)%nat
               /\ forall i a, two_accounts !! i = Some a ->
                              words !! p <> Some (Account.id a)) ->
    answer "AC03" ACCOUNT_NOT_FOUND) /\
   (forall i a, two_accounts !! i = Some a ->
                words !! 5%nat = Some (Account.id a) ->
                words !! 10%nat = Some (Account.id a) ->
                answer "AC02" SAME_ACCOUNT_ERROR)).
Proof.
  apply (account_rejections clock_2026_11_03 two_accounts
           "debit 500 usd x x ACC1").
  split; [by left|]. split.
  - exists "500". by repeat split.
  - exists "usd". split; [reflexivity|]. by left.
Defined.

(** ** Acceptance *)

(** Under distinct ids the map refers to the account of an id. *)
Lemma Map_get_NoDup accounts i a :
  NoDup (Account.id <$> accounts) -> accounts !! i = Some a ->
  Map_get accounts (accountsMap_of accounts) (Some (Account.id a))
  = Some (i, a).
Proof.
  intros Hnd Ha. destruct (Map_get_known _ _ _ Ha) as (j & b & Hget).
  rewrite Hget. apply Map_get_Some in Hget as [Hb [= Hid]].
  assert (j = i) as ->; [|congruence].
  apply (NoDup_lookup _ _ _ (Account.id a) Hnd);
    rewrite list_lookup_fmap; [by rewrite Hb, Hid | by rewrite Ha].
Qed.

(** X21: an instruction is accepted, with status successful or pending, when
    the start of its text passes the checks, the tokens at the positions 5
    and 10 are two different ids of supplied accounts of the same currency up
    to letter case, one of them a valid account id, the token at position
    12 is missing or a valid date, and, should the first token be exactly
    "DEBIT", the balance of the account at position 5 is not below the
    amount.  The ids of the supplied accounts are taken to be distinct. *)
Theorem well_formed_instruction_is_accepted now accounts instruction
    amt i a j b :
  NoDup (Account.id <$> accounts) ->
  head_passes instruction ->
  let words := tokenize (trim instruction) in
  words !! 1%nat = Some amt ->
  accounts !! i = Some a -> accounts !! j = Some b ->
  words !! 5%nat = Some (Account.id a) ->
  words !! 10%nat = Some (Account.id b) ->
  Account.id a <> Account.id b ->
  isValidAccountId (words !! 5%nat) = true
  \/ isValidAccountId (words !! 10%nat) = true ->
  toUpperCase (Account.currency a) = toUpperCase (Account.currency b) ->
  (words !! 0%nat = Some "DEBIT" ->
   JsNumber.ltb (ToNumber (Account.balance a)) (Number amt) = false) ->
  (forall e, words !! 12%nat = Some e -> isValidDateYYYYMMDD e = true) ->
  exists r accounts',
    parseInstruction now accounts instruction = Returns r accounts' /\
    (Response.status r = successful \/ Response.status r = pending).
Proof.
  intros Hnd (Hkw & (amt' & H1' & Hdot & Hpos) & (cur & H2 & Hin)) words
         H1 Ha Hb H5 H10 Hid Hvalid Hsame Hfunds Hdate.
  subst words. cbv zeta in *. rewrite H1 in H1'. injection H1' as <-.
  unfold first_keyword in Hkw.
  pose proof (parseInstructionData_cases (trim instruction)) as Hc.
  cbv zeta in Hc.
  destruct (tokenize (trim instruction) !! 0%nat) as [w|] eqn:Hw;
    [|by destruct Hkw].
  pose proof (first_token_truthy _ _ Hw) as Tw.
  assert (truthy (Some amt) = true) as Tamt.
  { assert (amt <> EmptyString) as Hne; [|by destruct amt].
    apply (tokenize_nonempty (trim instruction)), list_elem_of_In.
    by eapply list_elem_of_lookup_2. }
  assert (truthy (Some (toUpperCase cur)) = true) as Tcur.
  { assert (cur <> EmptyString) as Hne; [|by destruct cur].
    apply (tokenize_nonempty (trim instruction)), list_elem_of_In.
    by eapply list_elem_of_lookup_2. }
  assert (js_in (toLowerCase (toUpperCase cur)) SUPPORTED_CURRENCIES = true)
    as Hin'.
  { rewrite toLowerCase_toUpperCase. by apply js_in_SUPPORTED_CURRENCIES. }
  pose proof (Map_get_NoDup _ _ _ Hnd Ha) as Ga.
  pose proof (Map_get_NoDup _ _ _ Hnd Hb) as Gb.
  assert (truthy (tokenize (trim instruction) !! 12%nat)
          && negb (isValidDateYYYYMMDD
                     (default "" (tokenize (trim instruction) !! 12%nat)))
          = false) as Hd12.
  { destruct (tokenize (trim instruction) !! 12%nat) as [e|] eqn:E; [|done].
    change (default "" (Some e)) with e. rewrite (Hdate e eq_refl).
    by rewrite andb_false_r. }
  assert (exists parsed debit d credit c,
            parseInstructionData (trim instruction) = Some parsed
            /\ truthy (Parsed.type parsed) = true
            /\ validateParsedFields parsed accounts (accountsMap_of accounts)
               = None
            /\ Map_get accounts (accountsMap_of accounts)
                 (Parsed.debit_account parsed) = Some (debit, d)
            /\ Map_get accounts (accountsMap_of accounts)
                 (Parsed.credit_account parsed) = Some (credit, c))
    as (parsed & debit & d & credit & c & Hp & Ht & Hv & Gd & Gc).
  { cbn in Hkw, Hc. rewrite H1, H2, H5, H10 in Hc. rewrite H5, H10 in Hvalid.
    destruct Hkw as [[= E]|[= E]]; rewrite E in Hc; cbn in Hc;
      eexists _, _, _, _, _; (split; [exact Hc|]);
      (split; [exact Tw|]); (split; [|split; [eassumption|eassumption]]);
      unfold validateParsedFields;
      cbn [Parsed.type Parsed.amount Parsed.currency Parsed.debit_account
             Parsed.credit_account Parsed.execute_by];
      rewrite Tamt, Tcur, Ga, Gb, Hd12;
      cbn [JsNumber.isNaN field_value ToNumber negb orb];
      change (default "" (Some amt)) with amt;
      change (default "" (Some (toUpperCase cur))) with (toUpperCase cur);
      fold (Number amt); rewrite Hdot, Hpos, Hin'; cbn [negb orb].
    - assert (negb (isValidAccountId (Some (Account.id a)))
              && negb (isValidAccountId (Some (Account.id b))) = false) as ->
        by (destruct Hvalid as [-> | ->]; cbn; by rewrite ?andb_false_r).
      rewrite bool_decide_eq_false_2 by congruence.
      rewrite Hsame, String.eqb_refl, E. cbn [negb andb String.eqb Ascii.eqb].
      destruct (bool_decide_reflect (Some w = own_property SUPPORTED_TYPE "debit"))
        as [[= ->]|]; [|done].
      by rewrite (Hfunds eq_refl).
    - assert (negb (isValidAccountId (Some (Account.id b)))
              && negb (isValidAccountId (Some (Account.id a))) = false) as ->
        by (destruct Hvalid as [-> | ->]; cbn; by rewrite ?andb_false_r).
      rewrite bool_decide_eq_false_2 by congruence.
      rewrite Hsame, String.eqb_refl, E. cbn [negb andb].
      destruct (bool_decide_reflect (Some w = own_property SUPPORTED_TYPE "debit"))
        as [[= ->]|]; [discriminate E|done]. }
  rewrite (parseInstruction_validated _ _ _ _ _ _ _ _ Hp Ht Hv Gd Gc).
  cbv zeta. eexists _, _. split; [reflexivity|].
  cbn [settled_response Response.status].
  destruct (execution_cases now (Parsed.execute_by parsed)) as [-> | ->]; auto.
Qed.

Lemma well_formed_instruction_is_accepted_witness :
  exists r accounts',
    parseInstruction clock_2026_11_03 two_accounts
      "debit 500 USD x x ACC1 x x x x ACC2 on 2099-01-01"
    = Returns r accounts' /\
    (Response.status r = successful \/ Response.status r = pending).
Proof.
  apply (well_formed_instruction_is_accepted clock_2026_11_03 two_accounts
           "debit 500 USD x x ACC1 x x x x ACC2 on 2099-01-01" "500"
           0%nat (acct "ACC1" 1000 "USD") 1%nat (acct "ACC2" 0 "USD")).
  - by apply (bool_decide_unpack _).
  - split; [by left|]. split.
    + exists "500". by repeat split.
    + exists "USD". split; [reflexivity|]. by left.
  - reflexivity.
  - reflexivity.
  - reflexivity.
  - reflexivity.
  - reflexivity.
  - discriminate.
  - by left.
  - reflexivity.
  - discriminate.
  - intros e [= <-]. reflexivity.
Defined.
